(** * create_package.py: the offline package builder

    A shallow embedding of [etc/scripts/create_package.py] (sidecar-redfish)
    and the properties of its diff engine, dependency-delta resolver and
    deterministic archive assembler.

    Conventions of the embedding:
    - a Python [str] is a Rocq [string] whose characters are the code points
      U+0000..U+00FF; [bytes] is a [string] of octets;
    - a Python [int] is a [Z];
    - a [dict] whose iteration order is observed is an association list with
      unique keys in insertion order ([PyDict]); a [dict] that is only
      looked up is a [gmap];
    - the subprocesses (git, pip), the file system and the [pathspec] library
      are external: their answers are the fields of a [World];
    - [logging] calls and exceptions are threaded through the monad [M]. *)

From Stdlib Require Import ZArith NArith Ascii String List Lia Permutation Sorted.
From stdpp Require Import base tactics option list strings gmap sorting pretty.
Import ListNotations.

Local Open Scope Z_scope.

(** ** Python [str] methods used by the script *)
Module PyStr.

Definition nul : ascii := Ascii.ascii_of_N 0.
Definition tab : ascii := Ascii.ascii_of_N 9.
Definition lf : ascii := Ascii.ascii_of_N 10.
Definition cr : ascii := Ascii.ascii_of_N 13.
Definition esc : ascii := Ascii.ascii_of_N 27.

Definition char (c : ascii) : string := String c "".

(** [str.isspace] on one character (code points below 256). *)
Definition is_space (c : ascii) : bool :=
  let n := Ascii.N_of_ascii c in
  ((9 <=? n) && (n <=? 13) || (28 <=? n) && (n <=? 32)
   || (n =? 133) || (n =? 160))%N.

(** The line boundaries of [str.splitlines] (code points below 256). *)
Definition is_linebreak (c : ascii) : bool :=
  let n := Ascii.N_of_ascii c in
  ((10 <=? n) && (n <=? 13) || (28 <=? n) && (n <=? 30) || (n =? 133))%N.

Definition is_empty (s : string) : bool :=
  match s with "" => true | _ => false end.

Fixpoint lstrip_by (p : ascii → bool) (s : string) : string :=
  match s with
  | "" => ""
  | String c s' => if p c then lstrip_by p s' else s
  end.

Fixpoint rstrip_by (p : ascii → bool) (s : string) : string :=
  match s with
  | "" => ""
  | String c s' =>
      let r := rstrip_by p s' in
      if is_empty r && p c then "" else String c r
  end.

Definition strip_by (p : ascii → bool) (s : string) : string :=
  rstrip_by p (lstrip_by p s).

(** [s.strip()] *)
Definition strip : string → string := strip_by is_space.

Fixpoint mem_char (c : ascii) (chars : string) : bool :=
  match chars with
  | "" => false
  | String d chars' => bool_decide (c = d) || mem_char c chars'
  end.

(** [s.strip(chars)] *)
Definition strip_chars (chars : string) : string → string :=
  strip_by (λ c, mem_char c chars).

(** [s.startswith(p)] *)
Definition startswith (p s : string) : bool := String.prefix p s.

(** [s.endswith(p)] *)
Fixpoint endswith (p s : string) : bool :=
  bool_decide (s = p) ||
  match s with
  | "" => false
  | String _ s' => endswith p s'
  end.

(** [s.replace(old, new)] for a one-character [old]. *)
Fixpoint replace (old : ascii) (new : string) (s : string) : string :=
  match s with
  | "" => ""
  | String c s' =>
      if bool_decide (c = old) then new +:+ replace old new s'
      else String c (replace old new s')
  end.

(** [sep.join(l)] *)
Fixpoint join (sep : string) (l : list string) : string :=
  match l with
  | [] => ""
  | [x] => x
  | x :: l' => x +:+ sep +:+ join sep l'
  end.

(** [s.split(sep)] for a non-empty [sep]: the text is scanned from the
    left, [cur] is the piece being read and [skip] counts the characters of
    a separator that was just recognised and is still to be passed. *)
Fixpoint split_go (sep : string) (skip : nat) (cur s : string) : list string :=
  match s with
  | "" => [cur]
  | String c s' =>
      match skip with
      | S k => split_go sep k cur s'
      | O =>
          if String.prefix sep s
          then cur :: split_go sep (String.length sep - 1) "" s'
          else split_go sep 0 (cur +:+ char c) s'
      end
  end.
Definition split (sep s : string) : list string := split_go sep 0 "" s.

(** [s.split()]: the maximal runs of non-blank characters. *)
Fixpoint split_ws_go (cur s : string) : list string :=
  match s with
  | "" => if is_empty cur then [] else [cur]
  | String c s' =>
      if is_space c
      then (if is_empty cur then [] else [cur]) ++ split_ws_go "" s'
      else split_ws_go (cur +:+ char c) s'
  end.
Definition split_ws : string → list string := split_ws_go "".

(** [s.splitlines()]: a carriage return followed by a line feed is one
    boundary; a boundary at the very end opens no further line. *)
Fixpoint splitlines_go (cur s : string) : list string :=
  match s with
  | "" => if is_empty cur then [] else [cur]
  | String c s' =>
      if bool_decide (c = cr) then
        match s' with
        | String d s'' =>
            if bool_decide (d = lf) then cur :: splitlines_go "" s''
            else cur :: splitlines_go "" s'
        | "" => [cur]
        end
      else if is_linebreak c then cur :: splitlines_go "" s'
      else splitlines_go (cur +:+ char c) s'
  end.
Definition splitlines : string → list string := splitlines_go "".

(** [int(s, 8)] on a token that holds no blank: an optional sign, an
    optional [0o] prefix, then octal digits, single underscores allowed
    between digits and after the prefix.  [None] is [ValueError]. *)
Definition octal_digit (c : ascii) : option Z :=
  let n := Ascii.N_of_ascii c in
  if ((48 <=? n) && (n <=? 55))%N then Some (Z.of_N n - 48) else None.

Fixpoint octal_go (acc : Z) (after_digit : bool) (s : string) : option Z :=
  match s with
  | "" => if after_digit then Some acc else None
  | String c s' =>
      if bool_decide (c = "_"%char) then
        (if after_digit then
           match s' with
           | "" => None
           | _ => octal_go acc false s'
           end
         else None)
      else
        match octal_digit c with
        | Some d => octal_go (8 * acc + d) true s'
        | None => None
        end
  end.

Definition octal_body (s : string) : option Z :=
  match s with
  | String "0" (String "o" s') | String "0" (String "O" s') =>
      match s' with
      | String "_" s'' => octal_go 0 false s''
      | _ => octal_go 0 false s'
      end
  | _ => octal_go 0 false s
  end.

Definition int_base8 (s : string) : option Z :=
  match s with
  | String "-" s' => Z.opp <$> octal_body s'
  | String "+" s' => octal_body s'
  | _ => octal_body s
  end.

(** [s.encode('utf-8')] on code points below 256. *)
Fixpoint encode_utf8 (s : string) : string :=
  match s with
  | "" => ""
  | String c s' =>
      let n := Ascii.N_of_ascii c in
      if (n <? 128)%N then String c (encode_utf8 s')
      else String (Ascii.ascii_of_N (192 + n / 64))
             (String (Ascii.ascii_of_N (128 + n mod 64)) (encode_utf8 s'))
  end.

End PyStr.

(** ** Python [dict] with its insertion order

    [items] of a [dict] come in the order the keys were first inserted;
    assigning to a key that is already there keeps its place. *)
Module PyDict.
Section dict.
Context {K V : Type} `{EqDecision K, EqDecision V}.

(** [d.get(k)], [None] when the key is missing. *)
Fixpoint get (d : list (K * V)) (k : K) : option V :=
  match d with
  | [] => None
  | (k', v) :: d' => if decide (k = k') then Some v else get d' k
  end.

(** [k in d] *)
Definition mem (d : list (K * V)) (k : K) : bool :=
  match get d k with Some _ => true | None => false end.

(** [d[k] = v] *)
Fixpoint set (d : list (K * V)) (k : K) (v : V) : list (K * V) :=
  match d with
  | [] => [(k, v)]
  | (k', v') :: d' =>
      if decide (k = k') then (k, v) :: d' else (k', v') :: set d' k v
  end.

(** [d1 == d2]: the same keys bound to the same values, in any order. *)
Definition eqb (d1 d2 : list (K * V)) : bool :=
  bool_decide (length d1 = length d2)
  && forallb (λ kv, bool_decide (get d2 kv.1 = Some kv.2)) d1.
End dict.
End PyDict.

(** ** Logging, exceptions and the monad of the script *)

Inductive level := INFO | WARNING | ERROR.

Definition event : Type := level * string.

(** [SystemExit code] is [sys.exit(code)]; [Raised cls msg] is any other
    exception, of class [cls], whose [str()] is [msg]. *)
Inductive failure :=
  | SystemExit (code : Z)
  | Raised (cls msg : string).

Inductive result (A : Type) :=
  | Ok (a : A)
  | Fail (e : failure).
Arguments Ok {A} a.
Arguments Fail {A} e.

(** A computation returns the records it logged, in order, and either a
    value or the failure that stopped it. *)
Definition M (A : Type) : Type := list event * result A.

Definition M_ret {A} (a : A) : M A := ([], Ok a).

Definition M_bind {A B} (f : A → M B) (m : M A) : M B :=
  match m.2 with
  | Ok a => (m.1 ++ (f a).1, (f a).2)
  | Fail e => (m.1, Fail e)
  end.

#[global] Instance M_mret : MRet M := @M_ret.
#[global] Instance M_mbind : MBind M := @M_bind.

Definition log (l : level) (msg : string) : M () := ([(l, msg)], Ok ()).
Definition sys_exit {A} (code : Z) : M A := ([], Fail (SystemExit code)).
Definition raise {A} (cls msg : string) : M A := ([], Fail (Raised cls msg)).

(** A [for] loop that updates an accumulator. *)
Fixpoint foldM {A B} (f : B → A → M B) (l : list A) (b : B) : M B :=
  match l with
  | [] => mret b
  | x :: l' => b' ← f b x; foldM f l' b'
  end.

(** A list comprehension whose element expression may fail. *)
Fixpoint mapM {A B} (f : A → M B) (l : list A) : M (list B) :=
  match l with
  | [] => mret []
  | x :: l' => y ← f x; ys ← mapM f l'; mret (y :: ys)
  end.

Definition when (b : bool) (m : M ()) : M () := if b then m else mret ().

(** ** The data of the script *)

(** [subprocess.CompletedProcess]; [stdout] is text, or the octets when the
    call asked for [text=False]. *)
Record CompletedProcess := {
  returncode : Z;
  stdout : string;
  stderr : string
}.

(** The command line arguments, as [argparse] hands them over. *)
Record Args := {
  old_version : string;
  new_version : string;
  output_file : option string;
  py_version : string;
  platform : string;
  force : bool;
  full : bool
}.

Inductive tartype := REGTYPE | DIRTYPE.

(** [tarfile.TarInfo], the fields that reach the archive. *)
Record TarInfo := {
  ti_name : string;
  ti_size : Z;
  ti_mode : Z;
  ti_mtime : Z;
  ti_uid : Z;
  ti_gid : Z;
  ti_uname : string;
  ti_gname : string;
  ti_type : tartype
}.

(** [tarfile.TarInfo(name=...)] *)
Definition TarInfo_new (name : string) : TarInfo :=
  {| ti_name := name; ti_size := 0; ti_mode := 420; ti_mtime := 0;
     ti_uid := 0; ti_gid := 0; ti_uname := ""; ti_gname := "";
     ti_type := REGTYPE |}.

(** One entry of the staging tree under [wheels/], as [tarfile.add] meets it:
    its path below the staging directory (empty for the directory itself) and
    what [os.lstat] and the user database of the host say about it. *)
Record StagedEntry := {
  st_rel : string;
  st_isdir : bool;
  st_mode : Z;
  st_mtime : Z;
  st_uid : Z;
  st_gid : Z;
  st_uname : string;
  st_gname : string;
  st_data : string
}.

(** What the script writes: [gzip.GzipFile(filename, 'wb', mtime)] around a
    tar stream of members, in the order they are added.  The octets of the
    file are what [tarfile] and [gzip] derive from these fields. *)
Record Archive := {
  gz_filename : string;
  gz_mtime : Z;
  tar_entries : list (TarInfo * string)
}.

(** The collaborators of one run.  The host is POSIX.
    - [script_ancestors]: the directories from the one holding the script
      upwards, the file system root left out, each with whether it holds a
      [.git] directory;
    - [subprocess_run command cwd input]: [subprocess.run]; [None] when the
      executable is not found;
    - [distignore]: the text of [.distignore] at the project root, if it is
      a file;
    - [PathSpec_from_lines lines]: [pathspec.PathSpec.from_lines] with
      [GitWildMatchPattern], as the [match_file] of the compiled spec;
      [None] when a pattern is refused.  [match_files] of pathspec yields
      the given files the spec matches, each decided on its own;
    - [staging_walk]: the tree below [temp_dir/wheels] once the downloads
      are over, in the order [tarfile.add] walks it. *)
Record World := {
  script_ancestors : list (string * bool);
  cwd : string;
  resolve : string → string;
  sys_executable : string;
  temp_dir : string;
  subprocess_run :
    list string → option string → option string → option CompletedProcess;
  distignore : option string;
  PathSpec_from_lines : list string → option (string → bool);
  staging_walk : list StagedEntry
}.

Inductive outcome :=
  | PackageCreated (output_path : string) (a : Archive)
  | NoPackage.

(** ** [pathlib] on a POSIX host *)
Module PyPath.
Import PyStr.

Definition os_sep : ascii := "/"%char.

(** The components [PurePosixPath] keeps: empty ones and [.] are dropped. *)
Definition parts (p : string) : list string :=
  filter (λ c, c ≠ "" ∧ c ≠ ".") (split "/" p).

(** The root of a path: [/], or [//] for exactly two leading slashes. *)
Definition root (p : string) : string :=
  match p with
  | String "/" (String "/" (String "/" _)) => "/"
  | String "/" (String "/" _) => "//"
  | String "/" _ => "/"
  | _ => ""
  end.

Definition render (rt : string) (cs : list string) : string :=
  if is_empty rt && bool_decide (cs = []) then "." else rt +:+ join "/" cs.

(** [str(Path(p))] *)
Definition normal (p : string) : string := render (root p) (parts p).

(** [str(Path(p).parent)] *)
Definition parent (p : string) : string :=
  render (root p) (removelast (parts p)).

(** [str(Path(a) / b)] *)
Definition joinpath (a b : string) : string :=
  if startswith "/" b then normal b else render (root a) (parts a ++ parts b).

(** [os.path.basename] *)
Definition basename (p : string) : string := List.last (split "/" p) "".

End PyPath.

(** ** The script *)

Module Style.
Import PyStr.
Definition GREEN : string := String esc "[92m".
Definition YELLOW : string := String esc "[93m".
Definition RED : string := String esc "[91m".
Definition BLUE : string := String esc "[94m".
Definition BOLD : string := String esc "[1m".
Definition END : string := String esc "[0m".
End Style.

(** 2025-01-01 00:00:00 UTC *)
Definition FIXED_MTIME : Z := 1735689600.

Definition NL : string := PyStr.char PyStr.lf.

Definition nonempty {A} (l : list A) : bool :=
  match l with [] => false | _ => true end.

Definition truthy (s : string) : bool := negb (PyStr.is_empty s).

Section script.
Variable w : World.

(** [run_command]: [None] from the subprocess layer is the
    [FileNotFoundError] of a missing executable.  The call of
    [create_archive] that passes [text=False] gets its output as octets;
    when it fails, the [Stderr:] record of the code shows the [repr] of
    these octets, here it shows the text. *)
Definition run_command (command : list string) (check : bool)
    (dir input : option string) : M CompletedProcess :=
  match subprocess_run w command dir input with
  | None =>
      log ERROR ("Error: Command '" +:+ hd "" command
                 +:+ "' not found. Is it installed and in your PATH?") ;;
      sys_exit 1
  | Some r =>
      if check && negb (bool_decide (returncode r = 0)) then
        log ERROR ("Command failed: " +:+ PyStr.join " " command) ;;
        log ERROR ("Stderr: " +:+ (if truthy (stderr r)
                                  then PyStr.strip (stderr r)
                                  else PyStr.strip (stdout r))) ;;
        sys_exit 1
      else mret r
  end.

Definition get_all_files (project_root version : string) : M (list string) :=
  log INFO ("--- Getting all files for a full package at version '"
            +:+ version +:+ "' ---") ;;
  ls_tree_result ←
    run_command ["git"; "ls-tree"; "-r"; "--name-only"; version]
      true (Some project_root) None;
  let all_files :=
    map (PyStr.replace PyPath.os_sep "/")
      (PyStr.splitlines (PyStr.strip (stdout ls_tree_result))) in
  log INFO ("Found " +:+ pretty (length all_files)
            +:+ " total files in the repository.") ;;
  mret all_files.

Definition find_project_root : M string :=
  match List.find snd (script_ancestors w) with
  | Some current_path => mret current_path.1
  | None =>
      raise "FileNotFoundError"
        "Fatal: Could not find project root (.git directory). Make sure the script is inside a Git repository."
  end.

Definition preflight_checks (project_root old_version new_version : string)
    (force : bool) : M () :=
  log INFO "--- Running Pre-flight Checks ---" ;;
  run_command ["git"; "--version"] true (Some project_root) None ;;
  run_command ["pip"; "--version"] true (Some project_root) None ;;
  run_command ["git"; "cat-file"; "-e"; old_version +:+ "^{commit}"]
    true (Some project_root) None ;;
  run_command ["git"; "cat-file"; "-e"; new_version +:+ "^{commit}"]
    true (Some project_root) None ;;
  (if negb force then
     status_result ←
       run_command ["git"; "status"; "--porcelain"]
         true (Some project_root) None;
     if truthy (stdout status_result) then
       log ERROR "Error: Working directory is not clean. Please commit or stash your changes." ;;
       log ERROR ("To override this check for development, use the "
                  +:+ Style.BOLD +:+ "--force" +:+ Style.END +:+ " flag.") ;;
       log ERROR ("Found uncommitted changes:" +:+ NL
                  +:+ stdout status_result) ;;
       sys_exit 1
     else mret ()
   else
     log WARNING (Style.BOLD +:+ "WARNING: Running in --force mode."
                  +:+ Style.END) ;;
     log WARNING "The working directory is not being checked for cleanliness." ;;
     log WARNING "This is NOT recommended for production builds.") ;;
  log INFO "Pre-flight checks passed.".

(** One turn of the loop of [parse_requirements]. *)
Definition parse_requirement_line (packages : list (string * string))
    (line : string) : list (string * string) :=
  let line := PyStr.strip line in
  if truthy line && negb (PyStr.startswith "#" line) then
    match PyStr.split "==" line with
    | [name; version] =>
        PyDict.set packages (PyStr.strip name) (PyStr.strip version)
    | _ => packages
    end
  else packages.

Definition parse_requirements (content : string) : list (string * string) :=
  fold_left parse_requirement_line (PyStr.splitlines content) [].

Definition get_file_content_from_git (project_root version file_path : string)
    : M string :=
  result ←
    run_command ["git"; "show"; version +:+ ":" +:+ file_path]
      false (Some project_root) None;
  mret (if bool_decide (returncode result = 0) then stdout result else "").

Definition module_display_name (module_dir_path : string) : string :=
  if bool_decide (module_dir_path ≠ ".") then module_dir_path else "<root>".

(** [f"{pkg}=={ver}"] *)
Definition specifier (pin : string * string) : string :=
  pin.1 +:+ "==" +:+ pin.2.

Definition get_all_dependencies (project_root version : string)
    : M (list (string * list string)) :=
  log INFO "--- Getting all Python dependencies for a full package ---" ;;
  req_files_result ←
    run_command ["git"; "ls-tree"; "-r"; "--name-only"; version]
      true (Some project_root) None;
  let req_files :=
    List.filter (PyStr.endswith "requirements.txt")
      (PyStr.splitlines (stdout req_files_result)) in
  all_deps ←
    foldM (λ all_deps req_path_str,
        let module_dir_path := PyPath.parent req_path_str in
        content ← get_file_content_from_git project_root version req_path_str;
        let packages := parse_requirements content in
        if nonempty packages then
          log INFO ("Module '" +:+ Style.BOLD
                    +:+ module_display_name module_dir_path +:+ Style.END
                    +:+ "': Found " +:+ pretty (length packages)
                    +:+ " dependencies.") ;;
          mret (PyDict.set all_deps module_dir_path (map specifier packages))
        else mret all_deps)
      req_files [];
  when (negb (nonempty all_deps)) (log INFO "No dependencies found.") ;;
  mret all_deps.

(** The pins of [new_reqs] that [old_reqs] does not hold as they are. *)
Definition changed_pins (old_reqs new_reqs : list (string * string))
    : list (string * string) :=
  List.filter
    (λ pin, negb (PyDict.mem old_reqs pin.1)
            || negb (bool_decide (PyDict.get old_reqs pin.1 = Some pin.2)))
    new_reqs.

(** One turn of the loop of [get_dependency_changes]. *)
Definition dependency_changes_step (project_root old_version new_version : string)
    (changes : list (string * list string)) (req_path_str : string)
    : M (list (string * list string)) :=
  let module_dir_path := PyPath.parent req_path_str in
  old_content ← get_file_content_from_git project_root old_version req_path_str;
  new_content ← get_file_content_from_git project_root new_version req_path_str;
  let old_reqs := parse_requirements old_content in
  let new_reqs := parse_requirements new_content in
  if PyDict.eqb old_reqs new_reqs then mret changes
  else
    let module_changes := map specifier (changed_pins old_reqs new_reqs) in
    if nonempty module_changes then
      log INFO ("Module '" +:+ Style.BOLD
                +:+ module_display_name module_dir_path +:+ Style.END
                +:+ "': Found " +:+ pretty (length module_changes)
                +:+ " changed dependencies.") ;;
      mret (PyDict.set changes module_dir_path module_changes)
    else mret changes.

Definition get_dependency_changes (project_root old_version new_version : string)
    : M (list (string * list string)) :=
  log INFO "--- Analyzing Python dependency changes ---" ;;
  req_files_result ←
    run_command ["git"; "ls-tree"; "-r"; "--name-only"; new_version]
      true (Some project_root) None;
  let req_files :=
    List.filter (PyStr.endswith "requirements.txt")
      (PyStr.splitlines (stdout req_files_result)) in
  changes ←
    foldM (dependency_changes_step project_root old_version new_version)
      req_files [];
  when (negb (nonempty changes)) (log INFO "No dependency changes found.") ;;
  mret changes.
End script.

Section packaging.
Variable w : World.

Definition download_wheels (changes : list (string * list string))
    (temp_dir py_version platform : string) : M bool :=
  if negb (nonempty changes) then mret false
  else
    log INFO "--- Downloading changed wheels ---" ;;
    let wheels_base_dir := PyPath.joinpath temp_dir "wheels" in
    foldM (λ (_ : ()) (item : string * list string),
        let module_path := item.1 in
        let packages := item.2 in
        let target_dir := PyPath.joinpath wheels_base_dir module_path in
        log INFO ("Downloading for '" +:+ Style.BOLD +:+ module_path
                  +:+ Style.END +:+ "': " +:+ pretty (length packages)
                  +:+ " packages") ;;
        let requirements_content := PyStr.join NL packages in
        let pip_command :=
          [sys_executable w; "-m"; "pip"; "download";
           "--dest"; target_dir;
           "--platform"; platform;
           "--python-version"; py_version;
           "--only-binary=:all:";
           "--no-deps";
           "--requirement"; "-"] in
        result ← run_command w pip_command false None
                   (Some requirements_content);
        when (negb (bool_decide (returncode result = 0)))
          (log WARNING ("pip download may have failed for some packages in '"
                        +:+ module_path +:+ "'.")))
      changes () ;;
    mret (existsb (λ e, PyStr.endswith ".whl" (st_rel e)) (staging_walk w)).

(** The [while] loop of [get_file_diff]: [entries] is what is left from
    index [i] on; reading past the end is [IndexError]. *)
Fixpoint get_file_diff_loop (entries files_to_add files_to_delete : list string)
    : M (list string * list string) :=
  match entries with
  | [] => mret (files_to_add, files_to_delete)
  | status :: rest =>
      if PyStr.startswith "R" status then
        match rest with
        | old_entry :: new_entry :: rest' =>
            let old_path := PyStr.replace PyPath.os_sep "/" old_entry in
            let new_path := PyStr.replace PyPath.os_sep "/" new_entry in
            get_file_diff_loop rest'
              (files_to_add ++ [new_path]) (files_to_delete ++ [old_path])
        | _ => raise "IndexError" "list index out of range"
        end
      else
        match rest with
        | entry :: rest' =>
            let path := PyStr.replace PyPath.os_sep "/" entry in
            if bool_decide (status = "D")
            then get_file_diff_loop rest' files_to_add (files_to_delete ++ [path])
            else get_file_diff_loop rest' (files_to_add ++ [path]) files_to_delete
        | [] => raise "IndexError" "list index out of range"
        end
  end.

Definition get_file_diff (project_root old_version new_version : string)
    : M (list string * list string) :=
  log INFO "--- Analyzing application file changes ---" ;;
  diff_result ←
    run_command w
      ["git"; "diff-tree"; "-r"; "-z"; "--no-commit-id"; "--name-status";
       "--diff-filter=ACMRD"; old_version; new_version]
      true (Some project_root) None;
  let entries :=
    PyStr.split (PyStr.char PyStr.nul)
      (PyStr.strip_chars (PyStr.char PyStr.nul) (stdout diff_result)) in
  '(files_to_add, files_to_delete) ← get_file_diff_loop entries [] [];
  log INFO ("Found " +:+ pretty (length files_to_add)
            +:+ " files to add/update and "
            +:+ pretty (length files_to_delete) +:+ " files to delete.") ;;
  mret (files_to_add, files_to_delete).

Definition filter_files_with_distignore (project_root : string)
    (files_to_add : list string) : M (list string) :=
  let distignore_path := PyPath.joinpath project_root ".distignore" in
  match distignore w with
  | None =>
      log WARNING "Warning: .distignore not found at project root. All changed files will be packaged." ;;
      mret files_to_add
  | Some patterns =>
      log INFO ("--- Applying .distignore rules from '" +:+ distignore_path
                +:+ "' ---") ;;
      match PathSpec_from_lines w (PyStr.splitlines patterns) with
      | None => raise "GitWildMatchPatternError" "invalid pattern"
      | Some match_file =>
          let ignored_files : gset string :=
            list_to_set (List.filter match_file files_to_add) in
          let final_files :=
            List.filter (λ f, negb (bool_decide (f ∈ ignored_files)))
              files_to_add in
          when (negb (bool_decide (ignored_files = ∅)))
            (log INFO ("Excluded " +:+ pretty (size ignored_files)
                       +:+ " files based on .distignore rules.")) ;;
          mret final_files
      end
  end.

Definition reset_tarinfo (ti : TarInfo) : TarInfo :=
  {| ti_name := ti_name ti; ti_size := ti_size ti; ti_mode := ti_mode ti;
     ti_mtime := FIXED_MTIME;
     ti_uid := 0;
     ti_gid := 0;
     ti_uname := "root";
     ti_gname := "root";
     ti_type := ti_type ti |}.

(** One item of the dict comprehension that builds [file_modes] from the
    lines of [git ls-tree]: the key [line.split()[3]], then the value
    [int(line.split()[0], 8)]. *)
Definition file_modes_item (file_modes : gmap string Z) (line : string)
    : M (gmap string Z) :=
  let fields := PyStr.split_ws line in
  match fields !! 3%nat with
  | None => raise "IndexError" "list index out of range"
  | Some key =>
      match fields !! 0%nat with
      | None => raise "IndexError" "list index out of range"
      | Some field0 =>
          match PyStr.int_base8 field0 with
          | None =>
              raise "ValueError"
                ("invalid literal for int() with base 8: '" +:+ field0 +:+ "'")
          | Some mode => mret (<[key := mode]> file_modes)
          end
      end
  end.

(** [tar_members.sort(key=lambda item: item[0].name)]: a stable sort on the
    member name, strings compared by code point. *)
Fixpoint insert_by_name (x : TarInfo * string) (l : list (TarInfo * string))
    : list (TarInfo * string) :=
  match l with
  | [] => [x]
  | y :: l' =>
      if String.leb (ti_name x.1) (ti_name y.1) then x :: l
      else y :: insert_by_name x l'
  end.

Definition sort_by_name (l : list (TarInfo * string)) : list (TarInfo * string) :=
  foldr insert_by_name [] l.

(** [TarFile.gettarinfo] for one entry of the staging tree, named below
    [arcname]. *)
Definition gettarinfo (arcname : string) (e : StagedEntry) : TarInfo :=
  {| ti_name := if PyStr.is_empty (st_rel e) then arcname
                else arcname +:+ "/" +:+ st_rel e;
     ti_size := if st_isdir e then 0 else Z.of_nat (String.length (st_data e));
     ti_mode := st_mode e;
     ti_mtime := st_mtime e;
     ti_uid := st_uid e;
     ti_gid := st_gid e;
     ti_uname := st_uname e;
     ti_gname := st_gname e;
     ti_type := if st_isdir e then DIRTYPE else REGTYPE |}.

(** [create_archive], "Prepare application files for archiving": the
    modes are read from [git ls-tree], the contents from [git show]. *)
Definition prepare_app_members (project_root new_version : string)
    (files_to_add : list string) : M (list (TarInfo * string)) :=
  if nonempty files_to_add then
    log INFO ("Preparing " +:+ pretty (length files_to_add)
              +:+ " application files...") ;;
    ls_tree_result ←
      run_command w (["git"; "ls-tree"; "-r"; new_version] ++ files_to_add)
        true (Some project_root) None;
    file_modes ←
      foldM file_modes_item
        (PyStr.splitlines (PyStr.strip (stdout ls_tree_result))) ∅;
    mapM (λ file_path_str,
        shown ←
          run_command w ["git"; "show"; new_version +:+ ":" +:+ file_path_str]
            true (Some project_root) None;
        let content_bytes := stdout shown in
        let tarinfo := TarInfo_new ("app/" +:+ file_path_str) in
        let tarinfo :=
          {| ti_name := ti_name tarinfo;
             ti_size := Z.of_nat (String.length content_bytes);
             ti_mode := default 420 (file_modes !! file_path_str);
             ti_mtime := ti_mtime tarinfo; ti_uid := ti_uid tarinfo;
             ti_gid := ti_gid tarinfo; ti_uname := ti_uname tarinfo;
             ti_gname := ti_gname tarinfo; ti_type := ti_type tarinfo |} in
        mret (tarinfo, content_bytes))
      files_to_add
  else mret [].

(** [create_archive], "Prepare delete.list for archiving". *)
Definition delete_list_members (files_to_delete : list string)
    : list (TarInfo * string) :=
  if nonempty files_to_delete then
    let delete_content :=
      PyStr.encode_utf8 (PyStr.join NL files_to_delete) in
    let tarinfo := TarInfo_new "delete.list" in
    [({| ti_name := ti_name tarinfo;
         ti_size := Z.of_nat (String.length delete_content);
         ti_mode := 420;
         ti_mtime := ti_mtime tarinfo; ti_uid := ti_uid tarinfo;
         ti_gid := ti_gid tarinfo; ti_uname := ti_uname tarinfo;
         ti_gname := ti_gname tarinfo; ti_type := ti_type tarinfo |},
      delete_content)]
  else [].

(** [create_archive], "Add the entire 'wheels' directory structure":
    [tar.add(wheels_dir, arcname="wheels", filter=reset_tarinfo)]. *)
Definition wheel_members (has_wheels : bool) : list (TarInfo * string) :=
  if has_wheels then
    map (λ e, (reset_tarinfo (gettarinfo "wheels" e),
               if st_isdir e then "" else st_data e))
      (staging_walk w)
  else [].

(** [create_archive].  The model covers the runs in which the output file
    can be opened for writing: where it cannot, [gzip.GzipFile] raises
    [OSError], which [main] turns into exit status 1. *)
Definition create_archive (project_root output_path : string)
    (files_to_add files_to_delete : list string)
    (temp_dir new_version : string) (has_wheels : bool) : M Archive :=
  log INFO ("--- Creating archive: " +:+ Style.BOLD +:+ output_path
            +:+ Style.END +:+ " ---") ;;
  app_members ← prepare_app_members project_root new_version files_to_add;
  let tar_members :=
    sort_by_name (app_members ++ delete_list_members files_to_delete) in
  let written :=
    map (λ item : TarInfo * string, (reset_tarinfo item.1, item.2))
      tar_members in
  when has_wheels (log INFO "Adding wheels...") ;;
  mret {| gz_filename := output_path;
          gz_mtime := FIXED_MTIME;
          tar_entries := written ++ wheel_members has_wheels |}.

(** The block of [main] that gathers files and dependencies by mode. *)
Definition gather_changes (args : Args) (project_root : string)
    : M (list (string * list string) * list string * list string) :=
  if full args then
    dep_changes ← get_all_dependencies w project_root (new_version args);
    files_to_add ← get_all_files w project_root (new_version args);
    mret (dep_changes, files_to_add, [])
  else
    dep_changes ←
      get_dependency_changes w project_root (old_version args)
        (new_version args);
    '(files_to_add, files_to_delete) ←
      get_file_diff project_root (old_version args) (new_version args);
    mret (dep_changes, files_to_add, files_to_delete).

(** The [try] block of [main]. *)
Definition main_body (args : Args) : M outcome :=
  project_root ← find_project_root w;
  log INFO ("Project root detected at: " +:+ project_root) ;;
  output_path ←
    (if full args then
       let new_safe := PyStr.replace "/" "-" (new_version args) in
       let output_path :=
         PyPath.joinpath (cwd w)
           ("ITG_Full-Package_" +:+ new_safe +:+ ".tar.gz") in
       log INFO (Style.BLUE +:+ "Starting FULL package creation for version: "
                 +:+ new_version args +:+ Style.END) ;;
       preflight_checks w project_root (new_version args) (new_version args)
         (force args) ;;
       mret output_path
     else
       let old_safe := PyStr.replace "/" "-" (old_version args) in
       let new_safe := PyStr.replace "/" "-" (new_version args) in
       let output_path :=
         PyPath.joinpath (cwd w)
           ("ITG_Update_" +:+ old_safe +:+ "_to_" +:+ new_safe +:+ ".tar.gz") in
       log INFO (Style.BLUE +:+ "Starting INCREMENTAL package creation: "
                 +:+ old_version args +:+ " -> " +:+ new_version args
                 +:+ Style.END) ;;
       preflight_checks w project_root (old_version args) (new_version args)
         (force args) ;;
       mret output_path);
  let output_path :=
    match output_file args with
    | Some o => if truthy o then resolve w o else output_path
    | None => output_path
    end in
  let temp_dir := temp_dir w in
  '(dep_changes, files_to_add, files_to_delete) ←
    gather_changes args project_root;
  has_wheels ←
    download_wheels dep_changes temp_dir (py_version args) (platform args);
  final_files_to_add ← filter_files_with_distignore project_root files_to_add;
  if nonempty final_files_to_add || has_wheels then
    a ← create_archive project_root output_path final_files_to_add
          files_to_delete temp_dir (new_version args) has_wheels;
    log INFO (NL +:+ Style.BOLD +:+ "--- Success! ---" +:+ Style.END) ;;
    log INFO ("Package created at: " +:+ Style.BOLD +:+ output_path
              +:+ Style.END) ;;
    mret (PackageCreated output_path a)
  else
    log WARNING "No changes detected or no files to package. No package was created." ;;
    mret NoPackage.

(** [except Exception as e]: every exception but [SystemExit] is logged
    and turned into exit status 1.  Of the text of
    [traceback.format_exc()] the second record keeps the first and the
    last line; the frames between them, which name files and lines of the
    host, are left out. *)
Definition main (args : Args) : M outcome :=
  let m := main_body args in
  match m.2 with
  | Fail (Raised cls msg) =>
      (m.1 ++ [(ERROR, NL +:+ "An unexpected error occurred: " +:+ msg);
               (ERROR, "Traceback (most recent call last):" +:+ NL
                       +:+ cls +:+ ": " +:+ msg +:+ NL)],
       Fail (SystemExit 1))
  | _ => m
  end.
End packaging.

(** ** The command lines of the script, for stating the properties *)

Definition diff_tree_command (old_version new_version : string) : list string :=
  ["git"; "diff-tree"; "-r"; "-z"; "--no-commit-id"; "--name-status";
   "--diff-filter=ACMRD"; old_version; new_version].

Definition ls_names_command (version : string) : list string :=
  ["git"; "ls-tree"; "-r"; "--name-only"; version].

Definition ls_modes_command (version : string) (paths : list string)
    : list string :=
  ["git"; "ls-tree"; "-r"; version] ++ paths.

Definition show_command (version path : string) : list string :=
  ["git"; "show"; version +:+ ":" +:+ path].

(** The value of [run_command], from the answer of the subprocess. *)
Definition command_result (answer : option CompletedProcess) (check : bool)
    : result CompletedProcess :=
  match answer with
  | None => Fail (SystemExit 1)
  | Some r =>
      if check && negb (bool_decide (returncode r = 0))
      then Fail (SystemExit 1) else Ok r
  end.

(** ** What git prints *)

Definition NUL : string := PyStr.char PyStr.nul.
Definition TAB : string := PyStr.char PyStr.tab.

(** The double quote. *)
Definition DQ : string := PyStr.char (Ascii.ascii_of_N 34).

Definition concat_str (l : list string) : string := foldr String.append "" l.

(** The records of [git diff-tree -r -z --name-status] that the loop of
    [get_file_diff] reads as they are meant: a one-letter status and one
    path, or a rename with its similarity score and two paths.  With the
    options the script passes git prints the records [A], [M] and [D];
    it prints a rename only when it is asked to detect renames ([-M]),
    which the script does not ask for.  A copy, which git prints as
    [C<score>] with two paths and only when asked to detect copies, is no
    record of this type: the loop would read it as a status with one
    path. *)
Inductive DiffRecord :=
  | Add (path : string)
  | Modify (path : string)
  | Delete (path : string)
  | Rename (score old_path new_path : string).

Definition record_entries (r : DiffRecord) : list string :=
  match r with
  | Add p => ["A"; p]
  | Modify p => ["M"; p]
  | Delete p => ["D"; p]
  | Rename score o n => ["R" +:+ score; o; n]
  end.

(** With [-z] every field is followed by a NUL. *)
Definition diff_tree_output (rs : list DiffRecord) : string :=
  concat_str (map (λ e, e +:+ NUL) (concat (map record_entries rs))).

Definition record_paths (r : DiffRecord) : list string :=
  match r with
  | Add p | Modify p | Delete p => [p]
  | Rename _ o n => [o; n]
  end.

Definition added_paths (rs : list DiffRecord) : list string :=
  concat (map (λ r,
    match r with
    | Add p | Modify p => [p]
    | Delete _ => []
    | Rename _ _ n => [n]
    end) rs).

Definition deleted_paths (rs : list DiffRecord) : list string :=
  concat (map (λ r,
    match r with
    | Add _ | Modify _ => []
    | Delete p => [p]
    | Rename _ o _ => [o]
    end) rs).

Definition no_nul (s : string) : bool := negb (PyStr.mem_char PyStr.nul s).

Definition valid_path (p : string) : bool := truthy p && no_nul p.

Definition valid_record (r : DiffRecord) : bool :=
  match r with
  | Add p | Modify p | Delete p => valid_path p
  | Rename score o n => no_nul score && valid_path o && valid_path n
  end.

(** The output of [git ls-tree -r --name-only]: one path a line. *)
Definition listing_output (names : list string) : string :=
  concat_str (map (λ p, p +:+ NL) names).

Fixpoint all_chars (f : ascii → bool) (s : string) : bool :=
  match s with
  | "" => true
  | String c s' => f c && all_chars f s'
  end.

Definition first_char (s : string) : option ascii :=
  match s with "" => None | String c _ => Some c end.

Fixpoint last_char (s : string) : option ascii :=
  match s with
  | "" => None
  | String c "" => Some c
  | String _ s' => last_char s'
  end.

Definition not_blank (c : option ascii) : bool :=
  match c with Some c => negb (PyStr.is_space c) | None => false end.

(** A path that git prints as it is, and that [strip] and [splitlines]
    leave alone: no line boundary in it, no blank at either end. *)
Definition plain_name (p : string) : bool :=
  all_chars (λ c, negb (PyStr.is_linebreak c)) p
  && not_blank (first_char p) && not_blank (last_char p).

(** A line of [git ls-tree -r] for a regular file whose path git prints
    as it is. *)
Definition ls_tree_line (mode object path : string) : string :=
  mode +:+ " blob " +:+ object +:+ TAB +:+ path +:+ NL.

(** ** Manifests and their deltas *)

(** The pin a manifest line holds, if it is a well-formed
    [name==version] line. *)
Definition pin_of_line (line : string) : option (string * string) :=
  let line := PyStr.strip line in
  if truthy line && negb (PyStr.startswith "#" line) then
    match PyStr.split "==" line with
    | [name; version] => Some (PyStr.strip name, PyStr.strip version)
    | _ => None
    end
  else None.

Definition pin_lines (content : string) : list (string * string) :=
  omap pin_of_line (PyStr.splitlines content).


(** Assigning the pins of a list to a dictionary, one after the other. *)
Definition assign_all {K V : Type} `{EqDecision K} (pins d : list (K * V))
    : list (K * V) :=
  fold_left (λ d kv, PyDict.set d kv.1 kv.2) pins d.

(** The delta of one manifest between two contents: the pins of the new
    one that the old one does not hold, as specifiers, in the order of the
    new one. *)
Definition manifest_delta (old_content new_content : string) : list string :=
  specifier <$>
    filter (λ pin, pin ∉ parse_requirements old_content)
      (parse_requirements new_content).

(** A delta enters the result under its module only when it is not empty. *)
Definition record_delta (changes : list (string * list string))
    (module_dir : string) (delta : list string) : list (string * list string) :=
  if nonempty delta then PyDict.set changes module_dir delta else changes.

(** Recording, manifest after manifest, the delta [delta p] of each. *)
Definition record_all (delta : string → list string) (l : list string)
    (changes : list (string * list string)) : list (string * list string) :=
  fold_left (λ changes p, record_delta changes (PyPath.parent p) (delta p))
    l changes.

(** The manifests of a listing, as the resolver picks them. *)
Definition manifests_of (listing : string) : list string :=
  List.filter (PyStr.endswith "requirements.txt") (PyStr.splitlines listing).


(** ** Exclusions and archive members *)

(** Whether the exclude list of the world drops a path. *)
Definition excluded (w : World) (f : string) : bool :=
  match distignore w with
  | None => false
  | Some patterns =>
      match PathSpec_from_lines w (PyStr.splitlines patterns) with
      | Some match_file => match_file f
      | None => false
      end
  end.

(** The record logged when there is no exclude list. *)
Definition distignore_missing : event :=
  (WARNING,
   "Warning: .distignore not found at project root. All changed files will be packaged.").

(** The members of an archive that carry a given name. *)
Definition members_named (name : string) (entries : list (TarInfo * string))
    : list (TarInfo * string) :=
  filter (λ m, ti_name m.1 = name) entries.

(** The member [create_archive] prepares for one add-set path, given the
    modes read from git and the content shown by git. *)
Definition app_member (file_modes : gmap string Z) (path content : string)
    : TarInfo * string :=
  ({| ti_name := "app/" +:+ path;
      ti_size := Z.of_nat (String.length content);
      ti_mode := default 420 (file_modes !! path);
      ti_mtime := 0; ti_uid := 0; ti_gid := 0; ti_uname := ""; ti_gname := "";
      ti_type := REGTYPE |}, content).

(** A member as it is written: [reset_tarinfo] applied, content kept. *)
Definition written (item : TarInfo * string) : TarInfo * string :=
  (reset_tarinfo item.1, item.2).

(** The deletion manifest as it is written for a non-empty delete-set. *)
Definition delete_list_written (files_to_delete : list string)
    : TarInfo * string :=
  let content := PyStr.encode_utf8 (PyStr.join NL files_to_delete) in
  ({| ti_name := "delete.list";
      ti_size := Z.of_nat (String.length content);
      ti_mode := 420;
      ti_mtime := FIXED_MTIME; ti_uid := 0; ti_gid := 0;
      ti_uname := "root"; ti_gname := "root";
      ti_type := REGTYPE |}, content).



(** The order of the sort: member names compared as strings. *)
Definition name_le (x y : TarInfo * string) : Prop :=
  String.le (ti_name x.1) (ti_name y.1).

(** ** Concrete worlds, for the runs evaluated below *)

Definition completed (out : string) : CompletedProcess :=
  {| returncode := 0; stdout := out; stderr := "" |}.

Definition git_fatal : CompletedProcess :=
  {| returncode := 128; stdout := ""; stderr := "fatal: bad object" |}.

(** A subprocess layer that answers from a table of command lines; a
    command that is not listed exits with status 128. *)
Definition scripted (table : list (list string * CompletedProcess))
    (command : list string) (dir input : option string)
    : option CompletedProcess :=
  Some (default git_fatal (PyDict.get table command)).

(** A stand-in for pathspec on exclude lists made of [*suffix] lines only:
    a file is matched when its name ends with one of the suffixes. *)
Definition suffix_spec (lines : list string) : option (string → bool) :=
  Some (λ f,
    existsb (λ line,
      match line with
      | String "*" suffix => PyStr.endswith suffix f
      | _ => false
      end) lines).

Definition sample_world (table : list (list string * CompletedProcess))
    (ignore : option string) (staging : list StagedEntry) : World :=
  {| script_ancestors :=
       [("/repo/sidecar-redfish/etc/scripts", false);
        ("/repo/sidecar-redfish/etc", false);
        ("/repo/sidecar-redfish", false);
        ("/repo", true)];
     cwd := "/repo";
     resolve := λ p, PyPath.joinpath "/repo" p;
     sys_executable := "/usr/bin/python3";
     temp_dir := "/tmp/tmpabcd";
     subprocess_run := scripted table;
     distignore := ignore;
     PathSpec_from_lines := suffix_spec;
     staging_walk := staging |}.

Definition sample_args (is_full : bool) : Args :=
  {| old_version := "v1"; new_version := "v2"; output_file := None;
     py_version := "3.10"; platform := "manylinux2014_x86_64";
     force := false; full := is_full |}.

(** The commands of [preflight_checks] on a clean tree with both revisions. *)
Definition preflight_table : list (list string * CompletedProcess) :=
  [(["git"; "--version"], completed "git version 2.43.0");
   (["pip"; "--version"], completed "pip 24.0");
   (["git"; "cat-file"; "-e"; "v1^{commit}"], completed "");
   (["git"; "cat-file"; "-e"; "v2^{commit}"], completed "");
   (["git"; "status"; "--porcelain"], completed "")].

Definition sha_a : string := "8baef1b4abc478178b004d62031cf7fe6db6f903".
Definition sha_b : string := "e69de29bb2d1d6434b8b29ae775ad8c2e48c5391".

(** Two hosts that staged the same wheel: other owner, other clock. *)
Definition staged_wheel (t uid gid : Z) (user group : string)
    : list StagedEntry :=
  [{| st_rel := ""; st_isdir := true; st_mode := 16877; st_mtime := t;
      st_uid := uid; st_gid := gid; st_uname := user; st_gname := group;
      st_data := "" |};
   {| st_rel := "six-1.16.0-py2.py3-none-any.whl"; st_isdir := false;
      st_mode := 33188; st_mtime := t + 2;
      st_uid := uid; st_gid := gid; st_uname := user; st_gname := group;
      st_data := "PK" |}].

Definition two_files_table : list (list string * CompletedProcess) :=
  [(ls_modes_command "v2" ["a.py"; "b.py"],
    completed (ls_tree_line "100644" sha_a "a.py"
               +:+ ls_tree_line "100755" sha_b "b.py"));
   (ls_modes_command "v2" ["b.py"; "a.py"],
    completed (ls_tree_line "100644" sha_a "a.py"
               +:+ ls_tree_line "100755" sha_b "b.py"));
   (show_command "v2" "a.py", completed "a");
   (show_command "v2" "b.py", completed "b")].

(** v1 tracks [old.txt] only, v2 tracks nothing: the delta is one deletion. *)
Definition world_delete_only : World :=
  sample_world
    (preflight_table ++
     [(ls_names_command "v2", completed "");
      (diff_tree_command "v1" "v2", completed ("D" +:+ NUL +:+ "old.txt" +:+ NUL))])
    None [].

(** v1 and v2 are the same tree: git prints an empty delta. *)
Definition world_identical : World :=
  sample_world
    (preflight_table ++
     [(ls_names_command "v2", completed ("a.txt" +:+ NL));
      (diff_tree_command "v1" "v2", completed "")])
    None [].

(** The delta adds [README.md] and deletes [old.txt]; the exclude list drops
    [*.md]. *)
Definition world_all_excluded : World :=
  sample_world
    (preflight_table ++
     [(ls_names_command "v2", completed ("README.md" +:+ NL));
      (diff_tree_command "v1" "v2",
       completed ("A" +:+ NUL +:+ "README.md" +:+ NUL
                  +:+ "D" +:+ NUL +:+ "old.txt" +:+ NUL))])
    (Some ("*.md" +:+ NL)) [].

(** The scenario of the specification: the root manifest goes from
    [a==1.0] to [a==2.0], [b==1.0]. *)
Definition world_scenario : World :=
  sample_world
    (preflight_table ++
     [(ls_names_command "v2", completed ("requirements.txt" +:+ NL));
      (show_command "v1" "requirements.txt", completed ("a==1.0" +:+ NL));
      (show_command "v2" "requirements.txt",
       completed ("a==2.0" +:+ NL +:+ "b==1.0" +:+ NL))])
    None [].

(** A world in which the delta between v1 and v2 is the given records. *)
Definition world_diff (rs : list DiffRecord) : World :=
  sample_world
    (preflight_table ++
     [(ls_names_command "v2", completed "");
      (diff_tree_command "v1" "v2", completed (diff_tree_output rs))])
    None [].

(** A delta with a change, a deletion and a rename, no exclude list. *)
Definition world_release : World :=
  sample_world
    (preflight_table ++
     [(ls_names_command "v2", completed ("app.py" +:+ NL +:+ "y.txt" +:+ NL));
      (diff_tree_command "v1" "v2",
       completed (diff_tree_output
                    [Modify "app.py"; Delete "old.txt";
                     Rename "100" "x.txt" "y.txt"]));
      (ls_modes_command "v2" ["app.py"; "y.txt"],
       completed (ls_tree_line "100755" sha_a "app.py"
                  +:+ ls_tree_line "100644" sha_b "y.txt"));
      (show_command "v2" "app.py", completed ("print(1)" +:+ NL));
      (show_command "v2" "y.txt", completed "")])
    None [].

(** A snapshot of three files under an exclude list that drops [*.md]. *)
Definition world_snapshot : World :=
  sample_world
    (preflight_table ++
     [(ls_names_command "v2",
       completed (listing_output ["README.md"; "app.py"; "docs/guide.md"]));
      (ls_modes_command "v2" ["app.py"],
       completed (ls_tree_line "100644" sha_a "app.py"));
      (show_command "v2" "app.py", completed ("print(1)" +:+ NL))])
    (Some ("*.md" +:+ NL)) [].

(** The target revision records [run me.sh] as an executable. *)
Definition world_spaced_name : World :=
  sample_world
    [(ls_modes_command "v2" ["run me.sh"],
      completed (ls_tree_line "100755" sha_a "run me.sh"));
     (show_command "v2" "run me.sh", completed ("#!/bin/sh" +:+ NL))]
    None [].

(** The same, for a name without blank. *)
Definition world_plain_name : World :=
  sample_world
    [(ls_modes_command "v2" ["run.sh"],
      completed (ls_tree_line "100755" sha_a "run.sh"));
     (show_command "v2" "run.sh", completed ("#!/bin/sh" +:+ NL))]
    None [].

Definition world_host1 : World :=
  sample_world two_files_table None
    (staged_wheel 1760000000 1000 1000 "alice" "staff").


(** ** Exit statuses *)

(** A computation that, when it ends in [sys.exit], ends in [sys.exit(1)]. *)
Definition exits_with_one {A} (m : M A) : Prop :=
  ∀ code, m.2 = Fail (SystemExit code) → code = 1.

(** ** Pre-flight conditions *)

(** A command that was found and ended with status 0. *)
Definition command_passes (w : World) (command : list string) (dir : string)
    : bool :=
  match subprocess_run w command (Some dir) None with
  | Some r => bool_decide (returncode r = 0)
  | None => false
  end.

(** [git status --porcelain] ran and printed nothing. *)
Definition tree_is_clean (w : World) (dir : string) : bool :=
  match subprocess_run w ["git"; "status"; "--porcelain"] (Some dir) None with
  | Some r => bool_decide (returncode r = 0) && PyStr.is_empty (stdout r)
  | None => false
  end.

Definition preflight_passes (w : World) (root old new : string) (force : bool)
    : bool :=
  command_passes w ["git"; "--version"] root
  && command_passes w ["pip"; "--version"] root
  && command_passes w ["git"; "cat-file"; "-e"; old +:+ "^{commit}"] root
  && command_passes w ["git"; "cat-file"; "-e"; new +:+ "^{commit}"] root
  && (force || tree_is_clean w root).

(** ** Snapshots of the manifests and the downloads *)

(** All the pins of a manifest, as specifiers. *)
Definition manifest_pins (content : string) : list string :=
  specifier <$> parse_requirements content.

(** The command line [download_wheels] builds for one module. *)
Definition pip_download_command (w : World)
    (temp_dir py_version platform module_path : string) : list string :=
  [sys_executable w; "-m"; "pip"; "download";
   "--dest";
   PyPath.joinpath (PyPath.joinpath temp_dir "wheels") module_path;
   "--platform"; platform;
   "--python-version"; py_version;
   "--only-binary=:all:";
   "--no-deps";
   "--requirement"; "-"].

(** What pip answers for one module of the changes. *)
Definition pip_answer (w : World) (temp_dir py_version platform : string)
    (item : string * list string) : option CompletedProcess :=
  subprocess_run w (pip_download_command w temp_dir py_version platform item.1)
    None (Some (PyStr.join NL item.2)).

Definition pip_failed (w : World) (temp_dir py_version platform : string)
    (item : string * list string) : bool :=
  match pip_answer w temp_dir py_version platform item with
  | Some r => negb (bool_decide (returncode r = 0))
  | None => false
  end.

Definition pip_warning (item : string * list string) : event :=
  (WARNING,
   "pip download may have failed for some packages in '" +:+ item.1 +:+ "'.").

Definition is_warning (e : event) : bool :=
  match e.1 with WARNING => true | _ => false end.

(** The first release of a project: v1 has no manifest, v2 pins two
    packages at the root; pip fetches nothing. *)
Definition world_first_release : World :=
  sample_world
    (preflight_table ++
     [(ls_names_command "v2", completed ("requirements.txt" +:+ NL));
      (show_command "v2" "requirements.txt",
       completed ("a==1.0" +:+ NL +:+ "b==2.0" +:+ NL))])
    None [].

(** ** The stages of a run *)

(** The file name [main] gives the package when [-o] is not used. *)
Definition default_package_name (args : Args) : string :=
  if full args then
    "ITG_Full-Package_" +:+ PyStr.replace "/" "-" (new_version args)
    +:+ ".tar.gz"
  else
    "ITG_Update_" +:+ PyStr.replace "/" "-" (old_version args) +:+ "_to_"
    +:+ PyStr.replace "/" "-" (new_version args) +:+ ".tar.gz".

(** The path [main] writes the package to. *)
Definition package_path (w : World) (args : Args) : string :=
  match output_file args with
  | Some o =>
      if truthy o then resolve w o
      else PyPath.joinpath (cwd w) (default_package_name args)
  | None => PyPath.joinpath (cwd w) (default_package_name args)
  end.

(** The revision [main] hands to [preflight_checks] as the old one. *)
Definition checked_old_version (args : Args) : string :=
  if full args then new_version args else old_version args.

(** The arguments with another old revision. *)
Definition with_old_version (args : Args) (v : string) : Args :=
  {| old_version := v; new_version := new_version args;
     output_file := output_file args; py_version := py_version args;
     platform := platform args; force := force args; full := full args |}.

(** ** The layout of an archive *)

(** The size field of a member agrees with the octets written after it. *)
Definition size_matches (m : TarInfo * string) : Prop :=
  ti_size m.1 = Z.of_nat (String.length m.2).

Definition member_name (m : TarInfo * string) : string := ti_name m.1.

(** The name [tarfile.add] gives an entry of the staging tree. *)
Definition wheel_name (e : StagedEntry) : string :=
  if PyStr.is_empty (st_rel e) then "wheels" else "wheels/" +:+ st_rel e.

(** ** The modes git records *)

(** An entry of [git ls-tree -r] for a regular file. *)
Record TreeEntry := {
  te_mode : string;
  te_object : string;
  te_path : string
}.

(** A field that [str.split()] returns as one piece: not empty, no blank. *)
Definition token (s : string) : bool :=
  truthy s && all_chars (λ c, negb (PyStr.is_space c)) s.

(** An entry whose path holds no blank. *)
Definition plain_entry (e : TreeEntry) : bool :=
  token (te_mode e) && token (te_object e) && token (te_path e).

Definition tree_entry_line (e : TreeEntry) : string :=
  te_mode e +:+ " blob " +:+ te_object e +:+ TAB +:+ te_path e.

Definition ls_tree_output (es : list TreeEntry) : string :=
  concat_str
    (map (λ e, ls_tree_line (te_mode e) (te_object e) (te_path e)) es).

(** ** Manifests written back *)

(** A name or a version that holds no blank and no equals sign. *)
Definition pin_text (s : string) : bool :=
  all_chars
    (λ c, negb (PyStr.is_space c) && negb (bool_decide (c = "="%char))) s.

(** A pin whose specifier is read back as it is. *)
Definition plain_pin (pin : string * string) : bool :=
  pin_text pin.1 && pin_text pin.2 && negb (PyStr.startswith "#" pin.1).

(** ** Path components *)

(** A string without the character [z]. *)
Definition free_of (z : ascii) (s : string) : bool :=
  all_chars (λ c, negb (bool_decide (c = z))) s.

(** ** What a run reports *)

(** The record that announces a package. *)
Definition success_record : event :=
  (INFO, NL +:+ Style.BOLD +:+ "--- Success! ---" +:+ Style.END).

(** A computation that does not announce a package. *)
Definition quiet {A} (m : M A) : Prop := success_record ∉ m.1.

(** A run that announces a package exactly when it returns one. *)
Definition faithful (m : M outcome) : Prop :=
  success_record ∈ m.1 ↔ ∃ out a, m.2 = Ok (PackageCreated out a).

(** The message of the exception [find_project_root] raises. *)
Definition no_root_message : string :=
  "Fatal: Could not find project root (.git directory). Make sure the script is inside a Git repository.".

(** The script was copied out of any repository. *)
Definition world_no_repository : World :=
  {| script_ancestors := [("/opt/tools", false); ("/opt", false)];
     cwd := "/opt/tools";
     resolve := λ p, PyPath.joinpath "/opt/tools" p;
     sys_executable := "/usr/bin/python3";
     temp_dir := "/tmp/tmpabcd";
     subprocess_run := scripted preflight_table;
     distignore := None;
     PathSpec_from_lines := suffix_spec;
     staging_walk := [] |}.

(** ** Worlds on which the script goes wrong *)

(** The directory [a] holds two files whose names end in
    [requirements.txt]; between v1 and v2 each of them moves one pin. *)
Definition world_two_manifests : World :=
  sample_world
    (preflight_table ++
     [(ls_names_command "v2",
       completed (listing_output
                    ["a/dev-requirements.txt"; "a/requirements.txt"]));
      (show_command "v1" "a/dev-requirements.txt", completed ("t==1" +:+ NL));
      (show_command "v2" "a/dev-requirements.txt", completed ("t==2" +:+ NL));
      (show_command "v1" "a/requirements.txt", completed ("y==1" +:+ NL));
      (show_command "v2" "a/requirements.txt", completed ("y==2" +:+ NL))])
    None [].

(** The same, the second file being listed after [requirements.txt]. *)
Definition world_test_manifest : World :=
  sample_world
    (preflight_table ++
     [(ls_names_command "v2",
       completed (listing_output
                    ["a/requirements.txt"; "a/test-requirements.txt"]));
      (show_command "v1" "a/requirements.txt", completed ("y==1" +:+ NL));
      (show_command "v2" "a/requirements.txt", completed ("y==2" +:+ NL));
      (show_command "v1" "a/test-requirements.txt", completed ("t==1" +:+ NL));
      (show_command "v2" "a/test-requirements.txt", completed ("t==2" +:+ NL))])
    None [].

(** The record logged for a module with one changed pin. *)
Definition found_one_changed (module : string) : event :=
  (INFO, "Module '" +:+ Style.BOLD +:+ module +:+ Style.END
         +:+ "': Found 1 changed dependencies.").

(** v2 tracks [ a.txt], with a blank in front, and [b.txt ], with a blank
    at the end; git lists them as they are and knows no [a.txt], no
    [b.txt]. *)
Definition world_blank_names : World :=
  sample_world
    (preflight_table ++
     [(ls_names_command "v2", completed (listing_output [" a.txt"; "b.txt "]));
      (ls_modes_command "v2" ["a.txt"; "b.txt"], completed "")])
    None [].

(** How git prints the name [cafe.txt] written with an e acute, under its
    default [core.quotePath]: quoted, the two octets of the letter escaped
    in octal. *)
Definition quoted_name : string :=
  DQ +:+ "caf\303\251.txt" +:+ DQ.

Definition world_quoted_name : World :=
  sample_world
    (preflight_table ++
     [(ls_names_command "v2", completed (listing_output [quoted_name]))])
    None [].

(** The delta of [world_all_excluded], without exclude list. *)
Definition world_nothing_excluded : World :=
  sample_world
    (preflight_table ++
     [(ls_names_command "v2", completed ("README.md" +:+ NL));
      (diff_tree_command "v1" "v2",
       completed ("A" +:+ NUL +:+ "README.md" +:+ NUL
                  +:+ "D" +:+ NUL +:+ "old.txt" +:+ NUL));
      (ls_modes_command "v2" ["README.md"],
       completed (ls_tree_line "100644" sha_a "README.md"));
      (show_command "v2" "README.md", completed ("# notes" +:+ NL))])
    None [].


(** * Properties *)

(** ** The monad *)

Lemma bind_result {A B} (f : A → M B) (m : M A) :
  (m ≫= f).2 = match m.2 with Ok a => (f a).2 | Fail e => Fail e end.
Proof. unfold mbind, M_mbind, M_bind. by destruct m.2. Qed.

Lemma bind_log {A B} (f : A → M B) (m : M A) :
  (m ≫= f).1 = match m.2 with Ok a => m.1 ++ (f a).1 | Fail _ => m.1 end.
Proof. unfold mbind, M_mbind, M_bind. by destruct m.2. Qed.

Lemma bind_ok_inv {A B} (f : A → M B) (m : M A) (b : B) :
  (m ≫= f).2 = Ok b → ∃ a, m.2 = Ok a ∧ (f a).2 = Ok b.
Proof. rewrite bind_result. destruct m.2; [eauto | done]. Qed.

Lemma bind_ok {A B} (f : A → M B) (m : M A) (a : A) :
  m.2 = Ok a → (m ≫= f).2 = (f a).2.
Proof. rewrite bind_result. by intros ->. Qed.

Lemma when_result (b : bool) (m : M ()) :
  m.2 = Ok () → (when b m).2 = Ok ().
Proof. by destruct b. Qed.

(** ** C1: the gate of [main] *)

(** C1, evaluated where it fails.  A delta made of one deletion has a
    non-empty delete-set, yet the run writes no archive and reports a no-op;
    so does a delta with a deletion whose only added file is excluded; and
    on two identical revisions, where add-set, delete-set and artifacts are
    all empty, the run does not succeed as a no-op but ends with exit
    status 1. *)
Theorem main_gate_misses_delete_set :
  ((get_file_diff world_delete_only "/repo" "v1" "v2").2 = Ok ([], ["old.txt"])
   ∧ (main world_delete_only (sample_args false)).2 = Ok NoPackage
   ∧ last (main world_delete_only (sample_args false)).1
     = Some (WARNING,
         "No changes detected or no files to package. No package was created."))
  ∧ ((get_file_diff world_all_excluded "/repo" "v1" "v2").2
     = Ok (["README.md"], ["old.txt"])
     ∧ (main world_all_excluded (sample_args false)).2 = Ok NoPackage)
  ∧ ((get_dependency_changes world_identical "/repo" "v1" "v2").2 = Ok []
     ∧ (main world_identical (sample_args false)).2 = Fail (SystemExit 1)).
Proof. vm_compute. repeat split; reflexivity. Qed.

(** ** Ordered dictionaries *)
Section dict_facts.
Context {K V : Type} `{EqDecision K, EqDecision V}.
Implicit Types (d : list (K * V)) (k : K) (v : V).

Lemma dict_get_set d k v k' :
  PyDict.get (PyDict.set d k v) k'
  = if decide (k' = k) then Some v else PyDict.get d k'.
Proof.
  induction d as [|[k0 v0] d IH]; simpl.
  - by destruct (decide (k' = k)).
  - destruct (decide (k = k0)) as [->|Hk]; simpl.
    + by destruct (decide (k' = k0)).
    + rewrite IH. destruct (decide (k' = k0)) as [->|]; [|done].
      by rewrite decide_False.
Qed.

Lemma dict_set_keys d k v :
  (PyDict.set d k v).*1 = if bool_decide (k ∈ d.*1) then d.*1 else d.*1 ++ [k].
Proof.
  induction d as [|[k0 v0] d IH]; csimpl; [done|].
  destruct (decide (k = k0)) as [->|Hk]; csimpl.
  - rewrite bool_decide_eq_true_2; [done | by left].
  - rewrite IH. destruct (bool_decide (k ∈ d.*1)) eqn:E.
    + apply bool_decide_eq_true in E.
      rewrite bool_decide_eq_true_2; [done | by right].
    + apply bool_decide_eq_false in E.
      rewrite bool_decide_eq_false_2; [done|].
      by intros [?|?]%elem_of_cons.
Qed.

Lemma dict_set_NoDup d k v : NoDup d.*1 → NoDup (PyDict.set d k v).*1.
Proof.
  intros Hd. rewrite dict_set_keys. case_bool_decide; [done|].
  apply NoDup_app. split_and!; [done| |apply NoDup_singleton].
  intros x Hx ->%list_elem_of_singleton. done.
Qed.

Lemma dict_get_None d k : PyDict.get d k = None ↔ k ∉ d.*1.
Proof.
  induction d as [|[k0 v0] d IH]; simpl.
  - split; [intros _; apply not_elem_of_nil | done].
  - destruct (decide (k = k0)) as [->|Hk].
    + split; [done | intros []; by left].
    + rewrite IH, not_elem_of_cons. simpl. tauto.
Qed.

Lemma dict_get_Some d k v : NoDup d.*1 → PyDict.get d k = Some v ↔ (k, v) ∈ d.
Proof.
  induction d as [|[k0 v0] d IH]; simpl; intros Hd.
  - split; [done | by intros ?%elem_of_nil].
  - apply NoDup_cons in Hd as [Hk0 Hd].
    destruct (decide (k = k0)) as [->|Hk].
    + split.
      * intros [= ->]. by left.
      * intros [Heq|Hin]%elem_of_cons; [by inversion Heq|].
        destruct Hk0. apply list_elem_of_fmap. by exists (k0, v).
    + rewrite IH by done. split; [by right|].
      intros [Heq|?]%elem_of_cons; [|done]. by inversion Heq.
Qed.

Lemma dict_mem_true d k : PyDict.mem d k = true ↔ k ∈ d.*1.
Proof.
  unfold PyDict.mem. destruct (PyDict.get d k) eqn:E.
  - split; [intros _|done]. destruct (decide (k ∈ d.*1)); [done|].
    by apply dict_get_None in n; congruence.
  - apply dict_get_None in E. split; [done|]. done.
Qed.

Lemma assign_all_cons k v pins d :
  assign_all ((k, v) :: pins) d = assign_all pins (PyDict.set d k v).
Proof. done. Qed.

Lemma assign_all_NoDup pins d : NoDup d.*1 → NoDup (assign_all pins d).*1.
Proof.
  revert d. induction pins as [|[k v] pins IH]; intros d Hd; [done|].
  rewrite assign_all_cons. apply IH. by apply dict_set_NoDup.
Qed.


(** [d1 == d2] holds exactly when both bind the same keys to the same
    values. *)
Lemma dict_eqb_true d1 d2 :
  NoDup d1.*1 → NoDup d2.*1 →
  PyDict.eqb d1 d2 = true → ∀ kv, kv ∈ d2 → kv ∈ d1.
Proof.
  intros Hd1 Hd2. unfold PyDict.eqb.
  rewrite andb_true_iff, bool_decide_eq_true, forallb_forall.
  intros [Hlen Hall].
  assert (incl d1 d2) as Hincl.
  { intros [k v] Hin. apply list_elem_of_In, dict_get_Some; [done|].
    specialize (Hall _ Hin). by apply bool_decide_eq_true in Hall. }
  assert (List.NoDup d1) as Hnd.
  { apply NoDup_ListNoDup. by eapply NoDup_fmap_1. }
  intros kv Hkv. apply list_elem_of_In.
  apply (NoDup_length_incl Hnd (l' := d2)); [lia | done |].
  by apply list_elem_of_In.
Qed.

Lemma dict_set_fresh d k v : k ∉ d.*1 → PyDict.set d k v = d ++ [(k, v)].
Proof.
  induction d as [|[k0 v0] d IH]; simpl; [done|].
  rewrite not_elem_of_cons. intros [Hk Hd].
  by rewrite decide_False, IH.
Qed.

Lemma assign_all_fresh pins d :
  NoDup (d.*1 ++ pins.*1) → assign_all pins d = d ++ pins.
Proof.
  revert d. induction pins as [|[k v] pins IH]; intros d Hnd.
  { by rewrite app_nil_r. }
  rewrite assign_all_cons. simpl in Hnd.
  apply NoDup_app in Hnd as (Hd & Hdisj & Hp).
  apply NoDup_cons in Hp as [Hk Hp].
  rewrite dict_set_fresh by (intros Hin; by apply (Hdisj k); [|left]).
  rewrite IH.
  - by rewrite <-app_assoc.
  - rewrite fmap_app. simpl. rewrite <-app_assoc. simpl.
    apply NoDup_app. split_and!; [done| |by apply NoDup_cons].
    intros x Hx. by apply Hdisj.
Qed.
End dict_facts.

(** ** Manifests *)

Lemma List_filter_stdpp {A} (f : A → bool) (P : A → Prop) `{∀ x, Decision (P x)}
    (l : list A) :
  (∀ x, f x = true ↔ P x) → List.filter f l = filter P l.
Proof.
  intros Hf. induction l as [|x l IH]; [done|]. simpl.
  rewrite filter_cons, IH. destruct (f x) eqn:E.
  - rewrite decide_True; [done | by apply Hf].
  - rewrite decide_False; [done|]. rewrite <-Hf. congruence.
Qed.

Lemma parse_requirement_line_pin packages line :
  parse_requirement_line packages line
  = match pin_of_line line with
    | Some pin => PyDict.set packages pin.1 pin.2
    | None => packages
    end.
Proof.
  unfold parse_requirement_line, pin_of_line.
  destruct (truthy _ && negb _); [|done].
  destruct (PyStr.split "==" _) as [|a [|b [|c l]]]; done.
Qed.

Lemma parse_requirements_pins content :
  parse_requirements content = assign_all (pin_lines content) [].
Proof.
  unfold parse_requirements, pin_lines, assign_all.
  generalize (@nil (string * string)).
  induction (PyStr.splitlines content) as [|line lines IH]; intros d; [done|].
  simpl. rewrite IH, parse_requirement_line_pin.
  by destruct (pin_of_line line).
Qed.

Lemma parse_requirements_distinct content :
  NoDup (pin_lines content).*1 → parse_requirements content = pin_lines content.
Proof.
  intros Hnd. rewrite parse_requirements_pins. by rewrite assign_all_fresh.
Qed.

Lemma parse_requirements_NoDup content : NoDup (parse_requirements content).*1.
Proof. rewrite parse_requirements_pins. apply assign_all_NoDup, NoDup_nil_2. Qed.

Lemma changed_pins_filter old_reqs new_reqs :
  NoDup old_reqs.*1 →
  changed_pins old_reqs new_reqs = filter (λ pin, pin ∉ old_reqs) new_reqs.
Proof.
  intros Hold. apply List_filter_stdpp. intros [name version]. simpl.
  rewrite <-(dict_get_Some old_reqs name version Hold).
  unfold PyDict.mem. destruct (PyDict.get old_reqs name) as [v|]; simpl.
  - rewrite negb_true_iff, bool_decide_eq_false. done.
  - split; done.
Qed.



Example parse_requirements_duplicate :
  parse_requirements ("a==1.0" +:+ NL +:+ "b==1.0" +:+ NL +:+ "a==2.0")
  = [("a", "2.0"); ("b", "1.0")].
Proof. reflexivity. Qed.

Lemma manifest_delta_changed_pins old_content new_content :
  map specifier
    (changed_pins (parse_requirements old_content)
       (parse_requirements new_content))
  = manifest_delta old_content new_content.
Proof.
  unfold manifest_delta.
  by rewrite changed_pins_filter by apply parse_requirements_NoDup.
Qed.

Lemma filter_not_elem_of_nil {A} `{EqDecision A} (l1 l2 : list A) :
  (∀ x, x ∈ l2 → x ∈ l1) → filter (λ x, x ∉ l1) l2 = [].
Proof.
  intros Hsub. induction l2 as [|x l2 IH]; [done|].
  rewrite filter_cons, decide_False.
  - apply IH. intros y Hy. apply Hsub. by right.
  - intros Hx. apply Hx, Hsub. by left.
Qed.

Lemma manifest_delta_same content : manifest_delta content content = [].
Proof. unfold manifest_delta. by rewrite filter_not_elem_of_nil. Qed.

Lemma dependency_changes_step_result w root old new changes p oc nc :
  (get_file_content_from_git w root old p).2 = Ok oc →
  (get_file_content_from_git w root new p).2 = Ok nc →
  (dependency_changes_step w root old new changes p).2
  = Ok (record_delta changes (PyPath.parent p) (manifest_delta oc nc)).
Proof.
  intros Hold Hnew. unfold dependency_changes_step.
  rewrite (bind_ok _ _ _ Hold), (bind_ok _ _ _ Hnew).
  rewrite manifest_delta_changed_pins. unfold record_delta.
  destruct (PyDict.eqb _ _) eqn:Heq.
  - unfold manifest_delta. rewrite filter_not_elem_of_nil; [done|].
    apply dict_eqb_true; [apply parse_requirements_NoDup.. | exact Heq].
  - by destruct (nonempty _).
Qed.

Lemma foldM_result {A B} (f : B → A → M B) (g : B → A → B) (l : list A) (b : B) :
  Forall (λ x, ∀ b, (f b x).2 = Ok (g b x)) l →
  (foldM f l b).2 = Ok (fold_left g l b).
Proof.
  intros Hl. revert b. induction Hl as [|x l Hx _ IH]; intros b; [done|].
  simpl. rewrite (bind_ok _ _ _ (Hx b)). apply IH.
Qed.

Section delta_fold.
Variable delta : string → list string.

Lemma record_delta_get changes m d m' :
  PyDict.get (record_delta changes m d) m'
  = if nonempty d && bool_decide (m' = m) then Some d
    else PyDict.get changes m'.
Proof.
  unfold record_delta. destruct (nonempty d); simpl; [|done].
  rewrite dict_get_set.
  case_bool_decide; [by rewrite decide_True | by rewrite decide_False].
Qed.

Lemma record_all_cons q l changes :
  record_all delta (q :: l) changes
  = record_all delta l (record_delta changes (PyPath.parent q) (delta q)).
Proof. done. Qed.

Lemma record_all_other l changes m :
  (∀ p, p ∈ l → PyPath.parent p ≠ m) →
  PyDict.get (record_all delta l changes) m = PyDict.get changes m.
Proof.
  revert changes. induction l as [|q l IH]; intros changes Hl; [done|].
  rewrite record_all_cons, IH.
  - rewrite record_delta_get, bool_decide_eq_false_2, andb_false_r; [done|].
    intros ->. by apply (Hl q); [left|].
  - intros p Hp. apply Hl. by right.
Qed.

Lemma record_all_own l changes p :
  p ∈ l →
  (∀ q, q ∈ l → PyPath.parent q = PyPath.parent p → q = p) →
  PyDict.get (record_all delta l changes) (PyPath.parent p)
  = if nonempty (delta p) then Some (delta p)
    else PyDict.get changes (PyPath.parent p).
Proof.
  revert changes. induction l as [|q l IH]; intros changes Hp Huniq.
  { by apply elem_of_nil in Hp. }
  rewrite record_all_cons.
  destruct (decide (p ∈ l)) as [Hin|Hnin].
  - rewrite IH; [|done|intros; apply Huniq; [by right|done]].
    destruct (nonempty (delta p)) eqn:E; [done|].
    rewrite record_delta_get.
    destruct (decide (PyPath.parent q = PyPath.parent p)) as [Hqp|Hqp].
    + assert (q = p) as -> by (apply Huniq; [by left|done]).
      by rewrite E.
    + rewrite bool_decide_eq_false_2, andb_false_r; [done|congruence].
  - apply elem_of_cons in Hp as [->|?]; [|done].
    rewrite record_all_other.
    + by rewrite record_delta_get, bool_decide_eq_true_2, andb_true_r.
    + intros p Hp Hpar. apply Hnin.
      assert (p = q) as -> by (apply Huniq; [by right|done]). done.
Qed.

Lemma record_all_nonempty l changes :
  (∀ m d, PyDict.get changes m = Some d → d ≠ []) →
  ∀ m d, PyDict.get (record_all delta l changes) m = Some d → d ≠ [].
Proof.
  revert changes. induction l as [|q l IH]; intros changes Hc; [done|].
  rewrite record_all_cons. apply IH. intros m d. rewrite record_delta_get.
  destruct (nonempty (delta q)) eqn:E; simpl; [|apply Hc].
  case_bool_decide; [|apply Hc]. intros [= <-]. by destruct (delta q).
Qed.
End delta_fold.

(** Directories with one manifest.  In delta mode, once git has listed
    the new revision and shown the manifests, the resolver returns a
    mapping in which: no entry is empty;
    a module with one manifest is bound to the pins of the new manifest
    that the old manifest does not hold (name absent, or other version), as
    specifiers in the order of the new manifest (the order of its lines,
    when no name is pinned twice), and has no entry when that list is
    empty, in particular when both contents are the same; a directory
    without manifest has no entry. *)
Lemma dependency_delta_per_module (w : World) (root old new : string)
    (r : CompletedProcess) (old_c new_c : string → string) :
  subprocess_run w (ls_names_command new) (Some root) None = Some r →
  returncode r = 0 →
  Forall (λ p, (get_file_content_from_git w root old p).2 = Ok (old_c p)
             ∧ (get_file_content_from_git w root new p).2 = Ok (new_c p))
    (manifests_of (stdout r)) →
  ∃ changes,
    (get_dependency_changes w root old new).2 = Ok changes
    ∧ (∀ m delta, PyDict.get changes m = Some delta → delta ≠ [])
    ∧ (∀ p, p ∈ manifests_of (stdout r) →
         (∀ q, q ∈ manifests_of (stdout r) →
               PyPath.parent q = PyPath.parent p → q = p) →
         PyDict.get changes (PyPath.parent p)
         = (if nonempty (manifest_delta (old_c p) (new_c p))
            then Some (manifest_delta (old_c p) (new_c p)) else None)
         ∧ (old_c p = new_c p → PyDict.get changes (PyPath.parent p) = None)
         ∧ (NoDup (pin_lines (new_c p)).*1 →
            manifest_delta (old_c p) (new_c p)
            = specifier <$>
                filter (λ pin, pin ∉ parse_requirements (old_c p))
                  (pin_lines (new_c p))))
    ∧ (∀ m, (∀ p, p ∈ manifests_of (stdout r) → PyPath.parent p ≠ m) →
         PyDict.get changes m = None).
Proof.
  intros Hrun Hrc Hshow.
  set (delta p := manifest_delta (old_c p) (new_c p)).
  exists (record_all delta (manifests_of (stdout r)) []).
  split_and!.
  - unfold get_dependency_changes. rewrite bind_result. simpl.
    assert ((run_command w (ls_names_command new) true (Some root) None).2 = Ok r)
      as Hcmd.
    { unfold run_command. rewrite Hrun, Hrc. done. }
    unfold ls_names_command in Hcmd. rewrite (bind_ok _ _ _ Hcmd).
    assert ((foldM (dependency_changes_step w root old new)
               (manifests_of (stdout r)) []).2
            = Ok (record_all delta (manifests_of (stdout r)) [])) as Hfold.
    { apply foldM_result. eapply Forall_impl; [exact Hshow|].
      intros p [Ho Hn] changes. by apply dependency_changes_step_result. }
    unfold manifests_of in Hfold at 1. rewrite (bind_ok _ _ _ Hfold).
    rewrite bind_result. by destruct (negb _).
  - apply record_all_nonempty. done.
  - intros p Hp Huniq. rewrite record_all_own by done. simpl.
    split_and!; [done| |].
    + intros Heq. unfold delta. by rewrite Heq, manifest_delta_same.
    + intros Hnd. unfold manifest_delta.
      by rewrite (parse_requirements_distinct (new_c p)).
  - intros m Hm. by rewrite record_all_other.
Qed.

Lemma dependency_delta_scenario :
  ∃ changes,
    (get_dependency_changes world_scenario "/repo" "v1" "v2").2 = Ok changes
    ∧ PyDict.get changes "." = Some ["a==2.0"; "b==1.0"].
Proof.
  destruct (dependency_delta_per_module world_scenario "/repo" "v1" "v2"
              (completed ("requirements.txt" +:+ NL))
              (λ _, "a==1.0" +:+ NL) (λ _, "a==2.0" +:+ NL +:+ "b==1.0" +:+ NL))
    as (changes & Hrun & _ & Hmod & _).
  - reflexivity.
  - reflexivity.
  - repeat constructor.
  - exists changes. split; [exact Hrun|].
    refine (proj1 (Hmod "requirements.txt" _ _)).
    + vm_compute. left.
    + vm_compute. intros q Hq _. by apply list_elem_of_singleton in Hq.
Defined.

(** ** Strings *)
Section str_facts.
Import PyStr.
Implicit Types (s t u cur : string) (c : ascii) (p : ascii → bool).

Lemma str_app_nil_l s : "" +:+ s = s.
Proof. done. Qed.

Lemma str_app_cons c s t : String c s +:+ t = String c (s +:+ t).
Proof. done. Qed.

Lemma str_app_nil_r s : s +:+ "" = s.
Proof. induction s as [|c s IH]; [done|]. by rewrite str_app_cons, IH. Qed.

Lemma str_app_assoc s t u : (s +:+ t) +:+ u = s +:+ (t +:+ u).
Proof. induction s as [|c s IH]; [done|]. by rewrite !str_app_cons, IH. Qed.

Lemma replace_same c s : replace c (char c) s = s.
Proof.
  induction s as [|d s IH]; [done|]. simpl. rewrite IH.
  case_bool_decide; [by subst|done].
Qed.

Lemma lstrip_keep p s c : first_char s = Some c → p c = false → lstrip_by p s = s.
Proof. destruct s; simpl; [done|]. by intros [= ->] ->. Qed.

Lemma rstrip_keep p s c : last_char s = Some c → p c = false → rstrip_by p s = s.
Proof.
  induction s as [|d s IH]; [done|]. intros Hlast Hc.
  destruct s as [|e s].
  - simpl in *. injection Hlast as ->. by rewrite Hc.
  - change (rstrip_by p (String d (String e s)))
      with (let r := rstrip_by p (String e s) in
            if is_empty r && p d then "" else String d r).
    by rewrite IH.
Qed.

Lemma rstrip_snoc p s c : p c = true → rstrip_by p (s +:+ char c) = rstrip_by p s.
Proof.
  intros Hc. induction s as [|d s IH].
  - rewrite str_app_nil_l. simpl. by rewrite Hc.
  - rewrite str_app_cons. simpl. by rewrite IH.
Qed.

Lemma last_char_app s t c : last_char t = Some c → last_char (s +:+ t) = Some c.
Proof.
  intros Ht. induction s as [|d s IH]; [done|].
  rewrite str_app_cons. by destruct (s +:+ t).
Qed.

Lemma first_char_app s t c : first_char s = Some c → first_char (s +:+ t) = Some c.
Proof. by destruct s. Qed.

Lemma mem_char_single c d : mem_char c (char d) = bool_decide (c = d).
Proof. simpl. by rewrite orb_false_r. Qed.
End str_facts.

(** ** The tree-diff resolver *)
Section diff_facts.
Import PyStr.

Lemma no_nul_cons c s :
  no_nul (String c s) = true ↔ c ≠ nul ∧ no_nul s = true.
Proof.
  unfold no_nul. simpl. rewrite negb_true_iff, orb_false_iff, negb_true_iff.
  rewrite bool_decide_eq_false. split; intros [? ?]; split; congruence.
Qed.

Lemma prefix_char z c s :
  String.prefix (String z "") (String c s) = bool_decide (z = c).
Proof.
  simpl. destruct (ascii_dec z c) as [->|Hne].
  - rewrite bool_decide_eq_true_2 by done. by destruct s.
  - by rewrite bool_decide_eq_false_2.
Qed.

Lemma split_go_other z c cur s :
  z ≠ c →
  split_go (String z "") 0 cur (String c s)
  = split_go (String z "") 0 (cur +:+ char c) s.
Proof.
  intros Hne.
  change (split_go (String z "") 0 cur (String c s))
    with (if String.prefix (String z "") (String c s)
          then cur :: split_go (String z "") 0 "" s
          else split_go (String z "") 0 (cur +:+ char c) s).
  by rewrite prefix_char, bool_decide_eq_false_2.
Qed.

Lemma split_go_entry e cur s :
  no_nul e = true →
  split_go NUL 0 cur (e +:+ s) = split_go NUL 0 (cur +:+ e) s.
Proof.
  revert cur. induction e as [|c e IH]; intros cur He.
  - by rewrite str_app_nil_l, str_app_nil_r.
  - apply no_nul_cons in He as [Hc He]. rewrite str_app_cons.
    unfold NUL, char at 1. rewrite split_go_other by done.
    fold (char nul). fold NUL. rewrite IH by done.
    unfold char. by rewrite str_app_assoc.
Qed.

Lemma split_go_sep cur s :
  split_go NUL 0 cur (NUL +:+ s) = cur :: split_go NUL 0 "" s.
Proof.
  change (split_go NUL 0 cur (NUL +:+ s))
    with (if String.prefix (String nul "") (String nul s)
          then cur :: split_go NUL 0 "" s
          else split_go NUL 0 (cur +:+ char nul) s).
  by rewrite prefix_char, bool_decide_eq_true_2.
Qed.

Lemma split_go_end e cur :
  no_nul e = true → split_go NUL 0 cur e = [cur +:+ e].
Proof.
  intros He. rewrite <-(str_app_nil_r e) at 1. by rewrite split_go_entry.
Qed.

Lemma split_join es :
  es ≠ [] → Forall (λ e, no_nul e = true) es → split NUL (join NUL es) = es.
Proof.
  unfold split. intros Hne Hes. induction Hes as [|e es He Hes IH]; [done|].
  destruct es as [|e' es].
  - simpl. by rewrite split_go_end.
  - change (join NUL (e :: e' :: es)) with (e +:+ NUL +:+ join NUL (e' :: es)).
    rewrite split_go_entry, split_go_sep, IH by done. done.
Qed.

Lemma concat_join sep es :
  es ≠ [] → concat_str (map (λ e, e +:+ sep) es) = join sep es +:+ sep.
Proof.
  intros Hne. induction es as [|e es IH]; [done|].
  destruct es as [|e' es]; simpl.
  - by rewrite str_app_nil_r.
  - simpl in IH. rewrite IH by done. by rewrite !str_app_assoc.
Qed.

Lemma last_char_join sep es e c :
  last_char e = Some c → last_char (join sep (es ++ [e])) = Some c.
Proof.
  intros He. induction es as [|x es IH]; [done|].
  simpl. destruct (es ++ [e]) eqn:E.
  - by destruct es.
  - by do 2 apply last_char_app.
Qed.

Lemma first_char_join sep e es c :
  first_char e = Some c → first_char (join sep (e :: es)) = Some c.
Proof. intros He. destruct es; [done|]. simpl. by apply first_char_app. Qed.

Lemma valid_path_last p :
  valid_path p = true → ∃ c, last_char p = Some c ∧ c ≠ nul.
Proof.
  unfold valid_path. rewrite andb_true_iff. intros [Hne Hp].
  induction p as [|c p IH]; [done|].
  apply no_nul_cons in Hp as [Hc Hp]. destruct p as [|d p].
  - by exists c.
  - destruct IH as (e & He & Hnul); [done..|]. by exists e.
Qed.

(** What [strip] and [split] make of the records git prints. *)
Lemma entries_of_output es c d :
  es ≠ [] → Forall (λ e, no_nul e = true) es →
  first_char (join NUL es) = Some c → c ≠ nul →
  last_char (join NUL es) = Some d → d ≠ nul →
  split NUL (strip_chars NUL (concat_str (map (λ e, e +:+ NUL) es))) = es.
Proof.
  intros Hne Hes Hc Hcn Hd Hdn. rewrite concat_join by done.
  unfold strip_chars, strip_by.
  rewrite (lstrip_keep _ _ c).
  - rewrite (rstrip_snoc _ (join NUL es) nul) by done.
    rewrite (rstrip_keep _ _ d); [|done|].
    + by apply split_join.
    + unfold NUL. rewrite mem_char_single. by apply bool_decide_eq_false.
  - by apply first_char_app.
  - unfold NUL. rewrite mem_char_single. by apply bool_decide_eq_false.
Qed.

Lemma record_entries_no_nul r :
  valid_record r = true → Forall (λ e, no_nul e = true) (record_entries r).
Proof.
  unfold valid_record, valid_path.
  destruct r; simpl; rewrite ?andb_true_iff; intros H;
    repeat constructor; try done; tauto.
Qed.

Lemma record_entries_last r :
  valid_record r = true →
  ∃ init p, record_entries r = init ++ [p] ∧ valid_path p = true.
Proof.
  destruct r as [p|p|p|score o n]; simpl; intros H.
  - by exists ["A"], p.
  - by exists ["M"], p.
  - by exists ["D"], p.
  - apply andb_true_iff in H as [_ H]. by exists ["R" +:+ score; o], n.
Qed.

Lemma record_entries_first r es :
  ∃ c, first_char (join NUL (record_entries r ++ es)) = Some c ∧ c ≠ nul.
Proof.
  destruct r as [p|p|p|score o n];
    eexists; (split; [reflexivity | done]).
Qed.

Lemma diff_tree_output_entries rs :
  rs ≠ [] → Forall (λ r, valid_record r = true) rs →
  split NUL (strip_chars NUL (diff_tree_output rs))
  = concat (map record_entries rs).
Proof.
  intros Hne Hrs. unfold diff_tree_output.
  destruct (record_entries_first (hd (Add "") rs)
              (concat (map record_entries (tl rs)))) as (c & Hc & Hcn).
  assert (concat (map record_entries rs)
          = record_entries (hd (Add "") rs)
            ++ concat (map record_entries (tl rs))) as Hsplit.
  { by destruct rs. }
  destruct (exists_last Hne) as (rs' & r & ->).
  apply Forall_app in Hrs as [Hrs' Hr].
  apply Forall_inv in Hr.
  destruct (record_entries_last r Hr) as (init & p & Hlast & Hp).
  destruct (valid_path_last p Hp) as (d & Hd & Hdn).
  assert (concat (map record_entries (rs' ++ [r]))
          = (concat (map record_entries rs') ++ init) ++ [p]) as Hend.
  { rewrite map_app, concat_app. simpl. rewrite List.app_nil_r, Hlast.
    by rewrite <-List.app_assoc. }
  apply (entries_of_output _ c d); try done.
  - rewrite Hend. by destruct (concat _ ++ init).
  - apply Forall_concat, Forall_fmap, Forall_app. split.
    + eapply Forall_impl; [exact Hrs'|]. apply record_entries_no_nul.
    + apply Forall_singleton. by apply record_entries_no_nul.
  - by rewrite Hsplit.
  - rewrite Hend. by apply last_char_join.
Qed.

Lemma loop_add status p rest adds dels :
  startswith "R" status = false → status ≠ "D" →
  get_file_diff_loop (status :: p :: rest) adds dels
  = get_file_diff_loop rest (adds ++ [p]) dels.
Proof.
  intros HR HD. simpl. rewrite HR, replace_same.
  by rewrite bool_decide_eq_false_2.
Qed.

Lemma loop_delete p rest adds dels :
  get_file_diff_loop ("D" :: p :: rest) adds dels
  = get_file_diff_loop rest adds (dels ++ [p]).
Proof.
  change (get_file_diff_loop ("D" :: p :: rest) adds dels)
    with (get_file_diff_loop rest adds
            (dels ++ [replace PyPath.os_sep "/" p])).
  by rewrite replace_same.
Qed.

Lemma loop_rename score o n rest adds dels :
  get_file_diff_loop (("R" +:+ score) :: o :: n :: rest) adds dels
  = get_file_diff_loop rest (adds ++ [n]) (dels ++ [o]).
Proof.
  assert (startswith "R" ("R" +:+ score) = true) as HR by (by destruct score).
  generalize dependent ("R" +:+ score). intros status HR.
  simpl. by rewrite HR, !replace_same.
Qed.

Lemma get_file_diff_loop_records rs adds dels :
  (get_file_diff_loop (concat (map record_entries rs)) adds dels).2
  = Ok (adds ++ added_paths rs, dels ++ deleted_paths rs).
Proof.
  revert adds dels. induction rs as [|r rs IH]; intros adds dels.
  { simpl. by rewrite !List.app_nil_r. }
  change (concat (map record_entries (r :: rs)))
    with (record_entries r ++ concat (map record_entries rs)).
  unfold added_paths, deleted_paths in *.
  destruct r as [p|p|p|score o n];
    cbn [record_entries app map concat];
    rewrite ?loop_delete, ?loop_rename, ?loop_add by done;
    rewrite IH, <-?List.app_assoc; done.
Qed.
End diff_facts.

Ltac elem_solver :=
  unfold added_paths, deleted_paths in *; simpl in *;
  repeat rewrite ?elem_of_cons, ?elem_of_nil in *;
  intuition (subst; try congruence; auto).

Section partition.
Lemma added_paths_cons r rs :
  added_paths (r :: rs) = added_paths [r] ++ added_paths rs.
Proof. unfold added_paths. simpl. by rewrite List.app_nil_r. Qed.

Lemma deleted_paths_cons r rs :
  deleted_paths (r :: rs) = deleted_paths [r] ++ deleted_paths rs.
Proof. unfold deleted_paths. simpl. by rewrite List.app_nil_r. Qed.

Lemma added_one_incl r p : p ∈ added_paths [r] → p ∈ record_paths r.
Proof. destruct r; elem_solver. Qed.

Lemma deleted_one_incl r p : p ∈ deleted_paths [r] → p ∈ record_paths r.
Proof. destruct r; elem_solver. Qed.

Lemma added_deleted_one r p :
  NoDup (record_paths r) → p ∈ added_paths [r] → p ∉ deleted_paths [r].
Proof.
  destruct r as [?|?|?|score o n]; intros Hnd.
  4: apply NoDup_cons in Hnd as [Hon _].
  all: elem_solver.
Qed.

Lemma added_paths_incl rs p :
  p ∈ added_paths rs → p ∈ concat (map record_paths rs).
Proof.
  induction rs as [|r rs IH]; [done|].
  rewrite added_paths_cons. simpl. rewrite !elem_of_app.
  intros [Hp|Hp]; [left; by apply added_one_incl | right; by apply IH].
Qed.

Lemma deleted_paths_incl rs p :
  p ∈ deleted_paths rs → p ∈ concat (map record_paths rs).
Proof.
  induction rs as [|r rs IH]; [done|].
  rewrite deleted_paths_cons. simpl. rewrite !elem_of_app.
  intros [Hp|Hp]; [left; by apply deleted_one_incl | right; by apply IH].
Qed.

Lemma added_deleted_disjoint rs p :
  NoDup (concat (map record_paths rs)) →
  p ∈ added_paths rs → p ∉ deleted_paths rs.
Proof.
  induction rs as [|r rs IH]; [by intros _ ?%elem_of_nil|].
  simpl. rewrite NoDup_app. intros (Hr & Hdisj & Hrs).
  rewrite added_paths_cons, deleted_paths_cons, elem_of_app, not_elem_of_app.
  intros [Hp|Hp]; split.
  - by apply added_deleted_one.
  - intros Hd%deleted_paths_incl. apply (Hdisj p); [|done].
    by apply added_one_incl.
  - intros Hd. apply added_paths_incl in Hp. apply (Hdisj p); [|done].
    by apply deleted_one_incl.
  - by apply IH.
Qed.

Lemma record_in_added r rs p :
  r ∈ rs → p ∈ added_paths [r] → p ∈ added_paths rs.
Proof.
  intros Hr Hp. induction rs as [|r' rs IH]; [by apply elem_of_nil in Hr|].
  rewrite added_paths_cons, elem_of_app.
  apply elem_of_cons in Hr as [->|Hr]; [by left | right; by apply IH].
Qed.

Lemma record_in_deleted r rs p :
  r ∈ rs → p ∈ deleted_paths [r] → p ∈ deleted_paths rs.
Proof.
  intros Hr Hp. induction rs as [|r' rs IH]; [by apply elem_of_nil in Hr|].
  rewrite deleted_paths_cons, elem_of_app.
  apply elem_of_cons in Hr as [->|Hr]; [by left | right; by apply IH].
Qed.
End partition.

(** Non-empty sequences.  When git prints a non-empty sequence of
    well-formed records in which every path is named once, the resolver
    returns the paths of the Add and Modify records and the new paths of the
    renames as add-set, the paths of the Delete records and the old paths
    of the renames as delete-set, each in the order of the records, and the
    two sets share no path. *)
Lemma tree_diff_partition (w : World) (root old new : string)
    (rs : list DiffRecord) (r : CompletedProcess) :
  rs ≠ [] →
  Forall (λ rec, valid_record rec = true) rs →
  NoDup (concat (map record_paths rs)) →
  subprocess_run w (diff_tree_command old new) (Some root) None = Some r →
  returncode r = 0 →
  stdout r = diff_tree_output rs →
  (get_file_diff w root old new).2 = Ok (added_paths rs, deleted_paths rs)
  ∧ (∀ p, p ∈ added_paths rs → p ∉ deleted_paths rs)
  ∧ (∀ rec, rec ∈ rs →
       match rec with
       | Add p | Modify p =>
           p ∈ added_paths rs ∧ p ∉ deleted_paths rs
       | Delete p => p ∈ deleted_paths rs ∧ p ∉ added_paths rs
       | Rename _ o n =>
           (o ∈ deleted_paths rs ∧ n ∈ added_paths rs)
           ∧ (o ∉ added_paths rs) ∧ (n ∉ deleted_paths rs)
       end).
Proof.
  intros Hne Hvalid Hnd Hrun Hrc Hout.
  pose proof (λ p, added_deleted_disjoint rs p Hnd) as Hdisj.
  split_and!; [|done|].
  - unfold get_file_diff. rewrite bind_result. simpl.
    assert ((run_command w (diff_tree_command old new) true (Some root) None).2
            = Ok r) as Hcmd.
    { unfold run_command. by rewrite Hrun, Hrc. }
    unfold diff_tree_command in Hcmd. rewrite (bind_ok _ _ _ Hcmd).
    rewrite Hout, diff_tree_output_entries by done.
    rewrite (bind_ok _ _ _ (get_file_diff_loop_records rs [] [])).
    by rewrite bind_result.
  - intros rec Hrec.
    assert (∀ p, p ∈ added_paths [rec] → p ∈ added_paths rs) as Ha
      by (intros p; by apply record_in_added).
    assert (∀ p, p ∈ deleted_paths [rec] → p ∈ deleted_paths rs) as Hd
      by (intros p; by apply record_in_deleted).
    destruct rec as [p|p|p|score o n].
    + assert (p ∈ added_paths rs) as Hp by (apply Ha; by left).
      split; [done | by apply Hdisj].
    + assert (p ∈ added_paths rs) as Hp by (apply Ha; by left).
      split; [done | by apply Hdisj].
    + assert (p ∈ deleted_paths rs) as Hp by (apply Hd; by left).
      split; [done|]. intros Hin. by apply (Hdisj p).
    + assert (o ∈ deleted_paths rs) as Ho by (apply Hd; by left).
      assert (n ∈ added_paths rs) as Hn by (apply Ha; by left).
      split_and!; [done|done| |by apply Hdisj].
      intros Hin. by apply (Hdisj o).
Qed.

(** The rename scenario of the specification: [x.txt] becomes [y.txt]. *)
Lemma tree_diff_rename_scenario :
  (get_file_diff (world_diff [Rename "100" "x.txt" "y.txt"]) "/repo" "v1" "v2").2
  = Ok (["y.txt"], ["x.txt"]).
Proof.
  refine (proj1 (tree_diff_partition
    (world_diff [Rename "100" "x.txt" "y.txt"]) "/repo" "v1" "v2"
    [Rename "100" "x.txt" "y.txt"]
    (completed (diff_tree_output [Rename "100" "x.txt" "y.txt"]))
    _ _ _ _ _ _)).
  - discriminate.
  - repeat constructor.
  - apply (bool_decide_unpack _). vm_compute. exact I.
  - reflexivity.
  - reflexivity.
  - reflexivity.
Defined.

(** ** The ignore filter *)

Lemma filter_idem {A} (f : A → bool) (l : list A) :
  List.filter f (List.filter f l) = List.filter f l.
Proof.
  induction l as [|x l IH]; [done|]. simpl.
  destruct (f x) eqn:E; [|done]. simpl. by rewrite E, IH.
Qed.

Lemma filter_none {A} (f : A → bool) (l : list A) :
  List.filter f (List.filter (λ x, negb (f x)) l) = [].
Proof.
  induction l as [|x l IH]; [done|]. simpl.
  destruct (f x) eqn:E; [done|]. simpl. by rewrite E.
Qed.

(** Removing the matched files through the set of matches is removing the
    files that match. *)
Lemma filter_through_set (match_file : string → bool) (files : list string) :
  List.filter
    (λ f, negb (bool_decide
                  (f ∈ (list_to_set (List.filter match_file files) : gset string))))
    files
  = List.filter (λ f, negb (match_file f)) files.
Proof.
  apply List.filter_ext_in. intros f Hf. f_equal.
  destruct (match_file f) eqn:E;
    [apply bool_decide_eq_true_2 | apply bool_decide_eq_false_2];
    rewrite elem_of_list_to_set, list_elem_of_In, List.filter_In;
    [tauto | intros [_ ?]; congruence].
Qed.

Lemma filter_files_result w root files :
  (filter_files_with_distignore w root files).2
  = match distignore w with
    | None => Ok files
    | Some patterns =>
        match PathSpec_from_lines w (PyStr.splitlines patterns) with
        | None => Fail (Raised "GitWildMatchPatternError" "invalid pattern")
        | Some match_file => Ok (List.filter (λ f, negb (match_file f)) files)
        end
    end.
Proof.
  unfold filter_files_with_distignore.
  destruct (distignore w) as [patterns|]; [|done].
  rewrite bind_result. simpl.
  destruct (PathSpec_from_lines w _) as [match_file|]; [|done].
  rewrite bind_result, filter_through_set. by destruct (negb _).
Qed.

Lemma filter_files_absent w root files :
  distignore w = None →
  filter_files_with_distignore w root files = ([distignore_missing], Ok files).
Proof. unfold filter_files_with_distignore. by intros ->. Qed.

(** C9.  Whatever the exclude list, filtering what the filter returned
    returns it again; the second pass finds nothing to exclude and logs no
    exclusion. *)
Theorem ignore_filter_idempotent (w : World) (root : string)
    (files once : list string) :
  (filter_files_with_distignore w root files).2 = Ok once →
  (filter_files_with_distignore w root once).2 = Ok once
  ∧ ∀ n : nat,
      (INFO, "Excluded " +:+ pretty n +:+ " files based on .distignore rules.")
      ∉ (filter_files_with_distignore w root once).1.
Proof.
  rewrite !filter_files_result. unfold filter_files_with_distignore.
  destruct (distignore w) as [patterns|].
  - destruct (PathSpec_from_lines w _) as [match_file|]; [|done].
    intros [= <-]. split; [by rewrite filter_idem|].
    intros n. rewrite filter_none. simpl.
    rewrite bool_decide_eq_true_2 by done. simpl.
    rewrite elem_of_cons, elem_of_nil. intros [Heq|[]]. discriminate Heq.
  - intros [= <-]. split; [done|]. intros n.
    simpl. rewrite elem_of_cons, elem_of_nil. intros [Heq|[]]. discriminate Heq.
Qed.

Lemma ignore_filter_twice_scenario :
  (filter_files_with_distignore world_snapshot "/repo" ["app.py"]).2
  = Ok ["app.py"].
Proof.
  apply (ignore_filter_idempotent world_snapshot "/repo"
           ["README.md"; "app.py"; "docs/guide.md"] ["app.py"]).
  reflexivity.
Defined.

(** ** Loops over lists *)

Lemma mapM_ok_inv {A B} (f : A → M B) (l : list A) (ys : list B) :
  (mapM f l).2 = Ok ys → Forall2 (λ x y, (f x).2 = Ok y) l ys.
Proof.
  revert ys. induction l as [|x l IH]; intros ys; simpl.
  - intros [= <-]. constructor.
  - intros (y & Hy & Hrest)%bind_ok_inv.
    apply bind_ok_inv in Hrest as (ys' & Hys' & Hret).
    injection Hret as <-. constructor; [done | by apply IH].
Qed.


(** ** The stable sort on member names *)
Section sort_facts.
Implicit Types (x y : TarInfo * string) (l : list (TarInfo * string)).

Lemma insert_by_name_perm x l : insert_by_name x l ≡ₚ x :: l.
Proof.
  induction l as [|y l IH]; [done|]. simpl.
  destruct (String.leb _ _); [done|]. by rewrite IH, Permutation_swap.
Qed.

Lemma sort_by_name_perm l : sort_by_name l ≡ₚ l.
Proof.
  induction l as [|x l IH]; [done|]. simpl.
  by rewrite insert_by_name_perm, IH.
Qed.

Lemma insert_by_name_sorted x l :
  Sorted name_le l → Sorted name_le (insert_by_name x l).
Proof.
  induction l as [|y l IH]; intros Hs; simpl; [by repeat constructor|].
  destruct (String.leb (ti_name x.1) (ti_name y.1)) eqn:E.
  - constructor; [done|]. constructor. unfold name_le, String.le. by rewrite E.
  - apply Sorted_inv in Hs as [Hl Hy]. constructor; [by apply IH|].
    assert (name_le y x) as Hyx.
    { unfold name_le, String.le.
      destruct (String.leb_total (ti_name x.1) (ti_name y.1)) as [H|H];
        [congruence | by rewrite H]. }
    destruct l as [|z l']; simpl; [by constructor|].
    apply HdRel_inv in Hy.
    destruct (String.leb (ti_name x.1) (ti_name z.1)); by constructor.
Qed.

Lemma sort_by_name_sorted l : Sorted name_le (sort_by_name l).
Proof.
  induction l as [|x l IH]; [constructor|]. by apply insert_by_name_sorted.
Qed.

#[local] Instance name_le_trans : Transitive name_le.
Proof. intros x y z. unfold name_le. apply transitivity. Qed.


End sort_facts.

(** ** The archive builder *)
Section archive_facts.
Variable w : World.

Lemma create_archive_inv root out adds dels tmp v hw a :
  (create_archive w root out adds dels tmp v hw).2 = Ok a →
  ∃ app_members,
    (prepare_app_members w root v adds).2 = Ok app_members
    ∧ a = {| gz_filename := out; gz_mtime := FIXED_MTIME;
             tar_entries :=
               map written
                 (sort_by_name (app_members ++ delete_list_members dels))
               ++ wheel_members w hw |}.
Proof.
  unfold create_archive. rewrite bind_result. simpl.
  intros (app_members & Happ & Hrest)%bind_ok_inv.
  exists app_members. split; [done|].
  rewrite bind_result in Hrest. by destruct hw; injection Hrest as <-.
Qed.


(** What the application block returns: nothing for an empty add-set,
    else one member a path, from one reading of the modes. *)
Lemma prepare_app_members_inv root v adds members :
  (prepare_app_members w root v adds).2 = Ok members →
  (adds = [] ∧ members = [])
  ∨ ∃ ls file_modes,
      (run_command w (ls_modes_command v adds) true (Some root) None).2 = Ok ls
      ∧ (foldM file_modes_item
           (PyStr.splitlines (PyStr.strip (stdout ls))) ∅).2 = Ok file_modes
      ∧ Forall2 (λ path m,
          ∃ shown,
            (run_command w (show_command v path) true (Some root) None).2
            = Ok shown
            ∧ m = app_member file_modes path (stdout shown)) adds members.
Proof.
  unfold prepare_app_members. destruct adds as [|p adds].
  { intros [= <-]. by left. }
  remember (p :: adds) as files. cbn [nonempty]. rewrite Heqfiles at 1.
  cbn [nonempty]. intros (_ & _ & Hrest)%bind_ok_inv.
  apply bind_ok_inv in Hrest as (ls & Hls & Hrest).
  apply bind_ok_inv in Hrest as (file_modes & Hmodes & Hmap).
  right. exists ls, file_modes. split_and!; [done..|].
  apply mapM_ok_inv in Hmap.
  eapply Forall2_impl; [exact Hmap|]. simpl.
  intros path m (shown & Hshown & Hret)%bind_ok_inv.
  exists shown. split; [done|]. by injection Hret as <-.
Qed.

Lemma prepare_app_members_names root v adds members :
  (prepare_app_members w root v adds).2 = Ok members →
  Forall (λ m, ∃ path, ti_name m.1 = "app/" +:+ path) members.
Proof.
  intros [[_ ->]|(ls & modes & _ & _ & Hall)]%prepare_app_members_inv.
  - constructor.
  - induction Hall as [|p m ps ms (shown & _ & ->) _ IH]; constructor;
      [by exists p | done].
Qed.

Lemma members_named_app name l1 l2 :
  members_named name (l1 ++ l2)
  = members_named name l1 ++ members_named name l2.
Proof. apply filter_app. Qed.

Lemma members_named_written name l :
  members_named name (map written l) = map written (members_named name l).
Proof.
  unfold members_named. induction l as [|m l IH]; [done|].
  simpl. rewrite !filter_cons, IH. simpl. by destruct (decide _).
Qed.

Lemma members_named_wheels hw : members_named "delete.list" (wheel_members w hw) = [].
Proof.
  unfold wheel_members, members_named. destruct hw; [|done].
  induction (staging_walk w) as [|e l IH]; [done|].
  simpl. rewrite filter_cons_False; [done|]. simpl.
  destruct (PyStr.is_empty (st_rel e)); discriminate.
Qed.

Lemma members_named_app_members root v adds members :
  (prepare_app_members w root v adds).2 = Ok members →
  members_named "delete.list" members = [].
Proof.
  intros Hall%prepare_app_members_names. unfold members_named.
  induction Hall as [|m ms [p Hm] _ IH]; [done|].
  rewrite filter_cons_False; [done|]. rewrite Hm. discriminate.
Qed.

Lemma members_named_delete_list dels :
  members_named "delete.list" (map written (delete_list_members dels))
  = if nonempty dels then [delete_list_written dels] else [].
Proof. unfold delete_list_members. by destruct (nonempty dels). Qed.
End archive_facts.

(** The members named [delete.list] of any archive the builder writes. *)
Lemma create_archive_delete_list (w : World) (root out : string)
    (adds dels : list string) (tmp v : string) (hw : bool) (a : Archive) :
  (create_archive w root out adds dels tmp v hw).2 = Ok a →
  members_named "delete.list" (tar_entries a)
  = if nonempty dels then [delete_list_written dels] else [].
Proof.
  intros (app_members & Happ & ->)%create_archive_inv. simpl.
  rewrite members_named_app, members_named_wheels, List.app_nil_r.
  rewrite members_named_written.
  assert (members_named "delete.list"
            (sort_by_name (app_members ++ delete_list_members dels))
          ≡ₚ members_named "delete.list" (delete_list_members dels)) as Hperm.
  { unfold members_named at 1. rewrite sort_by_name_perm.
    fold (members_named "delete.list" (app_members ++ delete_list_members dels)).
    by rewrite members_named_app, (members_named_app_members w root v adds). }
  rewrite <-members_named_delete_list, members_named_written.
  f_equal. unfold delete_list_members in *.
  destruct (nonempty dels).
  - by apply Permutation_singleton_r in Hperm.
  - by apply Permutation_nil_r in Hperm.
Qed.


(** C7.  Whenever the builder writes an archive, its members named
    [delete.list] are: for a non-empty delete-set, the one member whose
    content is the paths of the delete-set joined by newlines in the order
    they were found; for an empty delete-set, none. *)
Theorem delete_list_member (w : World) (root out : string)
    (adds dels : list string) (tmp v : string) (hw : bool) (a : Archive) :
  (create_archive w root out adds dels tmp v hw).2 = Ok a →
  members_named "delete.list" (tar_entries a)
  = if nonempty dels then [delete_list_written dels] else [].
Proof. apply create_archive_delete_list. Qed.

(** The deletion manifest keeps the order in which the paths were found. *)
Lemma delete_list_member_scenario :
  ∃ a,
    (create_archive world_host1 "/repo" "/repo/out.tar.gz"
       ["b.py"; "a.py"] ["z"; "y"] "/tmp/t" "v2" true).2 = Ok a
    ∧ members_named "delete.list" (tar_entries a)
      = [delete_list_written ["z"; "y"]].
Proof.
  eexists. split; [vm_compute; reflexivity|].
  apply (delete_list_member world_host1 "/repo" "/repo/out.tar.gz"
           ["b.py"; "a.py"] ["z"; "y"] "/tmp/t" "v2" true).
  vm_compute. reflexivity.
Defined.

(** ** C5: the mode of a member *)

(** C5, evaluated where it fails.  The target revision records mode
    [100755] for [run me.sh]; the member [app/run me.sh] is written with
    mode [0o644], because the path is looked up under the fourth blank-
    separated field of the [git ls-tree] line, which is [run].  A name
    without blank gets the recorded mode. *)
Theorem app_member_mode_lost_for_spaced_path :
  subprocess_run world_spaced_name (ls_modes_command "v2" ["run me.sh"])
    (Some "/repo") None
  = Some (completed (ls_tree_line "100755" sha_a "run me.sh"))
  ∧ PyStr.int_base8 "100755" = Some 33261
  ∧ (create_archive world_spaced_name "/repo" "/repo/out.tar.gz"
       ["run me.sh"] [] "/tmp/t" "v2" false).2
    = Ok {| gz_filename := "/repo/out.tar.gz"; gz_mtime := FIXED_MTIME;
            tar_entries :=
              [written (app_member {["run" := 33261]} "run me.sh"
                          ("#!/bin/sh" +:+ NL))] |}
  ∧ ti_mode (app_member {["run" := 33261]} "run me.sh" ("#!/bin/sh" +:+ NL)).1
    = 420
  ∧ (create_archive world_plain_name "/repo" "/repo/out.tar.gz"
       ["run.sh"] [] "/tmp/t" "v2" false).2
    = Ok {| gz_filename := "/repo/out.tar.gz"; gz_mtime := FIXED_MTIME;
            tar_entries :=
              [written (app_member {["run.sh" := 33261]} "run.sh"
                          ("#!/bin/sh" +:+ NL))] |}
  ∧ ti_mode (app_member {["run.sh" := 33261]} "run.sh" ("#!/bin/sh" +:+ NL)).1
    = 33261.
Proof. split_and!; vm_compute; reflexivity. Qed.

(** ** C4: the archive from one run to the next *)

Lemma run_command_result w command check dir input :
  (run_command w command check dir input).2
  = command_result (subprocess_run w command dir input) check.
Proof.
  unfold run_command, command_result.
  destruct (subprocess_run w command dir input) as [r|]; [|done].
  by destruct (check && _).
Qed.





Lemma app_name_inj p q : "app/" +:+ p = "app/" +:+ q → p = q.
Proof. apply (inj (String.app "app/")). Qed.

Lemma command_result_ok answer check r :
  command_result answer check = Ok r → answer = Some r.
Proof.
  unfold command_result. destruct answer as [r'|]; [|done].
  destruct (check && _); [done|]. by intros [= ->].
Qed.

Lemma delete_list_members_name dels m :
  m ∈ delete_list_members dels → ti_name m.1 = "delete.list".
Proof.
  unfold delete_list_members. destruct (nonempty dels).
  - by intros ->%list_elem_of_singleton.
  - by intros ?%elem_of_nil.
Qed.




(** ** The listing of a revision *)
Section listing_facts.
Import PyStr.

Lemma splitlines_go_line e cur s :
  all_chars (λ c, negb (is_linebreak c)) e = true →
  splitlines_go cur (e +:+ s) = splitlines_go (cur +:+ e) s.
Proof.
  revert cur. induction e as [|c e IH]; intros cur He.
  - by rewrite str_app_nil_l, str_app_nil_r.
  - simpl in He. apply andb_true_iff in He as [Hc He].
    apply negb_true_iff in Hc. rewrite str_app_cons.
    assert (c ≠ cr) as Hcr by (by intros ->).
    change (splitlines_go cur (String c (e +:+ s)))
      with (if bool_decide (c = cr) then
              match e +:+ s with
              | String d s'' =>
                  if bool_decide (d = lf) then cur :: splitlines_go "" s''
                  else cur :: splitlines_go "" (e +:+ s)
              | "" => [cur]
              end
            else if is_linebreak c then cur :: splitlines_go "" (e +:+ s)
            else splitlines_go (cur +:+ char c) (e +:+ s)).
    rewrite bool_decide_eq_false_2, Hc, IH by done.
    unfold char. by rewrite str_app_assoc.
Qed.

Lemma splitlines_go_newline cur s :
  splitlines_go cur (NL +:+ s) = cur :: splitlines_go "" s.
Proof. done. Qed.

Lemma plain_name_inv p :
  plain_name p = true →
  all_chars (λ c, negb (is_linebreak c)) p = true
  ∧ (∃ c, first_char p = Some c ∧ is_space c = false)
  ∧ (∃ c, last_char p = Some c ∧ is_space c = false).
Proof.
  unfold plain_name, not_blank. rewrite !andb_true_iff.
  intros [[Hall Hfirst] Hlast]. split_and!; [done| |].
  - destruct (first_char p) as [c|]; [|done].
    exists c. by rewrite <-negb_true_iff.
  - destruct (last_char p) as [c|]; [|done].
    exists c. by rewrite <-negb_true_iff.
Qed.

Lemma splitlines_join names :
  Forall (λ p, plain_name p = true) names →
  splitlines (join NL names) = names.
Proof.
  unfold splitlines. induction 1 as [|e es He Hes IH]; [done|].
  apply plain_name_inv in He as (Hline & (c & Hc & _) & _).
  destruct es as [|e' es].
  - simpl. rewrite <-(str_app_nil_r e) at 1.
    rewrite splitlines_go_line by done. simpl. by destruct e.
  - change (join NL (e :: e' :: es)) with (e +:+ NL +:+ join NL (e' :: es)).
    by rewrite splitlines_go_line, splitlines_go_newline, IH.
Qed.

Lemma strip_listing names :
  Forall (λ p, plain_name p = true) names →
  strip (listing_output names) = join NL names.
Proof.
  intros Hnames. destruct names as [|p names]; [done|].
  unfold listing_output. rewrite concat_join by done.
  assert (p :: names ≠ []) as Hne by done.
  destruct (exists_last Hne) as (init & q & Heq).
  apply Forall_inv in Hnames as Hp.
  apply plain_name_inv in Hp as (_ & (c & Hc & Hcs) & _).
  assert (plain_name q = true) as Hq.
  { rewrite Heq in Hnames. apply Forall_app in Hnames as [_ Hq].
    by apply Forall_inv in Hq. }
  apply plain_name_inv in Hq as (_ & _ & (d & Hd & Hds)).
  unfold strip, strip_by.
  rewrite (lstrip_keep _ _ c); [|by apply first_char_app, first_char_join|done].
  unfold NL at 2. rewrite rstrip_snoc by done.
  apply (rstrip_keep _ _ d); [|done].
  rewrite Heq. by apply last_char_join.
Qed.

Lemma get_all_files_listing w root v r names :
  subprocess_run w (ls_names_command v) (Some root) None = Some r →
  returncode r = 0 →
  stdout r = listing_output names →
  Forall (λ p, plain_name p = true) names →
  (get_all_files w root v).2 = Ok names.
Proof.
  intros Hrun Hrc Hout Hnames. unfold get_all_files.
  rewrite bind_result. simpl.
  assert ((run_command w (ls_names_command v) true (Some root) None).2 = Ok r)
    as Hcmd.
  { rewrite run_command_result, Hrun. unfold command_result. by rewrite Hrc. }
  unfold ls_names_command in Hcmd. rewrite (bind_ok _ _ _ Hcmd).
  rewrite bind_result. simpl.
  rewrite Hout, strip_listing, splitlines_join by done.
  f_equal. clear. induction names as [|p names IH]; [done|].
  simpl. by rewrite replace_same, IH.
Qed.
End listing_facts.

(** ** The run as a whole *)

Lemma bind_log_l {A B} (f : A → M B) (m : M A) (e : event) :
  e ∈ m.1 → e ∈ (m ≫= f).1.
Proof.
  rewrite bind_log. destruct m.2; [|done]. rewrite elem_of_app. by left.
Qed.

Lemma bind_log_r {A B} (f : A → M B) (m : M A) (a : A) (e : event) :
  m.2 = Ok a → e ∈ (f a).1 → e ∈ (m ≫= f).1.
Proof. rewrite bind_log. intros ->. rewrite elem_of_app. by right. Qed.

Lemma main_ok_inv w args x :
  (main w args).2 = Ok x →
  (main_body w args).2 = Ok x ∧ (main w args).1 = (main_body w args).1.
Proof.
  unfold main. destruct (main_body w args) as [l [x'|[code|cls msg]]]; by simpl.
Qed.

(** The stages a run went through when it ends with a package. *)
Lemma main_created_inv w args out a :
  (main w args).2 = Ok (PackageCreated out a) →
  ∃ root deps adds dels hw final,
    (find_project_root w).2 = Ok root
    ∧ (gather_changes w args root).2 = Ok (deps, adds, dels)
    ∧ (download_wheels w deps (temp_dir w) (py_version args) (platform args)).2
      = Ok hw
    ∧ (filter_files_with_distignore w root adds).2 = Ok final
    ∧ (create_archive w root out final dels (temp_dir w) (new_version args) hw).2
      = Ok a
    ∧ ∀ e, e ∈ (filter_files_with_distignore w root adds).1 → e ∈ (main w args).1.
Proof.
  intros [Hbody Hlog]%main_ok_inv. rewrite Hlog. clear Hlog.
  unfold main_body in *.
  apply bind_ok_inv in Hbody as (root & Hroot & Hbody).
  apply bind_ok_inv in Hbody as ([] & Hlog1 & Hbody).
  apply bind_ok_inv in Hbody as (path & Hpath & Hbody).
  apply bind_ok_inv in Hbody as ([[deps adds] dels] & Hgather & Hbody).
  apply bind_ok_inv in Hbody as (hw & Hdown & Hbody).
  apply bind_ok_inv in Hbody as (final & Hfilter & Hbody).
  destruct (nonempty final || hw); [|done].
  apply bind_ok_inv in Hbody as (a' & Hcreate & Hbody).
  apply bind_ok_inv in Hbody as ([] & _ & Hbody).
  apply bind_ok_inv in Hbody as ([] & _ & Hbody).
  injection Hbody as <- <-.
  exists root, deps, adds, dels, hw, final. split_and!; [done..|].
  intros e He.
  apply (bind_log_r _ _ _ _ Hroot), (bind_log_r _ _ _ _ Hlog1).
  apply (bind_log_r _ _ _ _ Hpath), (bind_log_r _ _ _ _ Hgather).
  apply (bind_log_r _ _ _ _ Hdown). by apply bind_log_l.
Qed.

(** What decides between a package and a no-op, in a run that ends well:
    the filtered add-set and the artifacts, not the delete-set. *)
Lemma main_gate w args x :
  (main w args).2 = Ok x →
  ∃ root deps adds dels hw final,
    (gather_changes w args root).2 = Ok (deps, adds, dels)
    ∧ (download_wheels w deps (temp_dir w) (py_version args) (platform args)).2
      = Ok hw
    ∧ (filter_files_with_distignore w root adds).2 = Ok final
    ∧ if nonempty final || hw
      then ∃ out a, x = PackageCreated out a
      else x = NoPackage.
Proof.
  intros [Hbody _]%main_ok_inv. unfold main_body in *.
  apply bind_ok_inv in Hbody as (root & Hroot & Hbody).
  apply bind_ok_inv in Hbody as ([] & Hlog1 & Hbody).
  apply bind_ok_inv in Hbody as (path & Hpath & Hbody).
  apply bind_ok_inv in Hbody as ([[deps adds] dels] & Hgather & Hbody).
  apply bind_ok_inv in Hbody as (hw & Hdown & Hbody).
  apply bind_ok_inv in Hbody as (final & Hfilter & Hbody).
  exists root, deps, adds, dels, hw, final. split_and!; [done..|].
  destruct (nonempty final || hw).
  - apply bind_ok_inv in Hbody as (a & Hcreate & Hbody).
    apply bind_ok_inv in Hbody as ([] & _ & Hbody).
    apply bind_ok_inv in Hbody as ([] & _ & Hbody).
    injection Hbody as <-. by eexists _, _.
  - apply bind_ok_inv in Hbody as ([] & _ & Hbody). by injection Hbody as <-.
Qed.

Lemma filter_files_excluded w root files final :
  (filter_files_with_distignore w root files).2 = Ok final →
  final = List.filter (λ f, negb (excluded w f)) files.
Proof.
  rewrite filter_files_result. unfold excluded.
  destruct (distignore w) as [patterns|].
  - destruct (PathSpec_from_lines w _); [|done]. by intros [= <-].
  - intros [= <-]. induction files as [|f files IH]; simpl; [done | by f_equal].
Qed.

Lemma gather_changes_full_inv w args root deps adds dels :
  full args = true →
  (gather_changes w args root).2 = Ok (deps, adds, dels) →
  (get_all_dependencies w root (new_version args)).2 = Ok deps
  ∧ (get_all_files w root (new_version args)).2 = Ok adds
  ∧ dels = [].
Proof.
  unfold gather_changes. intros ->.
  intros (deps' & Hdeps & Hrest)%bind_ok_inv.
  apply bind_ok_inv in Hrest as (adds' & Hadds & Hret).
  by injection Hret as <- <- <-.
Qed.

(** Listings of plain names.  In snapshot mode the gathering stage
    returns, whenever its two readings of the tree succeed, the listing of
    the target revision (the paths git prints, when they are plain names)
    as add-set and an empty delete-set; the final add-set is the listing without the paths the
    exclude list drops; and no archive holds a deletion manifest. *)
Lemma snapshot_completeness (w : World) (args : Args) :
  full args = true →
  (∀ root deps adds,
     (get_all_dependencies w root (new_version args)).2 = Ok deps →
     (get_all_files w root (new_version args)).2 = Ok adds →
     (gather_changes w args root).2 = Ok (deps, adds, []))
  ∧ (∀ root deps adds dels,
       (gather_changes w args root).2 = Ok (deps, adds, dels) →
       (get_all_files w root (new_version args)).2 = Ok adds
       ∧ dels = []
       ∧ ∀ final,
           (filter_files_with_distignore w root adds).2 = Ok final →
           final = List.filter (λ f, negb (excluded w f)) adds)
  ∧ (∀ root r names,
       subprocess_run w (ls_names_command (new_version args)) (Some root) None
       = Some r →
       returncode r = 0 →
       stdout r = listing_output names →
       Forall (λ p, plain_name p = true) names →
       (get_all_files w root (new_version args)).2 = Ok names)
  ∧ (∀ out a,
       (main w args).2 = Ok (PackageCreated out a) →
       members_named "delete.list" (tar_entries a) = []).
Proof.
  intros Hfull. split_and!.
  - intros root deps adds Hdeps Hadds. unfold gather_changes.
    by rewrite Hfull, (bind_ok _ _ _ Hdeps), (bind_ok _ _ _ Hadds).
  - intros root deps adds dels Hgather.
    apply gather_changes_full_inv in Hgather as (_ & Hadds & ->); [|done].
    split_and!; [done..|]. intros final. apply filter_files_excluded.
  - intros root r names. apply get_all_files_listing.
  - intros out a Hmain.
    apply main_created_inv in Hmain
      as (root & deps & adds & dels & hw & final & _ & Hgather & _ & _ & Hcreate & _).
    apply gather_changes_full_inv in Hgather as (_ & _ & ->); [|done].
    by rewrite (create_archive_delete_list _ _ _ _ _ _ _ _ _ Hcreate).
Qed.

(** A snapshot under an exclude list: the listing is read back whole, the
    markdown files are dropped, no deletion manifest is written. *)
Lemma snapshot_scenario :
  (get_all_files world_snapshot "/repo" "v2").2
  = Ok ["README.md"; "app.py"; "docs/guide.md"]
  ∧ ∃ out a,
      (main world_snapshot (sample_args true)).2 = Ok (PackageCreated out a)
      ∧ members_named "delete.list" (tar_entries a) = [].
Proof.
  pose proof (snapshot_completeness world_snapshot (sample_args true) eq_refl)
    as (_ & _ & Hlisting & Hnone).
  split.
  - apply (Hlisting "/repo"
             (completed (listing_output ["README.md"; "app.py"; "docs/guide.md"])));
      [reflexivity.. | repeat constructor].
  - do 2 eexists. split; [vm_compute; reflexivity|].
    eapply Hnone. vm_compute. reflexivity.
Defined.

(** Runs that write an archive.  Whatever the exclude list, a run that
    writes an archive writes the whole gathered delete-set into its
    deletion manifest: the filter is given the add-set only.  When there is no exclude list, the filter
    returns the add-set as it is, the run goes on, and the warning is
    logged. *)
Lemma ignore_filter_frame (w : World) (args : Args) (out : string)
    (a : Archive) :
  (main w args).2 = Ok (PackageCreated out a) →
  ∃ root deps adds dels final,
    (gather_changes w args root).2 = Ok (deps, adds, dels)
    ∧ (filter_files_with_distignore w root adds).2 = Ok final
    ∧ members_named "delete.list" (tar_entries a)
      = (if nonempty dels then [delete_list_written dels] else [])
    ∧ (distignore w = None →
       final = adds
       ∧ filter_files_with_distignore w root adds
         = ([distignore_missing], Ok adds)
       ∧ distignore_missing ∈ (main w args).1).
Proof.
  intros (root & deps & adds & dels & hw & final & _ & Hgather & _
          & Hfilter & Hcreate & Hlog)%main_created_inv.
  exists root, deps, adds, dels, final. split_and!; [done..| |].
  - by apply create_archive_delete_list in Hcreate.
  - intros Hnone. pose proof (filter_files_absent w root adds Hnone) as Habs.
    split_and!; [|done|].
    + rewrite Habs in Hfilter. by injection Hfilter as <-.
    + apply Hlog. rewrite Habs. by left.
Qed.

(** A delta with a change, a deletion and a rename, without exclude list. *)
Lemma ignore_filter_frame_scenario :
  ∃ out a,
    (main world_release (sample_args false)).2 = Ok (PackageCreated out a)
    ∧ members_named "delete.list" (tar_entries a)
      = [delete_list_written ["old.txt"; "x.txt"]]
    ∧ distignore_missing ∈ (main world_release (sample_args false)).1.
Proof.
  do 2 eexists. split; [vm_compute; reflexivity|].
  edestruct (ignore_filter_frame world_release (sample_args false))
    as (root & deps & adds & dels & final & Hgather & _ & Hdel & Hnone).
  { vm_compute. reflexivity. }
  split; [|by apply Hnone].
  rewrite Hdel. vm_compute in Hgather. by injection Hgather as <- <- <-.
Defined.

(** * Further properties of the script *)

(** ** Exit statuses *)

Lemma exits_ret {A} (a : A) : exits_with_one (mret a : M A).
Proof. intros code H. discriminate. Qed.

Lemma exits_log l msg : exits_with_one (log l msg).
Proof. intros code H. discriminate. Qed.

Lemma exits_raise {A} cls msg : exits_with_one (raise cls msg : M A).
Proof. intros code H. discriminate. Qed.

Lemma exits_sys_exit {A} : exits_with_one (sys_exit 1 : M A).
Proof. intros code H. by injection H as <-. Qed.

Lemma exits_bind {A B} (m : M A) (f : A → M B) :
  exits_with_one m → (∀ a, exits_with_one (f a)) → exits_with_one (m ≫= f).
Proof.
  intros Hm Hf code. rewrite bind_result.
  destruct (m.2) as [a|e] eqn:E; [apply Hf|].
  intros [= ->]. by apply Hm.
Qed.

Lemma exits_foldM {A B} (f : B → A → M B) (l : list A) (b : B) :
  (∀ b x, exits_with_one (f b x)) → exits_with_one (foldM f l b).
Proof.
  intros Hf. revert b.
  induction l as [|x l IH]; intros b; [apply exits_ret|].
  apply exits_bind; auto.
Qed.

Lemma exits_mapM {A B} (f : A → M B) (l : list A) :
  (∀ x, exits_with_one (f x)) → exits_with_one (mapM f l).
Proof.
  intros Hf. induction l as [|x l IH]; [intros code H; discriminate|].
  apply exits_bind; [auto|]. intros y.
  apply exits_bind; [auto|]. intros ys code H. discriminate.
Qed.
Lemma exits_when b m : exits_with_one m → exits_with_one (when b m).
Proof. destruct b; [done|]. intros _ code H. discriminate. Qed.

Lemma exits_run_command w command check dir input :
  exits_with_one (run_command w command check dir input).
Proof.
  intros code. rewrite run_command_result. unfold command_result.
  repeat case_match; intros ?; by simplify_eq.
Qed.

Ltac exits_step :=
  first
    [ apply exits_ret | apply exits_log | apply exits_raise
    | apply exits_sys_exit | apply exits_run_command
    | apply exits_when
    | apply exits_foldM; intros
    | apply exits_mapM; intros
    | apply exits_bind; [|intros]
    | match goal with
      | |- exits_with_one (match ?x with _ => _ end) => destruct x
      | |- exits_with_one (let '(_, _) := ?x in _) => destruct x
      end ].

Ltac exits_solve := repeat exits_step.

Lemma exits_preflight_checks w root old new force :
  exits_with_one (preflight_checks w root old new force).
Proof. unfold preflight_checks. exits_solve. Qed.

Lemma exits_get_file_content_from_git w root v p :
  exits_with_one (get_file_content_from_git w root v p).
Proof. unfold get_file_content_from_git. exits_solve. Qed.

Lemma exits_get_all_dependencies w root v :
  exits_with_one (get_all_dependencies w root v).
Proof.
  unfold get_all_dependencies.
  repeat first [apply exits_get_file_content_from_git | exits_step].
Qed.

Lemma exits_get_dependency_changes w root old new :
  exits_with_one (get_dependency_changes w root old new).
Proof.
  unfold get_dependency_changes, dependency_changes_step.
  repeat first [apply exits_get_file_content_from_git | exits_step].
Qed.

Lemma exits_get_all_files w root v : exits_with_one (get_all_files w root v).
Proof. unfold get_all_files. exits_solve. Qed.

Lemma exits_get_file_diff_loop entries adds dels :
  exits_with_one (get_file_diff_loop entries adds dels).
Proof.
  remember (length entries) as n eqn:Hn.
  revert entries adds dels Hn.
  induction (lt_wf n) as [n _ IH]; intros entries adds dels ->.
  destruct entries as [|status rest]; [apply exits_ret|].
  simpl. destruct (PyStr.startswith "R" status).
  - destruct rest as [|o [|nw rest']]; try apply exits_raise.
    eapply IH; [|reflexivity]. simpl. lia.
  - destruct rest as [|e rest']; [apply exits_raise|].
    destruct (bool_decide (status = "D"));
      (eapply IH; [|reflexivity]); simpl; lia.
Qed.

Lemma exits_get_file_diff w root old new :
  exits_with_one (get_file_diff w root old new).
Proof.
  unfold get_file_diff.
  repeat first [apply exits_get_file_diff_loop | exits_step].
Qed.

Lemma exits_download_wheels w changes tmp py plat :
  exits_with_one (download_wheels w changes tmp py plat).
Proof. unfold download_wheels. exits_solve. Qed.

Lemma exits_filter_files w root files :
  exits_with_one (filter_files_with_distignore w root files).
Proof. unfold filter_files_with_distignore. exits_solve. Qed.

Lemma exits_file_modes_item m line : exits_with_one (file_modes_item m line).
Proof. unfold file_modes_item. exits_solve. Qed.

Lemma exits_create_archive w root out adds dels tmp v hw :
  exits_with_one (create_archive w root out adds dels tmp v hw).
Proof.
  unfold create_archive, prepare_app_members.
  repeat first [apply exits_file_modes_item | exits_step].
Qed.

Lemma exits_find_project_root w : exits_with_one (find_project_root w).
Proof. unfold find_project_root. exits_solve. Qed.

Lemma exits_gather_changes w args root :
  exits_with_one (gather_changes w args root).
Proof.
  unfold gather_changes.
  repeat first
    [ apply exits_get_all_dependencies | apply exits_get_all_files
    | apply exits_get_dependency_changes | apply exits_get_file_diff
    | exits_step ].
Qed.

Lemma exits_main_body w args : exits_with_one (main_body w args).
Proof.
  unfold main_body.
  repeat first
    [ apply exits_find_project_root | apply exits_preflight_checks
    | apply exits_gather_changes | apply exits_download_wheels
    | apply exits_filter_files | apply exits_create_archive
    | exits_step ].
Qed.

Lemma main_result_cases w args :
  (main w args).2 = Fail (SystemExit 1) ∨ ∃ x, (main w args).2 = Ok x.
Proof.
  unfold main. pose proof (exits_main_body w args) as H.
  destruct ((main_body w args).2) as [x|[code|cls msg]] eqn:E; simpl.
  - right. by exists x.
  - left. rewrite E. f_equal. f_equal. by apply H.
  - by left.
Qed.

(** ** The project root *)

Lemma find_split {A} (f : A → bool) (l : list A) :
  match List.find f l with
  | Some x =>
      ∃ before after,
        l = before ++ x :: after ∧ f x = true
        ∧ Forall (λ y, f y = false) before
  | None => Forall (λ y, f y = false) l
  end.
Proof.
  induction l as [|y l IH]; simpl; [constructor|].
  destruct (f y) eqn:Hy.
  - exists [], l. by repeat split.
  - destruct (List.find f l) as [x|].
    + destruct IH as (before & after & -> & Hx & Hb).
      exists (y :: before), after. repeat split; auto.
    + by constructor.
Qed.

(** ** Pre-flight checks *)

Lemma run_checked_then {B} w command dir (k : M B) :
  (run_command w command true (Some dir) None ;; k).2
  = if command_passes w command dir then k.2 else Fail (SystemExit 1).
Proof.
  rewrite bind_result, run_command_result.
  unfold command_result, command_passes.
  destruct (subprocess_run w command (Some dir) None) as [r|]; [|done].
  simpl. by destruct (bool_decide (returncode r = 0)).
Qed.

Lemma status_check_result w root :
  (status_result ←
     run_command w ["git"; "status"; "--porcelain"] true (Some root) None;
   if truthy (stdout status_result) then
     log ERROR "Error: Working directory is not clean. Please commit or stash your changes." ;;
     log ERROR ("To override this check for development, use the "
                +:+ Style.BOLD +:+ "--force" +:+ Style.END +:+ " flag.") ;;
     log ERROR ("Found uncommitted changes:" +:+ NL
                +:+ stdout status_result) ;;
     sys_exit 1
   else mret ()).2
  = if tree_is_clean w root then Ok () else Fail (SystemExit 1).
Proof.
  rewrite bind_result, run_command_result.
  unfold command_result, tree_is_clean.
  destruct (subprocess_run w _ (Some root) None) as [r|]; [|done].
  simpl. destruct (bool_decide (returncode r = 0)); simpl; [|done].
  unfold truthy. by destruct (PyStr.is_empty (stdout r)).
Qed.

Lemma preflight_checks_result w root old new force :
  (preflight_checks w root old new force).2
  = if preflight_passes w root old new force
    then Ok () else Fail (SystemExit 1).
Proof.
  unfold preflight_checks, preflight_passes.
  rewrite bind_result.
  change ((log INFO "--- Running Pre-flight Checks ---").2) with (Ok ()).
  cbv beta iota.
  do 4 (rewrite run_checked_then; destruct (command_passes w _ root); [|done]).
  rewrite bind_result. destruct force.
  - done.
  - cbn [negb andb orb]. rewrite status_check_result.
    by destruct (tree_is_clean w root).
Qed.

(** ** Snapshots of the manifests *)

Lemma record_all_ext delta1 delta2 l changes :
  (∀ p, p ∈ l → delta1 p = delta2 p) →
  record_all delta1 l changes = record_all delta2 l changes.
Proof.
  revert changes. induction l as [|q l IH]; intros changes Hext; [done|].
  rewrite !record_all_cons, (Hext q) by left.
  apply IH. intros p Hp. apply Hext. by right.
Qed.

Lemma nonempty_fmap {A B} (f : A → B) (l : list A) :
  nonempty (f <$> l) = nonempty l.
Proof. by destruct l. Qed.

Lemma run_command_ok w command check dir input r :
  subprocess_run w command dir input = Some r →
  (check = true → returncode r = 0) →
  (run_command w command check dir input).2 = Ok r.
Proof.
  intros Hrun Hrc. rewrite run_command_result, Hrun. simpl.
  destruct check; [|done]. by rewrite Hrc, bool_decide_true.
Qed.

Lemma get_all_dependencies_result w root v r content :
  subprocess_run w (ls_names_command v) (Some root) None = Some r →
  returncode r = 0 →
  Forall (λ p, (get_file_content_from_git w root v p).2 = Ok (content p))
    (manifests_of (stdout r)) →
  (get_all_dependencies w root v).2
  = Ok (record_all (λ p, manifest_pins (content p)) (manifests_of (stdout r)) []).
Proof.
  intros Hrun Hrc Hshow. unfold get_all_dependencies.
  rewrite bind_result.
  change ((log INFO _).2) with (Ok ()). cbv beta iota.
  assert ((run_command w (ls_names_command v) true (Some root) None).2 = Ok r)
    as Hcmd by by apply run_command_ok.
  unfold ls_names_command in Hcmd. rewrite (bind_ok _ _ _ Hcmd).
  match goal with
  | |- context [foldM ?f ?l ?b] =>
      assert ((foldM f l b).2
              = Ok (record_all (λ p, manifest_pins (content p))
                      (manifests_of (stdout r)) [])) as Hfold
  end.
  { apply foldM_result. eapply Forall_impl; [exact Hshow|].
    intros p Hp all_deps. cbv beta.
    rewrite (bind_ok _ _ _ Hp). unfold record_delta, manifest_pins.
    rewrite nonempty_fmap. by destruct (nonempty _). }
  rewrite (bind_ok _ _ _ Hfold). rewrite bind_result. by destruct (negb _).
Qed.

Lemma get_dependency_changes_result w root old new r old_c new_c :
  subprocess_run w (ls_names_command new) (Some root) None = Some r →
  returncode r = 0 →
  Forall (λ p, (get_file_content_from_git w root old p).2 = Ok (old_c p)
             ∧ (get_file_content_from_git w root new p).2 = Ok (new_c p))
    (manifests_of (stdout r)) →
  (get_dependency_changes w root old new).2
  = Ok (record_all (λ p, manifest_delta (old_c p) (new_c p))
          (manifests_of (stdout r)) []).
Proof.
  intros Hrun Hrc Hshow. unfold get_dependency_changes.
  rewrite bind_result.
  change ((log INFO _).2) with (Ok ()). cbv beta iota.
  assert ((run_command w (ls_names_command new) true (Some root) None).2 = Ok r)
    as Hcmd by by apply run_command_ok.
  unfold ls_names_command in Hcmd. rewrite (bind_ok _ _ _ Hcmd).
  assert ((foldM (dependency_changes_step w root old new)
             (manifests_of (stdout r)) []).2
          = Ok (record_all (λ p, manifest_delta (old_c p) (new_c p))
                  (manifests_of (stdout r)) [])) as Hfold.
  { apply foldM_result. eapply Forall_impl; [exact Hshow|].
    intros p [Ho Hn] changes. by apply dependency_changes_step_result. }
  unfold manifests_of in Hfold at 1. rewrite (bind_ok _ _ _ Hfold).
  rewrite bind_result. by destruct (negb _).
Qed.

Lemma manifest_delta_from_nothing content :
  manifest_delta "" content = manifest_pins content.
Proof.
  unfold manifest_delta, manifest_pins. f_equal.
  change (parse_requirements "") with (@nil (string * string)).
  induction (parse_requirements content) as [|pin l IH]; [done|].
  rewrite filter_cons_True by apply not_elem_of_nil. by f_equal.
Qed.

(** X1.  [find_project_root] logs nothing and returns the nearest directory,
    from the one that holds the script upwards, in which there is a [.git]
    directory; it raises [FileNotFoundError] exactly when no directory on
    the way up has one. *)
Theorem find_project_root_nearest (w : World) :
  (find_project_root w).1 = []
  ∧ match (find_project_root w).2 with
    | Ok project_root =>
        ∃ before after,
          script_ancestors w = before ++ (project_root, true) :: after
          ∧ Forall (λ d, d.2 = false) before
    | Fail e =>
        (∃ msg, e = Raised "FileNotFoundError" msg)
        ∧ Forall (λ d, d.2 = false) (script_ancestors w)
    end.
Proof.
  unfold find_project_root.
  pose proof (find_split snd (script_ancestors w)) as H.
  destruct (List.find snd (script_ancestors w)) as [[d b]|]; simpl.
  - split; [done|]. destruct H as (before & after & Heq & Hb & Hbefore).
    simpl in Hb. subst b. by exists before, after.
  - split; [done|]. split; [by eexists|done].
Qed.

(** X2.  [preflight_checks] passes exactly when [git --version],
    [pip --version] and [git cat-file -e <rev>^{commit}] for both revisions
    are found and end with status 0 and, unless [force] is set,
    [git status --porcelain] does so too and prints nothing; in every other
    case it ends in [sys.exit(1)].  With [force] the answer of [git status]
    plays no part. *)
Theorem preflight_checks_verdict (w : World) (root old new : string)
    (force : bool) :
  (preflight_checks w root old new force).2
  = (if preflight_passes w root old new force
     then Ok () else Fail (SystemExit 1))
  ∧ preflight_passes w root old new true
    = command_passes w ["git"; "--version"] root
      && command_passes w ["pip"; "--version"] root
      && command_passes w ["git"; "cat-file"; "-e"; old +:+ "^{commit}"] root
      && command_passes w ["git"; "cat-file"; "-e"; new +:+ "^{commit}"] root.
Proof.
  split; [apply preflight_checks_result|].
  unfold preflight_passes. by rewrite andb_true_r.
Qed.

(** X3.  Once the arguments are parsed, a run of [main] either ends well
    or ends in [sys.exit(1)]: no exception leaves it and no other exit
    status is used, whatever the subprocesses, the file system and pathspec
    answer. *)
Theorem main_exit_status (w : World) (args : Args) :
  (main w args).2 = Fail (SystemExit 1) ∨ ∃ x, (main w args).2 = Ok x.
Proof. apply main_result_cases. Qed.

(** X4.  In snapshot mode, when [git ls-tree] answers and [content p] is
    what [get_file_content_from_git] reads for each manifest [p]: no entry
    of the result is empty; a module with one manifest is bound to all the
    pins of that manifest, as specifiers in manifest order, and has no entry
    when the manifest pins nothing; a directory without manifest has no
    entry. *)
Theorem snapshot_dependencies_per_module (w : World) (root v : string)
    (r : CompletedProcess) (content : string → string) :
  subprocess_run w (ls_names_command v) (Some root) None = Some r →
  returncode r = 0 →
  Forall (λ p, (get_file_content_from_git w root v p).2 = Ok (content p))
    (manifests_of (stdout r)) →
  ∃ deps,
    (get_all_dependencies w root v).2 = Ok deps
    ∧ (∀ m pins, PyDict.get deps m = Some pins → pins ≠ [])
    ∧ (∀ p, p ∈ manifests_of (stdout r) →
         (∀ q, q ∈ manifests_of (stdout r) →
               PyPath.parent q = PyPath.parent p → q = p) →
         PyDict.get deps (PyPath.parent p)
         = if nonempty (parse_requirements (content p))
           then Some (specifier <$> parse_requirements (content p))
           else None)
    ∧ (∀ m, (∀ p, p ∈ manifests_of (stdout r) → PyPath.parent p ≠ m) →
         PyDict.get deps m = None).
Proof.
  intros Hrun Hrc Hshow.
  exists (record_all (λ p, manifest_pins (content p)) (manifests_of (stdout r)) []).
  split_and!.
  - by apply get_all_dependencies_result.
  - by apply record_all_nonempty.
  - intros p Hp Huniq.
    rewrite (record_all_own (λ p, manifest_pins (content p))) by done.
    unfold manifest_pins. by rewrite nonempty_fmap.
  - intros m Hm. by rewrite record_all_other.
Qed.

Lemma snapshot_dependencies_scenario :
  ∃ deps,
    (get_all_dependencies world_first_release "/repo" "v2").2 = Ok deps
    ∧ PyDict.get deps "." = Some ["a==1.0"; "b==2.0"].
Proof.
  destruct (snapshot_dependencies_per_module world_first_release "/repo" "v2"
              (completed ("requirements.txt" +:+ NL))
              (λ _, "a==1.0" +:+ NL +:+ "b==2.0" +:+ NL))
    as (deps & Hrun & _ & Hmod & _).
  - reflexivity.
  - reflexivity.
  - repeat constructor.
  - exists deps. split; [exact Hrun|].
    refine (Hmod "requirements.txt" _ _).
    + vm_compute. left.
    + vm_compute. intros q Hq _. by apply list_elem_of_singleton in Hq.
Defined.

(** X5.  A delta from a revision without manifests is a snapshot: when
    every manifest of the new revision reads as empty text at the old one
    (which is how a file that is absent there reads),
    [get_dependency_changes] returns what [get_all_dependencies] returns
    for the new revision. *)
Theorem delta_from_nothing_is_snapshot (w : World) (root old new : string)
    (r : CompletedProcess) (content : string → string) :
  subprocess_run w (ls_names_command new) (Some root) None = Some r →
  returncode r = 0 →
  Forall (λ p, (get_file_content_from_git w root old p).2 = Ok ""
             ∧ (get_file_content_from_git w root new p).2 = Ok (content p))
    (manifests_of (stdout r)) →
  (get_dependency_changes w root old new).2
  = (get_all_dependencies w root new).2.
Proof.
  intros Hrun Hrc Hshow.
  rewrite (get_dependency_changes_result w root old new r (λ _, "") content)
    by done.
  rewrite (get_all_dependencies_result w root new r content); [|done..|].
  - f_equal. apply record_all_ext. intros p _.
    apply manifest_delta_from_nothing.
  - eapply Forall_impl; [exact Hshow|]. by intros p [_ ?].
Qed.

Lemma delta_from_nothing_scenario :
  (get_dependency_changes world_first_release "/repo" "v1" "v2").2
  = (get_all_dependencies world_first_release "/repo" "v2").2.
Proof.
  apply (delta_from_nothing_is_snapshot world_first_release "/repo" "v1" "v2"
           (completed ("requirements.txt" +:+ NL))
           (λ _, "a==1.0" +:+ NL +:+ "b==2.0" +:+ NL)).
  - reflexivity.
  - reflexivity.
  - repeat constructor.
Defined.

(** ** Downloads *)

Lemma download_step_result w tmp py plat (item : string * list string) r :
  pip_answer w tmp py plat item = Some r →
  (run_command w (pip_download_command w tmp py plat item.1) false None
     (Some (PyStr.join NL item.2))).2 = Ok r.
Proof. intros Hr. by apply run_command_ok. Qed.

Lemma filter_warning_app (l1 l2 : list event) :
  List.filter is_warning (l1 ++ l2)
  = List.filter is_warning l1 ++ List.filter is_warning l2.
Proof. apply List.filter_app. Qed.

Lemma download_step w tmp py plat (item : string * list string) r :
  pip_answer w tmp py plat item = Some r →
  let step :=
    log INFO ("Downloading for '" +:+ Style.BOLD +:+ item.1
              +:+ Style.END +:+ "': " +:+ pretty (length item.2)
              +:+ " packages") ;;
    result ← run_command w
               (pip_download_command w tmp py plat item.1) false None
               (Some (PyStr.join NL item.2));
    when (negb (bool_decide (returncode result = 0)))
      (log WARNING ("pip download may have failed for some packages in '"
                    +:+ item.1 +:+ "'.")) in
  step.2 = Ok ()
  ∧ List.filter is_warning step.1
    = if pip_failed w tmp py plat item then [pip_warning item] else [].
Proof.
  intros Hr. cbn zeta.
  pose proof (download_step_result _ _ _ _ _ _ Hr) as Hcmd.
  assert ((run_command w (pip_download_command w tmp py plat item.1) false None
             (Some (PyStr.join NL item.2))).1 = []) as Hlog.
  { unfold run_command. unfold pip_answer in Hr. by rewrite Hr. }
  rewrite bind_result, bind_log.
  change ((log INFO ?m).2) with (@Ok () ()). cbv beta iota.
  rewrite bind_result, bind_log, Hcmd, Hlog.
  unfold pip_failed. rewrite Hr.
  by destruct (negb (bool_decide (returncode r = 0))).
Qed.

Lemma download_loop w tmp py plat (changes : list (string * list string)) :
  Forall (λ item, is_Some (pip_answer w tmp py plat item)) changes →
  let loop :=
    foldM (λ (_ : ()) (item : string * list string),
        log INFO ("Downloading for '" +:+ Style.BOLD +:+ item.1
                  +:+ Style.END +:+ "': " +:+ pretty (length item.2)
                  +:+ " packages") ;;
        result ← run_command w
                   (pip_download_command w tmp py plat item.1) false None
                   (Some (PyStr.join NL item.2));
        when (negb (bool_decide (returncode result = 0)))
          (log WARNING ("pip download may have failed for some packages in '"
                        +:+ item.1 +:+ "'.")))
      changes () in
  loop.2 = Ok ()
  ∧ List.filter is_warning loop.1
    = pip_warning <$> List.filter (pip_failed w tmp py plat) changes.
Proof.
  induction 1 as [|item changes [r Hr] _ IH]; [done|].
  cbn zeta in *. destruct IH as [IHres IHlog].
  destruct (download_step w tmp py plat item r Hr) as [Hres Hlog].
  cbn [foldM]. rewrite bind_result, bind_log, Hres.
  split; [exact IHres|].
  rewrite List.filter_app, Hlog, IHlog. cbn [List.filter].
  by destruct (pip_failed w tmp py plat item).
Qed.

(** X6.  When the interpreter can be started for each module of the
    changes, [download_wheels] never fails, whatever status pip ends with:
    it returns whether the staging tree holds a [.whl] file, and the
    warnings it logs are one for each module whose download ended with a
    status other than 0, in the order of the changes.  Without changes it
    returns [False] and logs nothing. *)
Theorem download_wheels_tolerant (w : World)
    (changes : list (string * list string)) (tmp py plat : string) :
  Forall (λ item, is_Some (pip_answer w tmp py plat item)) changes →
  (download_wheels w changes tmp py plat).2
  = Ok (nonempty changes
        && existsb (λ e, PyStr.endswith ".whl" (st_rel e)) (staging_walk w))
  ∧ List.filter is_warning (download_wheels w changes tmp py plat).1
    = pip_warning <$> List.filter (pip_failed w tmp py plat) changes
  ∧ (changes = [] → download_wheels w changes tmp py plat = ([], Ok false)).
Proof.
  intros Hpip. split_and!; [| |by intros ->].
  - unfold download_wheels. destruct changes as [|item changes]; [done|].
    cbn [nonempty negb andb].
    destruct (download_loop w tmp py plat _ Hpip) as [Hres _].
    rewrite bind_result. change ((log INFO ?m).2) with (@Ok () ()).
    cbv beta iota. rewrite bind_result.
    unfold pip_download_command in Hres. by rewrite Hres.
  - unfold download_wheels. destruct changes as [|item changes]; [done|].
    cbn [nonempty negb].
    destruct (download_loop w tmp py plat _ Hpip) as [Hres Hlog].
    rewrite bind_log. change ((log INFO ?m).2) with (@Ok () ()).
    cbv beta iota. rewrite bind_log.
    unfold pip_download_command in Hres, Hlog. rewrite Hres.
    rewrite !List.filter_app, Hlog. cbn. by rewrite app_nil_r.
Qed.

Lemma download_wheels_scenario :
  (download_wheels world_first_release [(".", ["a==1.0"; "b==2.0"])]
     "/tmp/tmpabcd" "3.10" "manylinux2014_x86_64").2 = Ok false
  ∧ List.filter is_warning
      (download_wheels world_first_release [(".", ["a==1.0"; "b==2.0"])]
         "/tmp/tmpabcd" "3.10" "manylinux2014_x86_64").1
    = [pip_warning (".", ["a==1.0"; "b==2.0"])].
Proof.
  destruct (download_wheels_tolerant world_first_release
              [(".", ["a==1.0"; "b==2.0"])]
              "/tmp/tmpabcd" "3.10" "manylinux2014_x86_64")
    as (Hres & Hlog & _).
  - repeat constructor. by eexists.
  - split; [exact Hres|exact Hlog].
Defined.

(** ** The stages of a run *)

Lemma main_output_path w args root :
  let block :=
    if full args then
      let new_safe := PyStr.replace "/" "-" (new_version args) in
      let output_path :=
        PyPath.joinpath (cwd w)
          ("ITG_Full-Package_" +:+ new_safe +:+ ".tar.gz") in
      log INFO (Style.BLUE +:+ "Starting FULL package creation for version: "
                +:+ new_version args +:+ Style.END) ;;
      preflight_checks w root (new_version args) (new_version args)
        (force args) ;;
      mret output_path
    else
      let old_safe := PyStr.replace "/" "-" (old_version args) in
      let new_safe := PyStr.replace "/" "-" (new_version args) in
      let output_path :=
        PyPath.joinpath (cwd w)
          ("ITG_Update_" +:+ old_safe +:+ "_to_" +:+ new_safe +:+ ".tar.gz") in
      log INFO (Style.BLUE +:+ "Starting INCREMENTAL package creation: "
                +:+ old_version args +:+ " -> " +:+ new_version args
                +:+ Style.END) ;;
      preflight_checks w root (old_version args) (new_version args)
        (force args) ;;
      mret output_path in
  block.2
  = if preflight_passes w root (checked_old_version args) (new_version args)
         (force args)
    then Ok (PyPath.joinpath (cwd w) (default_package_name args))
    else Fail (SystemExit 1).
Proof.
  cbn zeta. unfold checked_old_version, default_package_name.
  destruct (full args).
  - rewrite bind_result. change ((log INFO ?m).2) with (@Ok () ()).
    cbv beta iota. rewrite bind_result, preflight_checks_result.
    by destruct (preflight_passes _ _ _ _ _).
  - rewrite bind_result. change ((log INFO ?m).2) with (@Ok () ()).
    cbv beta iota. rewrite bind_result, preflight_checks_result.
    by destruct (preflight_passes _ _ _ _ _).
Qed.

Lemma main_body_result w args root deps adds dels hw final :
  (find_project_root w).2 = Ok root →
  preflight_passes w root (checked_old_version args) (new_version args)
    (force args) = true →
  (gather_changes w args root).2 = Ok (deps, adds, dels) →
  (download_wheels w deps (temp_dir w) (py_version args) (platform args)).2
  = Ok hw →
  (filter_files_with_distignore w root adds).2 = Ok final →
  (main_body w args).2
  = if nonempty final || hw then
      match (create_archive w root (package_path w args) final dels
               (temp_dir w) (new_version args) hw).2 with
      | Ok a => Ok (PackageCreated (package_path w args) a)
      | Fail e => Fail e
      end
    else Ok NoPackage.
Proof.
  intros Hroot Hpre Hgather Hdown Hfilter. unfold main_body.
  rewrite (bind_ok _ _ _ Hroot).
  rewrite bind_result. change ((log INFO ?m).2) with (@Ok () ()).
  cbv beta iota.
  rewrite bind_result, main_output_path, Hpre.
  rewrite (bind_ok _ _ _ Hgather). cbv beta iota.
  rewrite (bind_ok _ _ _ Hdown), (bind_ok _ _ _ Hfilter).
  fold (package_path w args).
  destruct (nonempty final || hw).
  - rewrite bind_result. by destruct (create_archive _ _ _ _ _ _ _ _).2.
  - done.
Qed.

Lemma main_body_inv w args x :
  (main_body w args).2 = Ok x →
  ∃ root deps adds dels hw final,
    (find_project_root w).2 = Ok root
    ∧ preflight_passes w root (checked_old_version args) (new_version args)
        (force args) = true
    ∧ (gather_changes w args root).2 = Ok (deps, adds, dels)
    ∧ (download_wheels w deps (temp_dir w) (py_version args) (platform args)).2
      = Ok hw
    ∧ (filter_files_with_distignore w root adds).2 = Ok final.
Proof.
  intros Hbody. unfold main_body in Hbody.
  apply bind_ok_inv in Hbody as (root & Hroot & Hbody).
  apply bind_ok_inv in Hbody as ([] & _ & Hbody).
  apply bind_ok_inv in Hbody as (path & Hpath & Hbody).
  apply bind_ok_inv in Hbody as ([[deps adds] dels] & Hgather & Hbody).
  apply bind_ok_inv in Hbody as (hw & Hdown & Hbody).
  apply bind_ok_inv in Hbody as (final & Hfilter & Hbody).
  exists root, deps, adds, dels, hw, final. split_and!; [done| |done..].
  rewrite main_output_path in Hpath.
  by destruct (preflight_passes _ _ _ _ _).
Qed.

Lemma main_of_body w args :
  (main w args).2
  = match (main_body w args).2 with
    | Ok x => Ok x
    | Fail _ => Fail (SystemExit 1)
    end.
Proof.
  pose proof (exits_main_body w args) as H. unfold main.
  destruct ((main_body w args).2) as [x|[code|cls msg]] eqn:E; simpl.
  - done.
  - rewrite E. by rewrite (H code).
  - done.
Qed.

Lemma get_file_diff_empty w root old new r :
  subprocess_run w (diff_tree_command old new) (Some root) None = Some r →
  stdout r = "" →
  (get_file_diff w root old new).2
  = if bool_decide (returncode r = 0)
    then Fail (Raised "IndexError" "list index out of range")
    else Fail (SystemExit 1).
Proof.
  intros Hrun Hout. unfold get_file_diff.
  rewrite bind_result. change ((log INFO ?m).2) with (@Ok () ()).
  cbv beta iota. rewrite bind_result, run_command_result.
  unfold diff_tree_command in Hrun. rewrite Hrun. unfold command_result.
  destruct (bool_decide (returncode r = 0)); [|done].
  cbn [andb negb]. cbv beta iota. by rewrite Hout.
Qed.

(** X7.  In delta mode, when [git diff-tree] is found and prints nothing
    (the two revisions hold the same tree), the run ends in
    [sys.exit(1)], whatever else the world answers: [get_file_diff] reads
    [entries[1]] of the one-element list [''.split('\0')] and raises
    [IndexError], which [main] turns into exit status 1. *)
Theorem main_fails_on_empty_diff (w : World) (args : Args) (root : string)
    (r : CompletedProcess) :
  full args = false →
  (find_project_root w).2 = Ok root →
  subprocess_run w (diff_tree_command (old_version args) (new_version args))
    (Some root) None = Some r →
  stdout r = "" →
  (main w args).2 = Fail (SystemExit 1)
  ∧ (returncode r = 0 →
     (get_file_diff w root (old_version args) (new_version args)).2
     = Fail (Raised "IndexError" "list index out of range")).
Proof.
  intros Hfull Hroot Hrun Hout.
  pose proof (get_file_diff_empty w root _ _ r Hrun Hout) as Hdiff.
  split.
  - rewrite main_of_body.
    destruct ((main_body w args).2) as [x|e] eqn:Hbody; [|done].
    apply main_body_inv in Hbody
      as (root' & deps & adds & dels & hw & final & Hroot' & _ & Hgather & _).
    rewrite Hroot in Hroot'. injection Hroot' as <-.
    unfold gather_changes in Hgather. rewrite Hfull in Hgather.
    apply bind_ok_inv in Hgather as (deps' & _ & Hgather).
    apply bind_ok_inv in Hgather as ([adds' dels'] & Hd & _).
    rewrite Hdiff in Hd. by destruct (bool_decide _).
  - intros Hrc. by rewrite Hdiff, Hrc, bool_decide_true.
Qed.

Lemma main_fails_on_empty_diff_scenario :
  (main world_identical (sample_args false)).2 = Fail (SystemExit 1).
Proof.
  apply (main_fails_on_empty_diff world_identical (sample_args false) "/repo"
           (completed "")); reflexivity.
Defined.

(** X8.  In snapshot mode the old revision plays no part: two runs whose
    arguments differ in [old_version] only log the same records and end
    the same way; [preflight_checks] is handed the new revision twice. *)
Theorem snapshot_ignores_old_version (w : World) (args : Args) (v : string) :
  full args = true →
  main w (with_old_version args v) = main w args.
Proof.
  intros Hfull. unfold main, main_body, gather_changes.
  cbn [with_old_version full new_version output_file py_version platform
       force old_version].
  rewrite !Hfull. reflexivity.
Qed.

Lemma snapshot_ignores_old_version_scenario :
  main world_snapshot (with_old_version (sample_args true) "ignored")
  = main world_snapshot (sample_args true).
Proof.
  by apply (snapshot_ignores_old_version world_snapshot (sample_args true)).
Defined.

(** X9.  The outcome of a run whose stages went well: when the project
    root is found, the pre-flight checks pass, and the changes, the
    downloads and the exclude list gave [dels], [hw] and [final], the run
    writes a package exactly when [final] is not empty or [hw] is set, at
    the path [package_path]; it ends in [sys.exit(1)] when
    [create_archive] fails and otherwise returns without a package.
    [dels] has no part in the choice. *)
Theorem main_outcome_by_stages (w : World) (args : Args) (root : string)
    (deps : list (string * list string)) (adds dels final : list string)
    (hw : bool) :
  (find_project_root w).2 = Ok root →
  preflight_passes w root (checked_old_version args) (new_version args)
    (force args) = true →
  (gather_changes w args root).2 = Ok (deps, adds, dels) →
  (download_wheels w deps (temp_dir w) (py_version args) (platform args)).2
  = Ok hw →
  (filter_files_with_distignore w root adds).2 = Ok final →
  (main w args).2
  = if nonempty final || hw then
      match (create_archive w root (package_path w args) final dels
               (temp_dir w) (new_version args) hw).2 with
      | Ok a => Ok (PackageCreated (package_path w args) a)
      | Fail _ => Fail (SystemExit 1)
      end
    else Ok NoPackage.
Proof.
  intros Hroot Hpre Hgather Hdown Hfilter.
  rewrite main_of_body,
    (main_body_result w args root deps adds dels hw final) by done.
  destruct (nonempty final || hw); [|done].
  by destruct (create_archive _ _ _ _ _ _ _ _).2.
Qed.

Lemma main_outcome_scenario :
  ∃ a,
    (main world_release (sample_args false)).2
    = Ok (PackageCreated "/repo/ITG_Update_v1_to_v2.tar.gz" a).
Proof.
  rewrite (main_outcome_by_stages world_release (sample_args false) "/repo"
             [] ["app.py"; "y.txt"] ["old.txt"; "x.txt"] ["app.py"; "y.txt"]
             false); [|reflexivity..].
  vm_compute. by eexists.
Defined.

(** ** The layout of an archive *)

Lemma create_archive_members w root out adds dels tmp v hw a :
  (create_archive w root out adds dels tmp v hw).2 = Ok a →
  ∃ app_members,
    (prepare_app_members w root v adds).2 = Ok app_members
    ∧ gz_filename a = out
    ∧ tar_entries a
      = map written (sort_by_name (app_members ++ delete_list_members dels))
        ++ wheel_members w hw
    ∧ ∀ m, m ∈ tar_entries a ↔
        (∃ x, x ∈ app_members ∧ m = written x)
        ∨ (∃ x, x ∈ delete_list_members dels ∧ m = written x)
        ∨ m ∈ wheel_members w hw.
Proof.
  intros (app_members & Hprep & ->)%create_archive_inv.
  exists app_members. split_and!; [done..|]. intros m. cbn [tar_entries].
  rewrite elem_of_app, list_elem_of_fmap.
  setoid_rewrite (sort_by_name_perm (app_members ++ delete_list_members dels)).
  setoid_rewrite elem_of_app.
  split.
  - intros [(x & -> & [Hx|Hx])|Hm]; eauto.
  - intros [(x & Hx & ->)|[(x & Hx & ->)|Hm]]; eauto.
Qed.

Lemma app_members_of w root v adds members :
  (prepare_app_members w root v adds).2 = Ok members →
  ∃ file_modes,
    (adds ≠ [] →
     ∃ ls,
       (run_command w (ls_modes_command v adds) true (Some root) None).2 = Ok ls
       ∧ (foldM file_modes_item
            (PyStr.splitlines (PyStr.strip (stdout ls))) ∅).2 = Ok file_modes)
    ∧ Forall2 (λ path m,
        ∃ shown,
          subprocess_run w (show_command v path) (Some root) None = Some shown
          ∧ returncode shown = 0
          ∧ m = app_member file_modes path (stdout shown)) adds members.
Proof.
  intros [[-> ->]|(ls & file_modes & Hls & Hmodes & Hall)]%prepare_app_members_inv.
  - exists ∅. split; [done|constructor].
  - exists file_modes. split; [by exists ls|].
    eapply Forall2_impl; [exact Hall|].
    intros path m (shown & Hshown & ->). exists shown.
    rewrite run_command_result in Hshown.
    pose proof (command_result_ok _ _ _ Hshown) as Hrun.
    split_and!; [done| |done].
    rewrite Hrun in Hshown. unfold command_result in Hshown.
    cbn [andb] in Hshown.
    destruct (bool_decide (returncode shown = 0)) eqn:Hrc; [|done].
    by apply bool_decide_eq_true in Hrc.
Qed.

Lemma wheel_member_name w hw m :
  m ∈ wheel_members w hw → ∃ e, e ∈ staging_walk w ∧ member_name m = wheel_name e.
Proof.
  unfold wheel_members. destruct hw; [|by intros ?%elem_of_nil].
  intros (e & -> & He)%list_elem_of_fmap. by exists e.
Qed.

Lemma wheel_name_not_app e p : wheel_name e ≠ "app/" +:+ p.
Proof. unfold wheel_name. by destruct (PyStr.is_empty _). Qed.

(** X10.  In every archive [create_archive] returns, the size field of
    each member is the number of octets written for it: for the members
    under [app/], for [delete.list] (after [encode('utf-8')]) and for the
    staged entries, directories having size 0 and no content. *)
Theorem archive_member_sizes (w : World) (root out : string)
    (adds dels : list string) (tmp v : string) (hw : bool) (a : Archive) :
  (create_archive w root out adds dels tmp v hw).2 = Ok a →
  Forall size_matches (tar_entries a).
Proof.
  intros (app_members & Hprep & _ & _ & Hmem)%create_archive_members.
  apply Forall_forall. intros m [(x & Hx & ->)|[(x & Hx & ->)|Hm]]%Hmem.
  - apply app_members_of in Hprep as (file_modes & _ & Hall).
    apply (Forall2_Forall_r _ (λ m, size_matches (written m))) in Hall.
    + eapply Forall_forall in Hall; done.
    + apply Forall_forall. by intros path _ y (shown & _ & _ & ->).
  - unfold delete_list_members in Hx. destruct (nonempty dels).
    + by apply list_elem_of_singleton in Hx as ->.
    + by apply elem_of_nil in Hx.
  - unfold wheel_members in Hm. destruct hw; [|by apply elem_of_nil in Hm].
    apply list_elem_of_fmap in Hm as (e & -> & _).
    unfold size_matches. simpl. by destruct (st_isdir e).
Qed.

Lemma archive_member_sizes_scenario :
  ∃ a,
    (create_archive world_host1 "/repo" "/repo/out.tar.gz"
       ["b.py"; "a.py"] ["z"; "y"] "/tmp/t" "v2" true).2 = Ok a
    ∧ Forall size_matches (tar_entries a).
Proof.
  assert (∃ a,
            (create_archive world_host1 "/repo" "/repo/out.tar.gz"
               ["b.py"; "a.py"] ["z"; "y"] "/tmp/t" "v2" true).2 = Ok a)
    as [a Ha] by (vm_compute; by eexists).
  exists a. split; [exact Ha|].
  exact (archive_member_sizes _ _ _ _ _ _ _ _ _ Ha).
Defined.

Lemma member_name_written x : member_name (written x) = member_name x.
Proof. done. Qed.

Lemma sorted_written l :
  Sorted name_le l → Sorted name_le (map written l).
Proof.
  induction 1 as [|x l _ IH Hhd]; [constructor|].
  simpl. constructor; [exact IH|].
  destruct Hhd; simpl; by constructor.
Qed.

Lemma app_members_names w root v adds members :
  (prepare_app_members w root v adds).2 = Ok members →
  member_name <$> members = String.app "app/" <$> adds.
Proof.
  intros (file_modes & _ & Hall)%app_members_of.
  induction Hall as [|p m ps ms (shown & _ & _ & ->) _ IH]; [done|].
  csimpl. by rewrite IH.
Qed.

(** X11.  The layout of an archive: it carries the output path as its
    gzip file name; its members are first the prepared ones, in ascending
    order of name, whose names are [app/<path>] for each path of the
    add-set and [delete.list] when the delete-set is not empty, then, when
    [has_wheels] is set, the entries of the staging tree in the order of
    the walk, named [wheels] and [wheels/<path>]. *)
Theorem archive_layout (w : World) (root out : string)
    (adds dels : list string) (tmp v : string) (hw : bool) (a : Archive) :
  (create_archive w root out adds dels tmp v hw).2 = Ok a →
  gz_filename a = out
  ∧ ∃ prepared,
      tar_entries a = prepared ++ wheel_members w hw
      ∧ Sorted name_le prepared
      ∧ member_name <$> prepared
        ≡ₚ (String.app "app/" <$> adds)
           ++ (if nonempty dels then ["delete.list"] else [])
      ∧ member_name <$> wheel_members w hw
        = if hw then wheel_name <$> staging_walk w else [].
Proof.
  intros (app_members & Hprep & Hout & Hentries & _)%create_archive_members.
  split; [done|].
  exists (map written (sort_by_name (app_members ++ delete_list_members dels))).
  split_and!.
  - done.
  - apply sorted_written, sort_by_name_sorted.
  - rewrite <-list_fmap_compose.
    rewrite (fmap_Permutation _ _ _ (sort_by_name_perm _)).
    rewrite fmap_app, <-(app_members_names _ _ _ _ _ Hprep).
    apply Permutation_app; [done|].
    unfold delete_list_members. by destruct (nonempty dels).
  - unfold wheel_members. destruct hw; [|done].
    by rewrite <-list_fmap_compose.
Qed.

Lemma archive_layout_scenario :
  ∃ a prepared,
    (create_archive world_host1 "/repo" "/repo/out.tar.gz"
       ["b.py"; "a.py"] ["z"; "y"] "/tmp/t" "v2" true).2 = Ok a
    ∧ tar_entries a = prepared ++ wheel_members world_host1 true
    ∧ Sorted name_le prepared
    ∧ member_name <$> prepared ≡ₚ ["app/b.py"; "app/a.py"; "delete.list"].
Proof.
  assert (∃ a,
            (create_archive world_host1 "/repo" "/repo/out.tar.gz"
               ["b.py"; "a.py"] ["z"; "y"] "/tmp/t" "v2" true).2 = Ok a)
    as [a Ha] by (vm_compute; by eexists).
  destruct (archive_layout _ _ _ _ _ _ _ _ _ Ha)
    as (_ & prepared & Hentries & Hsorted & Hnames & _).
  by exists a, prepared.
Defined.

Lemma create_archive_app_contents (w : World) (root out : string)
    (adds dels : list string) (tmp v : string) (hw : bool) (a : Archive) :
  (create_archive w root out adds dels tmp v hw).2 = Ok a →
  (∀ p, p ∈ adds → ∃ m, m ∈ tar_entries a ∧ member_name m = "app/" +:+ p)
  ∧ (∀ m p, m ∈ tar_entries a → member_name m = "app/" +:+ p →
       p ∈ adds
       ∧ ti_type m.1 = REGTYPE
       ∧ ∃ shown,
           subprocess_run w (show_command v p) (Some root) None = Some shown
           ∧ returncode shown = 0
           ∧ m.2 = stdout shown).
Proof.
  intros (app_members & Hprep & _ & _ & Hmem)%create_archive_members.
  apply app_members_of in Hprep as (file_modes & _ & Hall).
  split.
  - intros p Hp.
    apply list_elem_of_lookup in Hp as [i Hi].
    destruct (Forall2_lookup_l _ _ _ _ _ Hall Hi)
      as (x & Hx & shown & _ & _ & ->).
    exists (written (app_member file_modes p (stdout shown))).
    split; [|done]. apply Hmem. left. eexists. split; [|done].
    by eapply list_elem_of_lookup_2.
  - intros m p [(x & Hx & ->)|[(x & Hx & ->)|Hm]]%Hmem Hname.
    + apply list_elem_of_lookup in Hx as [i Hi].
      destruct (Forall2_lookup_r _ _ _ _ _ Hall Hi)
        as (q & Hq & shown & Hrun & Hrc & ->).
      apply app_name_inj in Hname as <-.
      split_and!; [by eapply list_elem_of_lookup_2|done|by exists shown].
    + apply delete_list_members_name in Hx.
      rewrite member_name_written in Hname. unfold member_name in Hname.
      by rewrite Hx in Hname.
    + apply wheel_member_name in Hm as (e & _ & He).
      rewrite He in Hname. by apply wheel_name_not_app in Hname.
Qed.

(** X12.  The members under [app/] are the add-set at the target
    revision: every path of the add-set has a member [app/<path>], and
    every member of that name is a regular file whose content is what
    [git show <new_version>:<path>] printed, with status 0, for a path of
    the add-set. *)
Theorem archive_app_contents (w : World) (root out : string)
    (adds dels : list string) (tmp v : string) (hw : bool) (a : Archive) :
  (create_archive w root out adds dels tmp v hw).2 = Ok a →
  (∀ p, p ∈ adds → ∃ m, m ∈ tar_entries a ∧ member_name m = "app/" +:+ p)
  ∧ (∀ m p, m ∈ tar_entries a → member_name m = "app/" +:+ p →
       p ∈ adds
       ∧ ti_type m.1 = REGTYPE
       ∧ ∃ shown,
           subprocess_run w (show_command v p) (Some root) None = Some shown
           ∧ returncode shown = 0
           ∧ m.2 = stdout shown).
Proof. apply create_archive_app_contents. Qed.

Lemma archive_app_contents_scenario :
  ∃ a m,
    (create_archive world_host1 "/repo" "/repo/out.tar.gz"
       ["b.py"; "a.py"] ["z"; "y"] "/tmp/t" "v2" true).2 = Ok a
    ∧ m ∈ tar_entries a ∧ member_name m = "app/a.py".
Proof.
  assert (∃ a,
            (create_archive world_host1 "/repo" "/repo/out.tar.gz"
               ["b.py"; "a.py"] ["z"; "y"] "/tmp/t" "v2" true).2 = Ok a)
    as [a Ha] by (vm_compute; by eexists).
  destruct (proj1 (archive_app_contents _ _ _ _ _ _ _ _ _ Ha) "a.py")
    as (m & Hm & Hname); [by repeat constructor|].
  by exists a, m.
Defined.

(** ** The modes git records *)

Section mode_facts.
Import PyStr.

Lemma all_chars_app f s t :
  all_chars f (s +:+ t) = all_chars f s && all_chars f t.
Proof.
  induction s as [|c s IH]; [done|].
  rewrite str_app_cons. simpl. by rewrite IH, andb_assoc.
Qed.

Lemma all_chars_impl (f g : ascii → bool) s :
  (∀ c, f c = true → g c = true) →
  all_chars f s = true → all_chars g s = true.
Proof.
  intros Hfg. induction s as [|c s IH]; [done|]. simpl.
  rewrite !andb_true_iff. intros [Hc Hs]. auto.
Qed.

Lemma linebreak_is_space c : is_linebreak c = true → is_space c = true.
Proof.
  unfold is_linebreak, is_space. cbv zeta.
  rewrite !orb_true_iff, !andb_true_iff, !N.leb_le, !N.eqb_eq. lia.
Qed.

Lemma token_inv s :
  token s = true →
  all_chars (λ c, negb (is_space c)) s = true
  ∧ all_chars (λ c, negb (is_linebreak c)) s = true
  ∧ (∃ c, first_char s = Some c ∧ is_space c = false)
  ∧ (∃ c, last_char s = Some c ∧ is_space c = false).
Proof.
  unfold token. rewrite andb_true_iff. intros [Hne Hall].
  split_and!.
  - done.
  - eapply all_chars_impl; [|exact Hall]. intros c Hc. simpl in *.
    apply negb_true_iff in Hc. apply negb_true_iff.
    destruct (is_linebreak c) eqn:E; [|done].
    apply linebreak_is_space in E. congruence.
  - destruct s as [|c s]; [done|]. exists c. simpl in Hall.
    apply andb_true_iff in Hall as [Hc _]. by apply negb_true_iff in Hc.
  - destruct s as [|c s]; [done|]. clear Hne.
    revert c Hall. induction s as [|d s IH]; intros c Hall.
    + exists c. simpl in Hall. apply andb_true_iff in Hall as [Hc _].
      by apply negb_true_iff in Hc.
    + change (last_char (String c (String d s))) with (last_char (String d s)).
      apply IH. simpl in Hall. by apply andb_true_iff in Hall as [_ Hall].
Qed.

Lemma split_ws_go_token tok cur s :
  all_chars (λ c, negb (is_space c)) tok = true →
  split_ws_go cur (tok +:+ s) = split_ws_go (cur +:+ tok) s.
Proof.
  revert cur. induction tok as [|c tok IH]; intros cur Htok.
  - by rewrite str_app_nil_l, str_app_nil_r.
  - simpl in Htok. apply andb_true_iff in Htok as [Hc Htok].
    apply negb_true_iff in Hc. rewrite str_app_cons.
    cbn [split_ws_go]. rewrite Hc, IH by done.
    unfold char. by rewrite str_app_assoc.
Qed.

Lemma split_ws_go_blank c cur s :
  is_space c = true →
  split_ws_go cur (String c s)
  = (if is_empty cur then [] else [cur]) ++ split_ws_go "" s.
Proof. intros Hc. cbn [split_ws_go]. by rewrite Hc. Qed.

Lemma split_ws_entry e :
  plain_entry e = true →
  split_ws (tree_entry_line e) = [te_mode e; "blob"; te_object e; te_path e].
Proof.
  unfold plain_entry. rewrite !andb_true_iff. intros [[Hm Ho] Hp].
  pose proof (token_inv _ Hm) as (Hm' & _ & (cm & Hcm & _) & _).
  pose proof (token_inv _ Ho) as (Ho' & _ & (co & Hco & _) & _).
  pose proof (token_inv _ Hp) as (Hp' & _ & (cp & Hcp & _) & _).
  unfold split_ws, tree_entry_line.
  rewrite split_ws_go_token, str_app_nil_l by done.
  change (" blob " +:+ ?s) with (String " " ("blob" +:+ String " " s)).
  rewrite split_ws_go_blank by done.
  rewrite (split_ws_go_token "blob") by done.
  rewrite split_ws_go_blank by done.
  rewrite split_ws_go_token, str_app_nil_l by done.
  change (TAB +:+ ?s) with (String tab s).
  rewrite split_ws_go_blank by done.
  rewrite <-(str_app_nil_r (te_path e)) at 1.
  rewrite split_ws_go_token, str_app_nil_l by done.
  destruct (te_mode e); [done|]. destruct (te_object e); [done|].
  destruct (te_path e); done.
Qed.

Lemma file_modes_item_entry fm e :
  plain_entry e = true →
  (file_modes_item fm (tree_entry_line e)).2
  = match int_base8 (te_mode e) with
    | Some mode => Ok (<[te_path e := mode]> fm)
    | None =>
        Fail (Raised "ValueError"
                ("invalid literal for int() with base 8: '"
                 +:+ te_mode e +:+ "'"))
    end.
Proof.
  intros He. unfold file_modes_item. rewrite split_ws_entry by done.
  cbn [lookup list_lookup]. by destruct (int_base8 (te_mode e)).
Qed.

Lemma file_modes_other es fm fm' p :
  Forall (λ e, plain_entry e = true) es →
  (foldM file_modes_item (tree_entry_line <$> es) fm).2 = Ok fm' →
  p ∉ te_path <$> es → fm' !! p = fm !! p.
Proof.
  intros Hes. revert fm.
  induction Hes as [|e es He _ IH]; intros fm Hfold Hp.
  - by injection Hfold as <-.
  - csimpl in *. apply bind_ok_inv in Hfold as (fm1 & Hitem & Hfold).
    rewrite file_modes_item_entry in Hitem by done.
    destruct (int_base8 (te_mode e)) as [mode|]; [|done].
    injection Hitem as <-. apply not_elem_of_cons in Hp as [Hne Hp].
    rewrite (IH _ Hfold Hp). by rewrite lookup_insert_ne.
Qed.

Lemma file_modes_recorded es fm fm' e :
  Forall (λ e, plain_entry e = true) es →
  NoDup (te_path <$> es) →
  (foldM file_modes_item (tree_entry_line <$> es) fm).2 = Ok fm' →
  e ∈ es →
  ∃ mode, int_base8 (te_mode e) = Some mode ∧ fm' !! te_path e = Some mode.
Proof.
  intros Hes. revert fm.
  induction Hes as [|e' es He' Hes IH]; intros fm Hnd Hfold He.
  - by apply elem_of_nil in He.
  - csimpl in *. apply NoDup_cons in Hnd as [Hfresh Hnd].
    apply bind_ok_inv in Hfold as (fm1 & Hitem & Hfold).
    rewrite file_modes_item_entry in Hitem by done.
    destruct (int_base8 (te_mode e')) as [mode|] eqn:Hmode; [|done].
    injection Hitem as <-.
    apply elem_of_cons in He as [->|He].
    + exists mode. split; [done|].
      rewrite (file_modes_other es _ fm' (te_path e') Hes Hfold Hfresh).
      by rewrite lookup_insert_eq.
    + by eapply IH.
Qed.

Lemma ls_tree_line_entry e :
  ls_tree_line (te_mode e) (te_object e) (te_path e) = tree_entry_line e +:+ NL.
Proof.
  unfold ls_tree_line, tree_entry_line. by rewrite !str_app_assoc.
Qed.

Lemma ls_tree_output_listing es :
  ls_tree_output es = listing_output (tree_entry_line <$> es).
Proof.
  unfold ls_tree_output, listing_output. f_equal.
  induction es as [|e es IH]; [done|].
  csimpl. by rewrite IH, ls_tree_line_entry.
Qed.

Lemma tree_entry_line_plain e :
  plain_entry e = true → plain_name (tree_entry_line e) = true.
Proof.
  unfold plain_entry. rewrite !andb_true_iff. intros [[Hm Ho] Hp].
  pose proof (token_inv _ Hm) as (_ & Hm' & (cm & Hcm & Hcm') & _).
  pose proof (token_inv _ Ho) as (_ & Ho' & _).
  pose proof (token_inv _ Hp) as (_ & Hp' & _ & (cp & Hcp & Hcp')).
  unfold plain_name, tree_entry_line. rewrite !andb_true_iff. split_and!.
  - rewrite !all_chars_app, Hm', Ho', Hp'. done.
  - rewrite (first_char_app _ _ cm) by done. simpl. by rewrite Hcm'.
  - assert (last_char (te_mode e +:+ " blob " +:+ te_object e +:+ TAB
                        +:+ te_path e) = Some cp) as ->
      by (do 4 apply last_char_app; exact Hcp).
    simpl. by rewrite Hcp'.
Qed.

Lemma ls_tree_lines es :
  Forall (λ e, plain_entry e = true) es →
  splitlines (strip (ls_tree_output es)) = tree_entry_line <$> es.
Proof.
  intros Hes.
  assert (Forall (λ p, plain_name p = true) (tree_entry_line <$> es)) as Hplain.
  { apply Forall_fmap. eapply Forall_impl; [exact Hes|].
    intros e He. by apply tree_entry_line_plain. }
  by rewrite ls_tree_output_listing, strip_listing, splitlines_join.
Qed.
End mode_facts.

(** ** Manifests written back *)

Section pin_facts.
Import PyStr.

Lemma last_char_all f s :
  s ≠ "" → all_chars f s = true → ∃ c, last_char s = Some c ∧ f c = true.
Proof.
  destruct s as [|c s]; [done|]. intros _. revert c.
  induction s as [|d s IH]; intros c Hall.
  - exists c. simpl in Hall. by apply andb_true_iff in Hall as [Hc _].
  - change (last_char (String c (String d s))) with (last_char (String d s)).
    apply IH. simpl in Hall. by apply andb_true_iff in Hall as [_ Hall].
Qed.

Lemma first_char_all f s :
  s ≠ "" → all_chars f s = true → ∃ c, first_char s = Some c ∧ f c = true.
Proof.
  destruct s as [|c s]; [done|]. intros _ Hall. exists c.
  simpl in Hall. by apply andb_true_iff in Hall as [Hc _].
Qed.

Lemma strip_blank_free s :
  all_chars (λ c, negb (is_space c)) s = true → strip s = s.
Proof.
  intros Hall. destruct (decide (s = "")) as [->|Hne]; [done|].
  destruct (first_char_all _ s Hne Hall) as (c & Hc & Hcs).
  destruct (last_char_all _ s Hne Hall) as (d & Hd & Hds).
  apply negb_true_iff in Hcs, Hds. unfold strip, strip_by.
  rewrite (lstrip_keep _ _ c) by done. by apply (rstrip_keep _ _ d).
Qed.

Lemma pin_text_inv s :
  pin_text s = true →
  all_chars (λ c, negb (is_space c)) s = true
  ∧ all_chars (λ c, negb (bool_decide (c = "="%char))) s = true.
Proof.
  unfold pin_text. intros H.
  split; (eapply all_chars_impl; [|exact H]); intros c;
    rewrite andb_true_iff; tauto.
Qed.

Lemma prefix_eq_other c s :
  c ≠ "="%char → String.prefix "==" (String c s) = false.
Proof.
  intros Hc. cbn [String.prefix].
  destruct (ascii_dec "=" c) as [<-|_]; done.
Qed.

Lemma split_eq_text e cur s :
  all_chars (λ c, negb (bool_decide (c = "="%char))) e = true →
  split_go "==" 0 cur (e +:+ s) = split_go "==" 0 (cur +:+ e) s.
Proof.
  revert cur. induction e as [|c e IH]; intros cur He.
  - by rewrite str_app_nil_l, str_app_nil_r.
  - simpl in He. apply andb_true_iff in He as [Hc He].
    apply negb_true_iff, bool_decide_eq_false in Hc. rewrite str_app_cons.
    change (split_go "==" 0 cur (String c (e +:+ s)))
      with (if String.prefix "==" (String c (e +:+ s))
            then cur :: split_go "==" 1 "" (e +:+ s)
            else split_go "==" 0 (cur +:+ char c) (e +:+ s)).
    rewrite prefix_eq_other, IH by done.
    unfold char. by rewrite str_app_assoc.
Qed.

Lemma split_eq_sep cur s :
  split_go "==" 0 cur ("==" +:+ s) = cur :: split_go "==" 0 "" s.
Proof. by destruct s. Qed.

Lemma split_specifier pin :
  plain_pin pin = true → split "==" (specifier pin) = [pin.1; pin.2].
Proof.
  unfold plain_pin. rewrite !andb_true_iff. intros [[Hn Hv] _].
  apply pin_text_inv in Hn as [_ Hn]. apply pin_text_inv in Hv as [_ Hv].
  unfold split, specifier.
  rewrite split_eq_text, split_eq_sep, str_app_nil_l by done.
  rewrite <-(str_app_nil_r pin.2) at 1.
  by rewrite split_eq_text, str_app_nil_l.
Qed.

Lemma specifier_plain pin :
  plain_pin pin = true → plain_name (specifier pin) = true.
Proof.
  unfold plain_pin. rewrite !andb_true_iff. intros [[Hn Hv] _].
  apply pin_text_inv in Hn as [Hn _]. apply pin_text_inv in Hv as [Hv _].
  assert (all_chars (λ c, negb (is_space c)) (specifier pin) = true) as Hall.
  { unfold specifier. by rewrite !all_chars_app, Hn, Hv. }
  assert (specifier pin ≠ "") as Hne.
  { unfold specifier. by destruct pin.1. }
  destruct (first_char_all _ _ Hne Hall) as (c & Hc & Hcs).
  destruct (last_char_all _ _ Hne Hall) as (d & Hd & Hds).
  unfold plain_name. rewrite Hc, Hd. simpl. rewrite Hcs, Hds, !andb_true_r.
  eapply all_chars_impl; [|exact Hall]. intros x Hx. cbv beta in *.
  apply negb_true_iff in Hx. apply negb_true_iff.
  destruct (is_linebreak x) eqn:E; [|done].
  apply linebreak_is_space in E. congruence.
Qed.

Lemma startswith_specifier pin :
  startswith "#" (specifier pin) = startswith "#" pin.1.
Proof.
  unfold specifier, startswith. destruct pin.1 as [|c s]; [done|].
  rewrite str_app_cons. cbn [String.prefix].
  destruct (ascii_dec "#" c); [|done].
  by destruct s, pin.2.
Qed.

Lemma pin_of_specifier pin :
  plain_pin pin = true → pin_of_line (specifier pin) = Some pin.
Proof.
  intros Hpin. pose proof (specifier_plain _ Hpin) as Hplain.
  pose proof (split_specifier _ Hpin) as Hsplit.
  unfold plain_pin in Hpin. rewrite !andb_true_iff in Hpin.
  destruct Hpin as [[Hn Hv] Hhash].
  apply pin_text_inv in Hn as [Hn _]. apply pin_text_inv in Hv as [Hv _].
  assert (strip (specifier pin) = specifier pin) as Hstrip.
  { apply strip_blank_free. unfold specifier.
    by rewrite !all_chars_app, Hn, Hv. }
  unfold pin_of_line. rewrite Hstrip, startswith_specifier, Hhash, Hsplit.
  rewrite !strip_blank_free by done.
  assert (truthy (specifier pin) = true) as ->.
  { unfold specifier. by destruct pin.1. }
  by destruct pin.
Qed.

Lemma pin_lines_specifiers pins :
  Forall (λ pin, plain_pin pin = true) pins →
  pin_lines (join NL (specifier <$> pins)) = pins.
Proof.
  intros Hpins. unfold pin_lines.
  rewrite splitlines_join.
  - induction Hpins as [|pin pins Hpin _ IH]; [done|].
    csimpl. by rewrite pin_of_specifier, IH.
  - apply Forall_fmap. eapply Forall_impl; [exact Hpins|].
    intros pin Hpin. by apply specifier_plain.
Qed.
End pin_facts.

(** X13.  Specifiers are read back as the pins they were made from: for
    pins with distinct names whose names and versions hold no blank and no
    equals sign, and whose names do not start with [#], parsing the text
    [download_wheels] hands to pip (the specifiers joined by newlines)
    gives the pins back, in order. *)
Theorem requirements_round_trip (pins : list (string * string)) :
  Forall (λ pin, plain_pin pin = true) pins →
  NoDup pins.*1 →
  parse_requirements (PyStr.join NL (specifier <$> pins)) = pins.
Proof.
  intros Hpins Hnd.
  rewrite parse_requirements_distinct; rewrite pin_lines_specifiers; done.
Qed.

Lemma requirements_round_trip_scenario :
  parse_requirements (PyStr.join NL ["a==2.0"; "b==1.0"])
  = [("a", "2.0"); ("b", "1.0")].
Proof.
  apply (requirements_round_trip [("a", "2.0"); ("b", "1.0")]).
  - by repeat constructor.
  - apply NoDup_ListNoDup. repeat constructor; simpl; intuition discriminate.
Defined.

(** ** Path components *)

Section path_facts.
Import PyStr.

Lemma free_of_cons z c s :
  free_of z (String c s) = true ↔ c ≠ z ∧ free_of z s = true.
Proof.
  unfold free_of. simpl. rewrite andb_true_iff, negb_true_iff.
  by rewrite bool_decide_eq_false.
Qed.

Lemma free_of_app z s t :
  free_of z (s +:+ t) = free_of z s && free_of z t.
Proof. apply all_chars_app. Qed.

Lemma split_go_at z cur s :
  split_go (String z "") 0 cur (String z s)
  = cur :: split_go (String z "") 0 "" s.
Proof.
  change (split_go (String z "") 0 cur (String z s))
    with (if String.prefix (String z "") (String z s)
          then cur :: split_go (String z "") 0 "" s
          else split_go (String z "") 0 (cur +:+ char z) s).
  by rewrite prefix_char, bool_decide_eq_true_2.
Qed.

Lemma split_go_piece z e cur s :
  free_of z e = true →
  split_go (String z "") 0 cur (e +:+ s)
  = split_go (String z "") 0 (cur +:+ e) s.
Proof.
  revert cur. induction e as [|c e IH]; intros cur He.
  - by rewrite str_app_nil_l, str_app_nil_r.
  - apply free_of_cons in He as [Hc He]. rewrite str_app_cons.
    rewrite split_go_other by done. rewrite IH by done.
    unfold char. by rewrite str_app_assoc.
Qed.

Lemma split_join_char z es :
  es ≠ [] → Forall (λ e, free_of z e = true) es →
  split (String z "") (join (String z "") es) = es.
Proof.
  unfold split. intros Hne Hes. induction Hes as [|e es He Hes IH]; [done|].
  destruct es as [|e' es].
  - simpl. rewrite <-(str_app_nil_r e) at 1.
    by rewrite split_go_piece, str_app_nil_l.
  - change (join (String z "") (e :: e' :: es))
      with (e +:+ String z (join (String z "") (e' :: es))).
    rewrite split_go_piece, split_go_at, IH by done. done.
Qed.

Lemma split_go_pieces z cur s :
  free_of z cur = true →
  Forall (λ e, free_of z e = true) (split_go (String z "") 0 cur s).
Proof.
  revert cur. induction s as [|c s IH]; intros cur Hcur.
  - by repeat constructor.
  - destruct (decide (c = z)) as [->|Hc].
    + rewrite split_go_at. constructor; [done|]. by apply IH.
    + rewrite split_go_other by done. apply IH.
      rewrite free_of_app, Hcur. simpl. apply free_of_cons. done.
Qed.

Lemma parts_pieces p :
  Forall (λ e, free_of "/" e = true ∧ e ≠ "" ∧ e ≠ ".") (PyPath.parts p).
Proof.
  unfold PyPath.parts. apply Forall_forall. intros e He.
  apply list_elem_of_filter in He as [He Hin]. split; [|done].
  pose proof (split_go_pieces "/" "" p eq_refl) as Hall.
  by eapply Forall_forall in Hall.
Qed.

Lemma replace_free z new s :
  free_of z new = true → free_of z (replace z new s) = true.
Proof.
  intros Hnew. induction s as [|c s IH]; [done|]. simpl.
  destruct (bool_decide (c = z)) eqn:Hc.
  - by rewrite free_of_app, Hnew, IH.
  - apply free_of_cons. by apply bool_decide_eq_false in Hc.
Qed.

Lemma default_package_name_free args :
  free_of "/" (default_package_name args) = true.
Proof.
  unfold default_package_name. destruct (full args);
    by rewrite !free_of_app, !replace_free.
Qed.

Lemma parts_single name :
  free_of "/" name = true → name ≠ "" → name ≠ "." →
  PyPath.parts name = [name].
Proof.
  intros Hfree Hne Hdot. unfold PyPath.parts.
  pose proof (split_join_char "/" [name]) as Hsplit. simpl in Hsplit.
  rewrite Hsplit by (by repeat constructor).
  by rewrite filter_cons_True, filter_nil.
Qed.

(** A rendered path, as the pieces between its slashes. *)
Lemma render_pieces rt cs :
  cs ≠ [] → (rt = "" ∨ rt = "/" ∨ rt = "//") →
  ∃ pre,
    PyPath.render rt cs = join "/" (pre ++ cs)
    ∧ Forall (λ e, e = "") pre.
Proof.
  intros Hne Hrt. unfold PyPath.render.
  assert (is_empty rt && bool_decide (cs = []) = false) as ->.
  { rewrite bool_decide_eq_false_2 by done. apply andb_false_r. }
  destruct cs as [|c cs]; [done|].
  destruct Hrt as [->|[->| ->]].
  - by exists [].
  - exists [""]. by repeat constructor.
  - exists [""; ""]. by repeat constructor.
Qed.

Lemma root_cases p : PyPath.root p = "" ∨ PyPath.root p = "/" ∨ PyPath.root p = "//".
Proof.
  unfold PyPath.root. repeat case_match; auto.
Qed.

Lemma filter_parts_pre (pre cs : list string) :
  Forall (λ e, e = "") pre →
  Forall (λ e, free_of "/" e = true ∧ e ≠ "" ∧ e ≠ ".") cs →
  filter (λ c, c ≠ "" ∧ c ≠ ".") (pre ++ cs) = cs.
Proof.
  intros Hpre Hcs. rewrite filter_app.
  assert (filter (λ c, c ≠ "" ∧ c ≠ ".") pre = []) as ->.
  { induction Hpre as [|e pre -> _ IH]; [done|].
    rewrite filter_cons_False; [done|]. by intros [? _]. }
  induction Hcs as [|e cs (_ & ? & ?) _ IH]; [done|].
  rewrite filter_cons_True by done. simpl in *. by rewrite IH.
Qed.

Lemma root_other x rest :
  x ≠ "/"%char →
  PyPath.root (String x rest) = ""
  ∧ PyPath.root (String "/" (String x rest)) = "/"
  ∧ PyPath.root (String "/" (String "/" (String x rest))) = "//".
Proof.
  intros Hx. destruct x as [[] [] [] [] [] [] [] []]; done.
Qed.

Lemma root_render rt c cs :
  (rt = "" ∨ rt = "/" ∨ rt = "//") →
  free_of "/" c = true → c ≠ "" →
  PyPath.root (PyPath.render rt (c :: cs)) = rt.
Proof.
  intros Hrt Hfree Hne. unfold PyPath.render.
  rewrite bool_decide_eq_false_2, andb_false_r by done.
  destruct c as [|x c]; [done|]. apply free_of_cons in Hfree as [Hx _].
  assert (∃ rest, join "/" (String x c :: cs) = String x rest) as [rest ->].
  { destruct cs; simpl; [by eexists|]. rewrite str_app_cons. by eexists. }
  destruct (root_other x rest Hx) as (H0 & H1 & H2).
  by destruct Hrt as [->|[->| ->]].
Qed.

Lemma joinpath_default w args :
  let name := default_package_name args in
  PyPath.basename (PyPath.joinpath (cwd w) name) = name
  ∧ PyPath.parent (PyPath.joinpath (cwd w) name) = PyPath.normal (cwd w).
Proof.
  cbn zeta. pose proof (default_package_name_free args) as Hfree.
  assert (∃ rest, default_package_name args = String "I" rest) as [rest Hshape].
  { unfold default_package_name.
    destruct (full args); rewrite str_app_cons; by eexists. }
  remember (default_package_name args) as name eqn:Hname in *.
  assert (name ≠ "" ∧ name ≠ "." ∧ startswith "/" name = false)
    as (Hne & Hdot & Hstart) by by rewrite Hshape.
  clear Hshape Hname.
  unfold PyPath.joinpath. rewrite Hstart, (parts_single name) by done.
  pose proof (parts_pieces (cwd w)) as Hcs.
  set (cs := PyPath.parts (cwd w)) in *.
  assert (Forall (λ e, free_of "/" e = true ∧ e ≠ "" ∧ e ≠ ".") (cs ++ [name]))
    as Hall.
  { apply Forall_app. split; [done|]. by repeat constructor. }
  destruct (render_pieces (PyPath.root (cwd w)) (cs ++ [name]))
    as (pre & Hrender & Hpre); [by destruct cs|apply root_cases|].
  assert (split "/" (PyPath.render (PyPath.root (cwd w)) (cs ++ [name]))
          = pre ++ cs ++ [name]) as Hsplit.
  { rewrite Hrender. apply split_join_char; [by destruct pre, cs|].
    apply Forall_app. split.
    - eapply Forall_impl; [exact Hpre|]. by intros e ->.
    - eapply Forall_impl; [exact Hall|]. by intros e [? _]. }
  split.
  - unfold PyPath.basename. rewrite Hsplit.
    by rewrite !app_assoc, List.last_last.
  - unfold PyPath.parent, PyPath.parts at 1. rewrite Hsplit.
    rewrite filter_parts_pre by done.
    rewrite removelast_last.
    unfold PyPath.normal. fold cs. f_equal.
    destruct (cs ++ [name]) as [|c cs'] eqn:E; [by destruct cs|].
    apply Forall_inv in Hall as (? & ? & _).
    apply root_render; [apply root_cases|done..].
Qed.
End path_facts.

Lemma main_created_path w args out a :
  (main w args).2 = Ok (PackageCreated out a) →
  out = package_path w args ∧ gz_filename a = out.
Proof.
  intros [Hbody _]%main_ok_inv.
  pose proof Hbody as Hstages.
  apply main_body_inv in Hstages
    as (root & deps & adds & dels & hw & final & Hroot & Hpre & Hgather
        & Hdown & Hfilter).
  rewrite (main_body_result w args root deps adds dels hw final) in Hbody
    by done.
  destruct (nonempty final || hw); [|done].
  destruct (create_archive _ _ _ _ _ _ _ _).2 as [a'|e] eqn:Hcreate; [|done].
  injection Hbody as <- <-. split; [done|].
  by apply create_archive_members in Hcreate as (_ & _ & Hout & _).
Qed.

(** X14.  Where the package lands: the path a run reports is the one
    the archive carries and is [package_path]; without [-o] (or with an
    empty one) the file name is the default name, which holds no slash
    whatever slashes the revision names hold, and the file lies directly
    in the current directory. *)
Theorem default_package_location (w : World) (args : Args) (out : string)
    (a : Archive) :
  (main w args).2 = Ok (PackageCreated out a) →
  gz_filename a = out
  ∧ out = package_path w args
  ∧ (output_file args = None ∨ output_file args = Some "" →
     free_of "/" (default_package_name args) = true
     ∧ PyPath.basename out = default_package_name args
     ∧ PyPath.parent out = PyPath.normal (cwd w)).
Proof.
  intros [-> Hgz]%main_created_path. split_and!; [done..|].
  intros Hfile. split; [apply default_package_name_free|].
  assert (package_path w args
          = PyPath.joinpath (cwd w) (default_package_name args)) as ->
    by (unfold package_path; by destruct Hfile as [-> | ->]).
  apply joinpath_default.
Qed.

Lemma default_package_location_scenario :
  ∃ out a,
    (main world_release (sample_args false)).2 = Ok (PackageCreated out a)
    ∧ PyPath.parent out = "/repo"
    ∧ PyPath.basename out = "ITG_Update_v1_to_v2.tar.gz".
Proof.
  assert (∃ out a,
            (main world_release (sample_args false)).2
            = Ok (PackageCreated out a)) as (out & a & Hmain)
    by (vm_compute; by eexists _, _).
  exists out, a. split; [exact Hmain|].
  destruct (default_package_location _ _ _ _ Hmain) as (_ & _ & Hloc).
  destruct (Hloc (or_introl eq_refl)) as (_ & Hbase & Hparent).
  split; [exact Hparent|exact Hbase].
Defined.

(** X15.  Modes of paths without blank: when [git ls-tree -r] prints
    one line for each of the entries [es], all fields without blank and
    the paths distinct, then in every archive [create_archive] returns the
    member [app/<path>] carries the mode git records for that path, read
    in base 8, and a path git printed no line for gets [0o644]. *)
Theorem app_member_mode_recorded (w : World) (root out : string)
    (adds dels : list string) (tmp v : string) (hw : bool)
    (es : list TreeEntry) (r : CompletedProcess) (a : Archive) :
  subprocess_run w (ls_modes_command v adds) (Some root) None = Some r →
  stdout r = ls_tree_output es →
  Forall (λ e, plain_entry e = true) es →
  NoDup (te_path <$> es) →
  (create_archive w root out adds dels tmp v hw).2 = Ok a →
  ∀ m p, m ∈ tar_entries a → member_name m = "app/" +:+ p →
    (∀ e, e ∈ es → te_path e = p →
          PyStr.int_base8 (te_mode e) = Some (ti_mode m.1))
    ∧ (p ∉ te_path <$> es → ti_mode m.1 = 420).
Proof.
  intros Hrun Hout Hes Hnd Hcreate m p Hm Hname.
  apply create_archive_members in Hcreate as (app_members & Hprep & _ & _ & Hmem).
  apply app_members_of in Hprep as (file_modes & Hmodes & Hall).
  apply Hmem in Hm as [(x & Hx & ->)|[(x & Hx & ->)|Hm]].
  - apply list_elem_of_lookup in Hx as [i Hi].
    destruct (Forall2_lookup_r _ _ _ _ _ Hall Hi)
      as (q & Hq & shown & _ & _ & ->).
    apply app_name_inj in Hname as <-.
    destruct Hmodes as (ls & Hls & Hfold).
    { intros ->. by rewrite lookup_nil in Hq. }
    rewrite run_command_result in Hls. apply command_result_ok in Hls.
    rewrite Hrun in Hls. injection Hls as <-.
    rewrite Hout, ls_tree_lines in Hfold by done.
    split.
    + intros e He <-.
      destruct (file_modes_recorded es ∅ file_modes e Hes Hnd Hfold He)
        as (mode & Hmode & Hlook).
      rewrite Hmode. simpl. by rewrite Hlook.
    + intros Hp. simpl.
      rewrite (file_modes_other es ∅ file_modes q Hes Hfold Hp).
      by rewrite lookup_empty.
  - apply delete_list_members_name in Hx.
    rewrite member_name_written in Hname. unfold member_name in Hname.
    by rewrite Hx in Hname.
  - apply wheel_member_name in Hm as (e & _ & He).
    rewrite He in Hname. by apply wheel_name_not_app in Hname.
Qed.

Lemma app_member_mode_scenario :
  ∃ a m,
    (create_archive world_release "/repo" "/repo/out.tar.gz"
       ["app.py"; "y.txt"] [] "/tmp/t" "v2" false).2 = Ok a
    ∧ m ∈ tar_entries a ∧ member_name m = "app/app.py"
    ∧ ti_mode m.1 = 33261.
Proof.
  assert (∃ a,
            (create_archive world_release "/repo" "/repo/out.tar.gz"
               ["app.py"; "y.txt"] [] "/tmp/t" "v2" false).2 = Ok a)
    as [a Ha] by (vm_compute; by eexists).
  destruct (proj1 (create_archive_app_contents _ _ _ _ _ _ _ _ _ Ha) "app.py")
    as (m & Hm & Hname); [left|].
  exists a, m. split_and!; [done..|].
  pose proof (app_member_mode_recorded world_release "/repo" "/repo/out.tar.gz"
                ["app.py"; "y.txt"] [] "/tmp/t" "v2" false
                [{| te_mode := "100755"; te_object := sha_a;
                    te_path := "app.py" |};
                 {| te_mode := "100644"; te_object := sha_b;
                    te_path := "y.txt" |}]
                (completed (ls_tree_line "100755" sha_a "app.py"
                            +:+ ls_tree_line "100644" sha_b "y.txt"))
                a) as Hmode.
  destruct (Hmode eq_refl eq_refl) with (m := m) (p := "app.py")
    as [Hrec _]; [by repeat constructor| |done..|].
  - apply NoDup_ListNoDup. repeat constructor; simpl; intuition discriminate.
  - specialize (Hrec _ (list_elem_of_here _ _) eq_refl).
    assert (PyStr.int_base8 "100755" = Some 33261) as Hoct by reflexivity.
    cbn [te_mode] in Hrec. rewrite Hoct in Hrec. by injection Hrec as <-.
Defined.

(** ** What a run reports *)

Lemma quiet_ret {A} (a : A) : quiet (mret a : M A).
Proof. apply not_elem_of_nil. Qed.

Lemma quiet_raise {A} cls msg : quiet (raise cls msg : M A).
Proof. apply not_elem_of_nil. Qed.

Lemma quiet_sys_exit {A} code : quiet (sys_exit code : M A).
Proof. apply not_elem_of_nil. Qed.

Lemma quiet_log l msg :
  first_char msg ≠ Some PyStr.lf → quiet (log l msg).
Proof.
  intros Hmsg Hin. apply list_elem_of_singleton in Hin.
  injection Hin as _ <-. by apply Hmsg.
Qed.

Lemma quiet_log_level l msg : l ≠ INFO → quiet (log l msg).
Proof.
  intros Hl Hin. apply list_elem_of_singleton in Hin.
  injection Hin as <- _. by apply Hl.
Qed.

Lemma quiet_bind {A B} (m : M A) (f : A → M B) :
  quiet m → (∀ a, quiet (f a)) → quiet (m ≫= f).
Proof.
  intros Hm Hf. unfold quiet. rewrite bind_log.
  destruct (m.2) as [a|e]; [|done].
  rewrite elem_of_app. intros [?|?]; [by apply Hm|by apply (Hf a)].
Qed.

Lemma quiet_foldM {A B} (f : B → A → M B) (l : list A) (b : B) :
  (∀ b x, quiet (f b x)) → quiet (foldM f l b).
Proof.
  intros Hf. revert b.
  induction l as [|x l IH]; intros b; [apply quiet_ret|].
  apply quiet_bind; auto.
Qed.

Lemma quiet_mapM {A B} (f : A → M B) (l : list A) :
  (∀ x, quiet (f x)) → quiet (mapM f l).
Proof.
  intros Hf. induction l as [|x l IH]; [apply not_elem_of_nil|].
  apply quiet_bind; [auto|]. intros y.
  apply quiet_bind; [auto|]. intros ys. apply not_elem_of_nil.
Qed.

Lemma quiet_when b m : quiet m → quiet (when b m).
Proof. destruct b; [done|]. intros _. apply not_elem_of_nil. Qed.

Lemma quiet_run_command w command check dir input :
  quiet (run_command w command check dir input).
Proof.
  unfold run_command.
  destruct (subprocess_run w command dir input) as [r|].
  - destruct (check && _); [|apply quiet_ret].
    repeat (apply quiet_bind; [|intros ?]);
      first [by apply quiet_log_level | apply quiet_sys_exit].
  - apply quiet_bind; [by apply quiet_log_level|intros ?; apply quiet_sys_exit].
Qed.

Ltac quiet_step :=
  first
    [ apply quiet_ret | apply quiet_raise | apply quiet_sys_exit
    | apply quiet_run_command
    | apply quiet_log_level; discriminate
    | apply quiet_log; rewrite ?str_app_cons; discriminate
    | apply quiet_when
    | apply quiet_foldM; intros
    | apply quiet_mapM; intros
    | apply quiet_bind; [|intros]
    | match goal with
      | |- quiet (match ?x with _ => _ end) => destruct x
      | |- quiet (let '(_, _) := ?x in _) => destruct x
      end ].

Ltac quiet_solve := repeat quiet_step.

Lemma quiet_preflight_checks w root old new force :
  quiet (preflight_checks w root old new force).
Proof. unfold preflight_checks. quiet_solve. Qed.

Lemma quiet_get_file_content_from_git w root v p :
  quiet (get_file_content_from_git w root v p).
Proof. unfold get_file_content_from_git. quiet_solve. Qed.

Lemma quiet_get_all_dependencies w root v :
  quiet (get_all_dependencies w root v).
Proof.
  unfold get_all_dependencies.
  repeat first [apply quiet_get_file_content_from_git | quiet_step].
Qed.

Lemma quiet_get_dependency_changes w root old new :
  quiet (get_dependency_changes w root old new).
Proof.
  unfold get_dependency_changes, dependency_changes_step.
  repeat first [apply quiet_get_file_content_from_git | quiet_step].
Qed.

Lemma quiet_get_all_files w root v : quiet (get_all_files w root v).
Proof. unfold get_all_files. quiet_solve. Qed.

Lemma quiet_get_file_diff_loop entries adds dels :
  quiet (get_file_diff_loop entries adds dels).
Proof.
  remember (length entries) as n eqn:Hn.
  revert entries adds dels Hn.
  induction (lt_wf n) as [n _ IH]; intros entries adds dels ->.
  destruct entries as [|status rest]; [apply quiet_ret|].
  simpl. destruct (PyStr.startswith "R" status).
  - destruct rest as [|o [|nw rest']]; try apply quiet_raise.
    eapply IH; [|reflexivity]. simpl. lia.
  - destruct rest as [|e rest']; [apply quiet_raise|].
    destruct (bool_decide (status = "D"));
      (eapply IH; [|reflexivity]); simpl; lia.
Qed.

Lemma quiet_get_file_diff w root old new :
  quiet (get_file_diff w root old new).
Proof.
  unfold get_file_diff.
  repeat first [apply quiet_get_file_diff_loop | quiet_step].
Qed.

Lemma quiet_download_wheels w changes tmp py plat :
  quiet (download_wheels w changes tmp py plat).
Proof. unfold download_wheels. quiet_solve. Qed.

Lemma quiet_filter_files w root files :
  quiet (filter_files_with_distignore w root files).
Proof. unfold filter_files_with_distignore. quiet_solve. Qed.

Lemma quiet_file_modes_item m line : quiet (file_modes_item m line).
Proof. unfold file_modes_item. quiet_solve. Qed.

Lemma quiet_create_archive w root out adds dels tmp v hw :
  quiet (create_archive w root out adds dels tmp v hw).
Proof.
  unfold create_archive, prepare_app_members.
  repeat first [apply quiet_file_modes_item | quiet_step].
Qed.

Lemma quiet_find_project_root w : quiet (find_project_root w).
Proof. unfold find_project_root. quiet_solve. Qed.

Lemma quiet_gather_changes w args root : quiet (gather_changes w args root).
Proof.
  unfold gather_changes.
  repeat first
    [ apply quiet_get_all_dependencies | apply quiet_get_all_files
    | apply quiet_get_dependency_changes | apply quiet_get_file_diff
    | quiet_step ].
Qed.

Lemma faithful_bind {A} (m : M A) (f : A → M outcome) :
  quiet m → (∀ a, faithful (f a)) → faithful (m ≫= f).
Proof.
  intros Hm Hf. unfold faithful in *. rewrite bind_log, bind_result.
  destruct (m.2) as [a|e].
  - rewrite elem_of_app, <-(Hf a). split; [|by right].
    intros [Hin|Hin]; [by apply Hm in Hin|done].
  - split; [by intros ?%Hm|]. by intros (out & a & ?).
Qed.

Lemma faithful_main_body w args : faithful (main_body w args).
Proof.
  unfold main_body.
  apply faithful_bind; [apply quiet_find_project_root|]. intros root.
  apply faithful_bind; [quiet_solve|]. intros [].
  apply faithful_bind.
  { destruct (full args); unfold Style.BLUE;
      repeat first [apply quiet_preflight_checks | quiet_step]. }
  intros path.
  apply faithful_bind; [apply quiet_gather_changes|].
  intros [[deps adds] dels].
  apply faithful_bind; [apply quiet_download_wheels|]. intros hw.
  apply faithful_bind; [apply quiet_filter_files|]. intros final.
  destruct (nonempty final || hw).
  - apply faithful_bind; [apply quiet_create_archive|]. intros a.
    split; [by eexists _, _|]. intros _. left.
  - split; [|by intros (out & a & ?)].
    intros Hin. apply list_elem_of_singleton in Hin. discriminate.
Qed.

Lemma faithful_main w args : faithful (main w args).
Proof.
  pose proof (faithful_main_body w args) as Hbody. unfold faithful, main in *.
  destruct ((main_body w args).2) as [x|[code|cls msg]] eqn:E;
    cbn [fst snd]; rewrite ?E; [done..|].
  rewrite elem_of_app, Hbody. split; [|by intros (out & a & ?)].
  intros [(out & a & ?)|Hin]; [done|].
  apply elem_of_cons in Hin as [Hin|Hin]; [discriminate|].
  apply list_elem_of_singleton in Hin. discriminate.
Qed.

(** X16.  The log tells the truth about the package: the record
    [--- Success! ---] is logged by exactly the runs that return a
    package. *)
Theorem success_announced_iff_package (w : World) (args : Args) :
  success_record ∈ (main w args).1
  ↔ ∃ out a, (main w args).2 = Ok (PackageCreated out a).
Proof. apply faithful_main. Qed.

Lemma find_none {A} (f : A → bool) (l : list A) :
  Forall (λ x, f x = false) l → List.find f l = None.
Proof.
  induction 1 as [|x l Hx _ IH]; [done|]. simpl. by rewrite Hx.
Qed.

(** X17.  Outside a repository: when no directory from the script
    upwards holds a [.git] directory, the run ends in [sys.exit(1)] and
    logs two ERROR records and nothing else, the first one
    [An unexpected error occurred: ] followed by the message of the
    [FileNotFoundError]. *)
Theorem main_outside_repository (w : World) (args : Args) :
  Forall (λ d, d.2 = false) (script_ancestors w) →
  (main w args).2 = Fail (SystemExit 1)
  ∧ ∃ traceback,
      (main w args).1
      = [(ERROR, NL +:+ "An unexpected error occurred: " +:+ no_root_message);
         (ERROR, traceback)].
Proof.
  intros Hnone. unfold main, main_body, find_project_root.
  rewrite (find_none snd _ Hnone). split; [done|]. by eexists.
Qed.

Lemma main_outside_repository_scenario :
  (main world_no_repository (sample_args false)).2 = Fail (SystemExit 1).
Proof.
  apply (main_outside_repository world_no_repository (sample_args false)).
  by repeat constructor.
Defined.

(** * Where the script goes wrong *)

(** C2.  Two manifests in one directory: the entry of the directory is
    overwritten.  When [a/] holds [dev-requirements.txt] (from [t==1] to
    [t==2]) and [requirements.txt] (from [y==1] to [y==2]), the resolver
    logs a changed dependency of module [a] twice and returns [y==2] only;
    when it holds [requirements.txt] and [test-requirements.txt], it
    returns [t==2] only.  In both runs a pin of the new revision whose
    version differs from the old one is missing from the delta of its
    module. *)
Theorem dependency_delta_lost_for_shared_directory :
  (manifests_of (listing_output ["a/dev-requirements.txt"; "a/requirements.txt"])
   = ["a/dev-requirements.txt"; "a/requirements.txt"]
   ∧ manifest_delta ("t==1" +:+ NL) ("t==2" +:+ NL) = ["t==2"]
   ∧ get_dependency_changes world_two_manifests "/repo" "v1" "v2"
     = ([(INFO, "--- Analyzing Python dependency changes ---");
         found_one_changed "a"; found_one_changed "a"],
        Ok [("a", ["y==2"])]))
  ∧ (manifests_of
       (listing_output ["a/requirements.txt"; "a/test-requirements.txt"])
     = ["a/requirements.txt"; "a/test-requirements.txt"]
     ∧ manifest_delta ("y==1" +:+ NL) ("y==2" +:+ NL) = ["y==2"]
     ∧ get_dependency_changes world_test_manifest "/repo" "v1" "v2"
       = ([(INFO, "--- Analyzing Python dependency changes ---");
           found_one_changed "a"; found_one_changed "a"],
          Ok [("a", ["t==2"])])).
Proof. split_and!; vm_compute; reflexivity. Qed.

(** C3.  The empty sequence of records: when the two revisions hold the
    same tree, git prints nothing, the entries are [''.split('\0')], that
    is one empty entry, and the resolver raises [IndexError] on
    [entries[1]] where the two sets are both empty; the run ends with
    exit status 1. *)
Theorem tree_diff_fails_on_empty_sequence :
  diff_tree_output [] = ""
  ∧ PyStr.split NUL (PyStr.strip_chars NUL "") = [""]
  ∧ (get_file_diff (world_diff []) "/repo" "v1" "v2").2
    = Fail (Raised "IndexError" "list index out of range")
  ∧ (main (world_diff []) (sample_args false)).2 = Fail (SystemExit 1).
Proof. split_and!; vm_compute; reflexivity. Qed.

(** C6.  Names that [strip] and [splitlines] do not leave alone: when the
    target revision tracks [ a.txt] and [b.txt ], the add-set of a
    snapshot is [a.txt], [b.txt], two paths the revision does not hold,
    and the run ends with exit status 1 when git cannot show them; when
    it tracks a name outside ASCII, which git prints quoted, the add-set
    holds the quoted text. *)
Theorem snapshot_listing_mangles_names :
  (subprocess_run world_blank_names (ls_names_command "v2") (Some "/repo") None
   = Some (completed (listing_output [" a.txt"; "b.txt "]))
   ∧ (get_all_files world_blank_names "/repo" "v2").2 = Ok ["a.txt"; "b.txt"]
   ∧ (main world_blank_names (sample_args true)).2 = Fail (SystemExit 1))
  ∧ (subprocess_run world_quoted_name (ls_names_command "v2")
       (Some "/repo") None
     = Some (completed (listing_output [quoted_name]))
     ∧ (get_all_files world_quoted_name "/repo" "v2").2 = Ok [quoted_name]
     ∧ first_char quoted_name = Some (Ascii.ascii_of_N 34)).
Proof. split_and!; vm_compute; reflexivity. Qed.

(** C8.  A deletion that the exclude list keeps from the target: the
    delta adds [README.md] and deletes [old.txt].  Under an exclude list
    that drops [*.md] the filtered add-set is empty and the run writes no
    package, so [old.txt] is never deleted on the target; without exclude
    list the same delta is packaged with [old.txt] in [delete.list]. *)
Theorem deletion_lost_when_rules_empty_add_set :
  (gather_changes world_all_excluded (sample_args false) "/repo").2
  = Ok ([], ["README.md"], ["old.txt"])
  ∧ (filter_files_with_distignore world_all_excluded "/repo" ["README.md"]).2
    = Ok []
  ∧ (main world_all_excluded (sample_args false)).2 = Ok NoPackage
  ∧ (gather_changes world_nothing_excluded (sample_args false) "/repo").2
    = Ok ([], ["README.md"], ["old.txt"])
  ∧ ∃ out a,
      (main world_nothing_excluded (sample_args false)).2
      = Ok (PackageCreated out a)
      ∧ members_named "delete.list" (tar_entries a)
        = [delete_list_written ["old.txt"]].
Proof.
  split_and!; [vm_compute; reflexivity..|].
  eexists _, _. split; vm_compute; reflexivity.
Qed.

(** ** The names in a delta *)





